(** * Schema synthesis and validation for huma: a shallow embedding

    This development embeds [schema.go] (type-to-schema synthesis, message
    precomputation, field resolution) as Rocq functions and proves the
    properties the specification states about them.  Go's [reflect] type
    descriptors become an inductive type, [*Schema] becomes a record, panics
    become the [Panic] case of a result type, and the registry that
    [SchemaFromType] calls back into is an interface (a type class), as it
    is in the Go code. *)

From Stdlib Require Import ZArith Floats DecimalString.
From stdpp Require Import base strings gmap list.

#[global] Set Warnings "-register-all".
#[local] Open Scope Z_scope.

(** ** Panics and state *)

(** A Go computation either returns or panics with a message. *)
Inductive Result (A : Type) : Type :=
| Ok (a : A)
| Panic (msg : string).
Arguments Ok {A} a.
Arguments Panic {A} msg.

Definition bindR {A B} (m : Result A) (k : A → Result B) : Result B :=
  match m with
  | Ok a => k a
  | Panic msg => Panic msg
  end.

Declare Scope result_scope.
Notation "'let!' x ':=' m 'in' k" := (bindR m (λ x, k))
  (at level 10, x name, m at level 100, k at level 200, only parsing) : result_scope.
Notation "'let!' ' p ':=' m 'in' k" := (bindR m (λ z, match z with p => k end))
  (at level 10, p pattern, m at level 100, k at level 200, only parsing) : result_scope.
Delimit Scope result_scope with result.
#[local] Open Scope result_scope.

Definition is_Ok {A} (m : Result A) : bool :=
  match m with Ok _ => true | Panic _ => false end.

Definition is_Panic {A} (m : Result A) : bool := negb (is_Ok m).

(** [mapM] over a list: the first panic wins, as in a Go [for] loop. *)
Fixpoint mapR {A B} (f : A → Result B) (l : list A) : Result (list B) :=
  match l with
  | [] => Ok []
  | x :: l' => let! y := f x in let! ys := mapR f l' in Ok (y :: ys)
  end.

(** ** Strings *)

Definition dquote : string := String (Ascii.ascii_of_nat 34) EmptyString.

Definition comma : Ascii.ascii := Ascii.ascii_of_nat 44.
Definition lbracket : Ascii.ascii := Ascii.ascii_of_nat 91.

(** [strings.Split(s, sep)] for a one-byte separator. *)
Fixpoint Split (s : string) (sep : Ascii.ascii) : list string :=
  match s with
  | EmptyString => [EmptyString]
  | String c r =>
      if Ascii.eqb c sep then EmptyString :: Split r sep
      else match Split r sep with
           | h :: t => String c h :: t
           | [] => [String c EmptyString]
           end
  end.

(** [strings.Contains(s, sub)]. *)
Fixpoint Contains (s sub : string) : bool :=
  String.prefix sub s ||
  match s with
  | EmptyString => false
  | String _ r => Contains r sub
  end.

(** [strings.Join(l, sep)]. *)
Fixpoint Join (l : list string) (sep : string) : string :=
  match l with
  | [] => EmptyString
  | [x] => x
  | x :: l' => x +:+ sep +:+ Join l' sep
  end.

(** [fmt.Sprintf("%d", n)]. *)
Definition Sprintf_d (n : Z) : string := NilZero.string_of_int (Z.to_int n).

(** ** reflect: type descriptors *)

Module reflect.

Inductive Kind : Set :=
| Invalid | Bool | Int | Int8 | Int16 | Int32 | Int64
| Uint | Uint8 | Uint16 | Uint32 | Uint64 | Uintptr
| Float32 | Float64 | Complex64 | Complex128
| Array | Chan | Func | Interface | Map | Ptr | Slice | String | Struct
| UnsafePointer.

#[global] Instance Kind_eq_dec : EqDecision Kind.
Proof. solve_decision. Defined.

(** Kinds of types that have no component type. *)
Inductive ScalarKind : Set :=
| SBool | SInt | SInt8 | SInt16 | SInt32 | SInt64
| SUint | SUint8 | SUint16 | SUint32 | SUint64 | SUintptr
| SFloat32 | SFloat64 | SComplex64 | SComplex128 | SString
| SUnsafePointer.

#[global] Instance ScalarKind_eq_dec : EqDecision ScalarKind.
Proof. solve_decision. Defined.

Definition scalarKind (k : ScalarKind) : Kind :=
  match k with
  | SBool => Bool | SInt => Int | SInt8 => Int8 | SInt16 => Int16
  | SInt32 => Int32 | SInt64 => Int64 | SUint => Uint | SUint8 => Uint8
  | SUint16 => Uint16 | SUint32 => Uint32 | SUint64 => Uint64
  | SUintptr => Uintptr | SFloat32 => Float32 | SFloat64 => Float64
  | SComplex64 => Complex64 | SComplex128 => Complex128
  | SString => String | SUnsafePointer => UnsafePointer
  end.

(** A struct tag in the conventional [key:"value" ...] form, as the list
    of its pairs in order; [Get] returns the first value for the key and
    the empty string when there is none. *)
Definition StructTag := list (string * string).

Fixpoint Get (tag : StructTag) (key : string) : string :=
  match tag with
  | [] => EmptyString
  | (k, v) :: tag' => if decide (k = key) then v else Get tag' key
  end.

(** The name of a defined type: package path and name, both empty for an
    unnamed type. *)
Record TypeName := { pkg : string; name : string }.

Definition unnamed : TypeName := {| pkg := ""; name := "" |}.

Record StructField_ (T : Type) := {
  Name : string;
  PkgPath : string;      (* empty for an exported field *)
  Type_ : T;
  Tag : StructTag;
  Anonymous : bool;
}.
Arguments Name {T} _.
Arguments PkgPath {T} _.
Arguments Type_ {T} _.
Arguments Tag {T} _.
Arguments Anonymous {T} _.

Inductive type : Type :=
| Scalar (nm : TypeName) (k : ScalarKind)
| PtrTo (nm : TypeName) (elem : type)
| SliceOf (nm : TypeName) (elem : type)
| ArrayOf (nm : TypeName) (len : Z) (elem : type)
| MapOf (nm : TypeName) (key elem : type)
| ChanOf (nm : TypeName) (elem : type)
| FuncOf (nm : TypeName)
| InterfaceOf (nm : TypeName)
| StructOf (nm : TypeName) (fields : list (StructField_ type)).

Definition StructField := StructField_ type.

Definition IsExported (f : StructField) : bool := bool_decide (PkgPath f = "").

Definition Kind_ (t : type) : Kind :=
  match t with
  | Scalar _ k => scalarKind k
  | PtrTo _ _ => Ptr
  | SliceOf _ _ => Slice
  | ArrayOf _ _ _ => Array
  | MapOf _ _ _ => Map
  | ChanOf _ _ => Chan
  | FuncOf _ => Func
  | InterfaceOf _ => Interface
  | StructOf _ _ => Struct
  end.

Definition typeName (t : type) : TypeName :=
  match t with
  | Scalar nm _ | PtrTo nm _ | SliceOf nm _ | ArrayOf nm _ _
  | MapOf nm _ _ | ChanOf nm _ | FuncOf nm | InterfaceOf nm
  | StructOf nm _ => nm
  end.

(** [t.Name()]. *)
Definition TName (t : type) : string := name (typeName t).

(** [t.Elem()]; Go panics where this is [None]. *)
Definition Elem (t : type) : option type :=
  match t with
  | PtrTo _ e | SliceOf _ e | ArrayOf _ _ e | MapOf _ _ e | ChanOf _ e => Some e
  | _ => None
  end.

(** [t.Len()] of an array type. *)
Definition Len (t : type) : Z :=
  match t with
  | ArrayOf _ n _ => n
  | _ => 0
  end.

(** [t.NumField()] and [t.Field(i)] of a struct type, as the field list. *)
Definition Fields (t : type) : list StructField :=
  match t with
  | StructOf _ fs => fs
  | _ => []
  end.

Definition TypeName_eqb (a b : TypeName) : bool :=
  bool_decide (pkg a = pkg b) && bool_decide (name a = name b).

(** Type identity ([==] on [reflect.Type]): the same name and the same
    structure.  (A defined type has one definition, so in a Go program
    the name of a defined type determines its structure.) *)
Fixpoint identical (a b : type) {struct a} : bool :=
  TypeName_eqb (typeName a) (typeName b) &&
  match a, b with
  | Scalar _ k, Scalar _ k' => bool_decide (k = k')
  | PtrTo _ e, PtrTo _ e' => identical e e'
  | SliceOf _ e, SliceOf _ e' => identical e e'
  | ArrayOf _ n e, ArrayOf _ n' e' => (n =? n') && identical e e'
  | MapOf _ k e, MapOf _ k' e' => identical k k' && identical e e'
  | ChanOf _ e, ChanOf _ e' => identical e e'
  | FuncOf _, FuncOf _ => true
  | InterfaceOf _, InterfaceOf _ => true
  | StructOf _ fs, StructOf _ fs' =>
      (fix go (l : list StructField) (l' : list StructField) : bool :=
         match l, l' with
         | [], [] => true
         | f :: r, f' :: r' =>
             bool_decide (Name f = Name f') && bool_decide (PkgPath f = PkgPath f')
             && identical (Type_ f) (Type_ f') && bool_decide (Tag f = Tag f')
             && Bool.eqb (Anonymous f) (Anonymous f') && go r r'
         | _, _ => false
         end) fs fs'
  | _, _ => false
  end.

End reflect.

(** ** Dynamic values

    A value of Go's [any] as the code meets it: the result of decoding JSON,
    a converted tag value, or the decoded input handed to the validator. *)

Inductive any : Type :=
| Nil
| VBool (b : bool)
| VInt (n : Z)
| VFloat (x : float)
| VString (s : string)
| VSlice (l : list any)
| VMap (m : list (string * any)).

(** ** Schema *)

(** JSON Schema type constants. *)
Definition TypeBoolean : string := "boolean".
Definition TypeInteger : string := "integer".
Definition TypeNumber : string := "number".
Definition TypeString : string := "string".
Definition TypeArray : string := "array".
Definition TypeObject : string := "object".

(** A compiled pattern is represented by the source text it was compiled
    from. *)
Definition Regexp := string.

(** The [additionalProperties] field has type [any]: it is unset, the
    boolean [false] (structs), or a [*Schema] (maps), possibly a nil one. *)
Inductive AdditionalProps (S : Type) : Type :=
| APNil
| APBool (b : bool)
| APSchema (s : option S).
Arguments APNil {S}.
Arguments APBool {S} b.
Arguments APSchema {S} s.

(** The [Schema] struct.  Pointer fields are options; [Required] and
    [msgRequired] are options because the code tests them against nil;
    a nil map or slice that is only read is the empty one. *)
Inductive Schema : Type := mkSchema {
  Type_ : string;
  Title : string;
  Description : string;
  Ref : string;
  Format : string;
  ContentEncoding : string;
  Default : any;
  Examples : list any;
  Items : option Schema;
  AdditionalProperties : AdditionalProps Schema;
  Properties : gmap string Schema;
  Enum : list any;
  Minimum : option float;
  ExclusiveMinimum : option float;
  Maximum : option float;
  ExclusiveMaximum : option float;
  MultipleOf : option float;
  MinLength : option Z;
  MaxLength : option Z;
  Pattern : string;
  MinItems : option Z;
  MaxItems : option Z;
  UniqueItems : bool;
  Required : option (list string);
  MinProperties : option Z;
  MaxProperties : option Z;
  ReadOnly : bool;
  WriteOnly : bool;
  Deprecated : bool;
  Extensions : list (string * any);
  patternRe : option Regexp;
  requiredMap : gmap string bool;
  propertyNames : list string;
  msgEnum : string;
  msgMinimum : string;
  msgExclusiveMinimum : string;
  msgMaximum : string;
  msgExclusiveMaximum : string;
  msgMultipleOf : string;
  msgMinLength : string;
  msgMaxLength : string;
  msgPattern : string;
  msgMinItems : string;
  msgMaxItems : string;
  msgMinProperties : string;
  msgMaxProperties : string;
  msgRequired : option (gmap string string);
}.

(** The zero value [Schema{}]. *)
Definition emptySchema : Schema := {|
  Type_ := "";
  Title := "";
  Description := "";
  Ref := "";
  Format := "";
  ContentEncoding := "";
  Default := Nil;
  Examples := [];
  Items := None;
  AdditionalProperties := APNil;
  Properties := ∅;
  Enum := [];
  Minimum := None;
  ExclusiveMinimum := None;
  Maximum := None;
  ExclusiveMaximum := None;
  MultipleOf := None;
  MinLength := None;
  MaxLength := None;
  Pattern := "";
  MinItems := None;
  MaxItems := None;
  UniqueItems := false;
  Required := None;
  MinProperties := None;
  MaxProperties := None;
  ReadOnly := false;
  WriteOnly := false;
  Deprecated := false;
  Extensions := [];
  patternRe := None;
  requiredMap := ∅;
  propertyNames := [];
  msgEnum := "";
  msgMinimum := "";
  msgExclusiveMinimum := "";
  msgMaximum := "";
  msgExclusiveMaximum := "";
  msgMultipleOf := "";
  msgMinLength := "";
  msgMaxLength := "";
  msgPattern := "";
  msgMinItems := "";
  msgMaxItems := "";
  msgMinProperties := "";
  msgMaxProperties := "";
  msgRequired := None;
|}.

(** Field assignments [s.F = v]: the fields of [s] are bound to the names
    [f0], [f1], ... in the order of the declaration, and the record is built
    again with [v] in the place of [F]. *)

Definition set_Type_ (v : string) (s : Schema) : Schema :=
  let '(mkSchema f0 f1 f2 f3 f4 f5 f6 f7 f8 f9 f10 f11 f12 f13 f14 f15 f16
        f17 f18 f19 f20 f21 f22 f23 f24 f25 f26 f27 f28 f29 f30 f31 f32 f33
        f34 f35 f36 f37 f38 f39 f40 f41 f42 f43 f44 f45 f46) := s in
  {| Type_ := v; Title := f1; Description := f2; Ref := f3; Format := f4;
     ContentEncoding := f5; Default := f6; Examples := f7; Items := f8;
     AdditionalProperties := f9; Properties := f10; Enum := f11;
     Minimum := f12; ExclusiveMinimum := f13; Maximum := f14;
     ExclusiveMaximum := f15; MultipleOf := f16; MinLength := f17;
     MaxLength := f18; Pattern := f19; MinItems := f20; MaxItems := f21;
     UniqueItems := f22; Required := f23; MinProperties := f24;
     MaxProperties := f25; ReadOnly := f26; WriteOnly := f27;
     Deprecated := f28; Extensions := f29; patternRe := f30;
     requiredMap := f31; propertyNames := f32; msgEnum := f33;
     msgMinimum := f34; msgExclusiveMinimum := f35; msgMaximum := f36;
     msgExclusiveMaximum := f37; msgMultipleOf := f38; msgMinLength := f39;
     msgMaxLength := f40; msgPattern := f41; msgMinItems := f42;
     msgMaxItems := f43; msgMinProperties := f44; msgMaxProperties := f45;
     msgRequired := f46 |}.

Definition set_Ref (v : string) (s : Schema) : Schema :=
  let '(mkSchema f0 f1 f2 f3 f4 f5 f6 f7 f8 f9 f10 f11 f12 f13 f14 f15 f16
        f17 f18 f19 f20 f21 f22 f23 f24 f25 f26 f27 f28 f29 f30 f31 f32 f33
        f34 f35 f36 f37 f38 f39 f40 f41 f42 f43 f44 f45 f46) := s in
  {| Type_ := f0; Title := f1; Description := f2; Ref := v; Format := f4;
     ContentEncoding := f5; Default := f6; Examples := f7; Items := f8;
     AdditionalProperties := f9; Properties := f10; Enum := f11;
     Minimum := f12; ExclusiveMinimum := f13; Maximum := f14;
     ExclusiveMaximum := f15; MultipleOf := f16; MinLength := f17;
     MaxLength := f18; Pattern := f19; MinItems := f20; MaxItems := f21;
     UniqueItems := f22; Required := f23; MinProperties := f24;
     MaxProperties := f25; ReadOnly := f26; WriteOnly := f27;
     Deprecated := f28; Extensions := f29; patternRe := f30;
     requiredMap := f31; propertyNames := f32; msgEnum := f33;
     msgMinimum := f34; msgExclusiveMinimum := f35; msgMaximum := f36;
     msgExclusiveMaximum := f37; msgMultipleOf := f38; msgMinLength := f39;
     msgMaxLength := f40; msgPattern := f41; msgMinItems := f42;
     msgMaxItems := f43; msgMinProperties := f44; msgMaxProperties := f45;
     msgRequired := f46 |}.

Definition set_Format (v : string) (s : Schema) : Schema :=
  let '(mkSchema f0 f1 f2 f3 f4 f5 f6 f7 f8 f9 f10 f11 f12 f13 f14 f15 f16
        f17 f18 f19 f20 f21 f22 f23 f24 f25 f26 f27 f28 f29 f30 f31 f32 f33
        f34 f35 f36 f37 f38 f39 f40 f41 f42 f43 f44 f45 f46) := s in
  {| Type_ := f0; Title := f1; Description := f2; Ref := f3; Format := v;
     ContentEncoding := f5; Default := f6; Examples := f7; Items := f8;
     AdditionalProperties := f9; Properties := f10; Enum := f11;
     Minimum := f12; ExclusiveMinimum := f13; Maximum := f14;
     ExclusiveMaximum := f15; MultipleOf := f16; MinLength := f17;
     MaxLength := f18; Pattern := f19; MinItems := f20; MaxItems := f21;
     UniqueItems := f22; Required := f23; MinProperties := f24;
     MaxProperties := f25; ReadOnly := f26; WriteOnly := f27;
     Deprecated := f28; Extensions := f29; patternRe := f30;
     requiredMap := f31; propertyNames := f32; msgEnum := f33;
     msgMinimum := f34; msgExclusiveMinimum := f35; msgMaximum := f36;
     msgExclusiveMaximum := f37; msgMultipleOf := f38; msgMinLength := f39;
     msgMaxLength := f40; msgPattern := f41; msgMinItems := f42;
     msgMaxItems := f43; msgMinProperties := f44; msgMaxProperties := f45;
     msgRequired := f46 |}.

Definition set_ContentEncoding (v : string) (s : Schema) : Schema :=
  let '(mkSchema f0 f1 f2 f3 f4 f5 f6 f7 f8 f9 f10 f11 f12 f13 f14 f15 f16
        f17 f18 f19 f20 f21 f22 f23 f24 f25 f26 f27 f28 f29 f30 f31 f32 f33
        f34 f35 f36 f37 f38 f39 f40 f41 f42 f43 f44 f45 f46) := s in
  {| Type_ := f0; Title := f1; Description := f2; Ref := f3; Format := f4;
     ContentEncoding := v; Default := f6; Examples := f7; Items := f8;
     AdditionalProperties := f9; Properties := f10; Enum := f11;
     Minimum := f12; ExclusiveMinimum := f13; Maximum := f14;
     ExclusiveMaximum := f15; MultipleOf := f16; MinLength := f17;
     MaxLength := f18; Pattern := f19; MinItems := f20; MaxItems := f21;
     UniqueItems := f22; Required := f23; MinProperties := f24;
     MaxProperties := f25; ReadOnly := f26; WriteOnly := f27;
     Deprecated := f28; Extensions := f29; patternRe := f30;
     requiredMap := f31; propertyNames := f32; msgEnum := f33;
     msgMinimum := f34; msgExclusiveMinimum := f35; msgMaximum := f36;
     msgExclusiveMaximum := f37; msgMultipleOf := f38; msgMinLength := f39;
     msgMaxLength := f40; msgPattern := f41; msgMinItems := f42;
     msgMaxItems := f43; msgMinProperties := f44; msgMaxProperties := f45;
     msgRequired := f46 |}.

Definition set_Items (v : option Schema) (s : Schema) : Schema :=
  let '(mkSchema f0 f1 f2 f3 f4 f5 f6 f7 f8 f9 f10 f11 f12 f13 f14 f15 f16
        f17 f18 f19 f20 f21 f22 f23 f24 f25 f26 f27 f28 f29 f30 f31 f32 f33
        f34 f35 f36 f37 f38 f39 f40 f41 f42 f43 f44 f45 f46) := s in
  {| Type_ := f0; Title := f1; Description := f2; Ref := f3; Format := f4;
     ContentEncoding := f5; Default := f6; Examples := f7; Items := v;
     AdditionalProperties := f9; Properties := f10; Enum := f11;
     Minimum := f12; ExclusiveMinimum := f13; Maximum := f14;
     ExclusiveMaximum := f15; MultipleOf := f16; MinLength := f17;
     MaxLength := f18; Pattern := f19; MinItems := f20; MaxItems := f21;
     UniqueItems := f22; Required := f23; MinProperties := f24;
     MaxProperties := f25; ReadOnly := f26; WriteOnly := f27;
     Deprecated := f28; Extensions := f29; patternRe := f30;
     requiredMap := f31; propertyNames := f32; msgEnum := f33;
     msgMinimum := f34; msgExclusiveMinimum := f35; msgMaximum := f36;
     msgExclusiveMaximum := f37; msgMultipleOf := f38; msgMinLength := f39;
     msgMaxLength := f40; msgPattern := f41; msgMinItems := f42;
     msgMaxItems := f43; msgMinProperties := f44; msgMaxProperties := f45;
     msgRequired := f46 |}.

Definition set_AdditionalProperties (v : AdditionalProps Schema) (s : Schema) : Schema :=
  let '(mkSchema f0 f1 f2 f3 f4 f5 f6 f7 f8 f9 f10 f11 f12 f13 f14 f15 f16
        f17 f18 f19 f20 f21 f22 f23 f24 f25 f26 f27 f28 f29 f30 f31 f32 f33
        f34 f35 f36 f37 f38 f39 f40 f41 f42 f43 f44 f45 f46) := s in
  {| Type_ := f0; Title := f1; Description := f2; Ref := f3; Format := f4;
     ContentEncoding := f5; Default := f6; Examples := f7; Items := f8;
     AdditionalProperties := v; Properties := f10; Enum := f11;
     Minimum := f12; ExclusiveMinimum := f13; Maximum := f14;
     ExclusiveMaximum := f15; MultipleOf := f16; MinLength := f17;
     MaxLength := f18; Pattern := f19; MinItems := f20; MaxItems := f21;
     UniqueItems := f22; Required := f23; MinProperties := f24;
     MaxProperties := f25; ReadOnly := f26; WriteOnly := f27;
     Deprecated := f28; Extensions := f29; patternRe := f30;
     requiredMap := f31; propertyNames := f32; msgEnum := f33;
     msgMinimum := f34; msgExclusiveMinimum := f35; msgMaximum := f36;
     msgExclusiveMaximum := f37; msgMultipleOf := f38; msgMinLength := f39;
     msgMaxLength := f40; msgPattern := f41; msgMinItems := f42;
     msgMaxItems := f43; msgMinProperties := f44; msgMaxProperties := f45;
     msgRequired := f46 |}.

Definition set_Properties (v : gmap string Schema) (s : Schema) : Schema :=
  let '(mkSchema f0 f1 f2 f3 f4 f5 f6 f7 f8 f9 f10 f11 f12 f13 f14 f15 f16
        f17 f18 f19 f20 f21 f22 f23 f24 f25 f26 f27 f28 f29 f30 f31 f32 f33
        f34 f35 f36 f37 f38 f39 f40 f41 f42 f43 f44 f45 f46) := s in
  {| Type_ := f0; Title := f1; Description := f2; Ref := f3; Format := f4;
     ContentEncoding := f5; Default := f6; Examples := f7; Items := f8;
     AdditionalProperties := f9; Properties := v; Enum := f11;
     Minimum := f12; ExclusiveMinimum := f13; Maximum := f14;
     ExclusiveMaximum := f15; MultipleOf := f16; MinLength := f17;
     MaxLength := f18; Pattern := f19; MinItems := f20; MaxItems := f21;
     UniqueItems := f22; Required := f23; MinProperties := f24;
     MaxProperties := f25; ReadOnly := f26; WriteOnly := f27;
     Deprecated := f28; Extensions := f29; patternRe := f30;
     requiredMap := f31; propertyNames := f32; msgEnum := f33;
     msgMinimum := f34; msgExclusiveMinimum := f35; msgMaximum := f36;
     msgExclusiveMaximum := f37; msgMultipleOf := f38; msgMinLength := f39;
     msgMaxLength := f40; msgPattern := f41; msgMinItems := f42;
     msgMaxItems := f43; msgMinProperties := f44; msgMaxProperties := f45;
     msgRequired := f46 |}.

Definition set_Enum (v : list any) (s : Schema) : Schema :=
  let '(mkSchema f0 f1 f2 f3 f4 f5 f6 f7 f8 f9 f10 f11 f12 f13 f14 f15 f16
        f17 f18 f19 f20 f21 f22 f23 f24 f25 f26 f27 f28 f29 f30 f31 f32 f33
        f34 f35 f36 f37 f38 f39 f40 f41 f42 f43 f44 f45 f46) := s in
  {| Type_ := f0; Title := f1; Description := f2; Ref := f3; Format := f4;
     ContentEncoding := f5; Default := f6; Examples := f7; Items := f8;
     AdditionalProperties := f9; Properties := f10; Enum := v;
     Minimum := f12; ExclusiveMinimum := f13; Maximum := f14;
     ExclusiveMaximum := f15; MultipleOf := f16; MinLength := f17;
     MaxLength := f18; Pattern := f19; MinItems := f20; MaxItems := f21;
     UniqueItems := f22; Required := f23; MinProperties := f24;
     MaxProperties := f25; ReadOnly := f26; WriteOnly := f27;
     Deprecated := f28; Extensions := f29; patternRe := f30;
     requiredMap := f31; propertyNames := f32; msgEnum := f33;
     msgMinimum := f34; msgExclusiveMinimum := f35; msgMaximum := f36;
     msgExclusiveMaximum := f37; msgMultipleOf := f38; msgMinLength := f39;
     msgMaxLength := f40; msgPattern := f41; msgMinItems := f42;
     msgMaxItems := f43; msgMinProperties := f44; msgMaxProperties := f45;
     msgRequired := f46 |}.

Definition set_Minimum (v : option float) (s : Schema) : Schema :=
  let '(mkSchema f0 f1 f2 f3 f4 f5 f6 f7 f8 f9 f10 f11 f12 f13 f14 f15 f16
        f17 f18 f19 f20 f21 f22 f23 f24 f25 f26 f27 f28 f29 f30 f31 f32 f33
        f34 f35 f36 f37 f38 f39 f40 f41 f42 f43 f44 f45 f46) := s in
  {| Type_ := f0; Title := f1; Description := f2; Ref := f3; Format := f4;
     ContentEncoding := f5; Default := f6; Examples := f7; Items := f8;
     AdditionalProperties := f9; Properties := f10; Enum := f11;
     Minimum := v; ExclusiveMinimum := f13; Maximum := f14;
     ExclusiveMaximum := f15; MultipleOf := f16; MinLength := f17;
     MaxLength := f18; Pattern := f19; MinItems := f20; MaxItems := f21;
     UniqueItems := f22; Required := f23; MinProperties := f24;
     MaxProperties := f25; ReadOnly := f26; WriteOnly := f27;
     Deprecated := f28; Extensions := f29; patternRe := f30;
     requiredMap := f31; propertyNames := f32; msgEnum := f33;
     msgMinimum := f34; msgExclusiveMinimum := f35; msgMaximum := f36;
     msgExclusiveMaximum := f37; msgMultipleOf := f38; msgMinLength := f39;
     msgMaxLength := f40; msgPattern := f41; msgMinItems := f42;
     msgMaxItems := f43; msgMinProperties := f44; msgMaxProperties := f45;
     msgRequired := f46 |}.

Definition set_MinItems (v : option Z) (s : Schema) : Schema :=
  let '(mkSchema f0 f1 f2 f3 f4 f5 f6 f7 f8 f9 f10 f11 f12 f13 f14 f15 f16
        f17 f18 f19 f20 f21 f22 f23 f24 f25 f26 f27 f28 f29 f30 f31 f32 f33
        f34 f35 f36 f37 f38 f39 f40 f41 f42 f43 f44 f45 f46) := s in
  {| Type_ := f0; Title := f1; Description := f2; Ref := f3; Format := f4;
     ContentEncoding := f5; Default := f6; Examples := f7; Items := f8;
     AdditionalProperties := f9; Properties := f10; Enum := f11;
     Minimum := f12; ExclusiveMinimum := f13; Maximum := f14;
     ExclusiveMaximum := f15; MultipleOf := f16; MinLength := f17;
     MaxLength := f18; Pattern := f19; MinItems := v; MaxItems := f21;
     UniqueItems := f22; Required := f23; MinProperties := f24;
     MaxProperties := f25; ReadOnly := f26; WriteOnly := f27;
     Deprecated := f28; Extensions := f29; patternRe := f30;
     requiredMap := f31; propertyNames := f32; msgEnum := f33;
     msgMinimum := f34; msgExclusiveMinimum := f35; msgMaximum := f36;
     msgExclusiveMaximum := f37; msgMultipleOf := f38; msgMinLength := f39;
     msgMaxLength := f40; msgPattern := f41; msgMinItems := f42;
     msgMaxItems := f43; msgMinProperties := f44; msgMaxProperties := f45;
     msgRequired := f46 |}.

Definition set_MaxItems (v : option Z) (s : Schema) : Schema :=
  let '(mkSchema f0 f1 f2 f3 f4 f5 f6 f7 f8 f9 f10 f11 f12 f13 f14 f15 f16
        f17 f18 f19 f20 f21 f22 f23 f24 f25 f26 f27 f28 f29 f30 f31 f32 f33
        f34 f35 f36 f37 f38 f39 f40 f41 f42 f43 f44 f45 f46) := s in
  {| Type_ := f0; Title := f1; Description := f2; Ref := f3; Format := f4;
     ContentEncoding := f5; Default := f6; Examples := f7; Items := f8;
     AdditionalProperties := f9; Properties := f10; Enum := f11;
     Minimum := f12; ExclusiveMinimum := f13; Maximum := f14;
     ExclusiveMaximum := f15; MultipleOf := f16; MinLength := f17;
     MaxLength := f18; Pattern := f19; MinItems := f20; MaxItems := v;
     UniqueItems := f22; Required := f23; MinProperties := f24;
     MaxProperties := f25; ReadOnly := f26; WriteOnly := f27;
     Deprecated := f28; Extensions := f29; patternRe := f30;
     requiredMap := f31; propertyNames := f32; msgEnum := f33;
     msgMinimum := f34; msgExclusiveMinimum := f35; msgMaximum := f36;
     msgExclusiveMaximum := f37; msgMultipleOf := f38; msgMinLength := f39;
     msgMaxLength := f40; msgPattern := f41; msgMinItems := f42;
     msgMaxItems := f43; msgMinProperties := f44; msgMaxProperties := f45;
     msgRequired := f46 |}.

Definition set_Required (v : option (list string)) (s : Schema) : Schema :=
  let '(mkSchema f0 f1 f2 f3 f4 f5 f6 f7 f8 f9 f10 f11 f12 f13 f14 f15 f16
        f17 f18 f19 f20 f21 f22 f23 f24 f25 f26 f27 f28 f29 f30 f31 f32 f33
        f34 f35 f36 f37 f38 f39 f40 f41 f42 f43 f44 f45 f46) := s in
  {| Type_ := f0; Title := f1; Description := f2; Ref := f3; Format := f4;
     ContentEncoding := f5; Default := f6; Examples := f7; Items := f8;
     AdditionalProperties := f9; Properties := f10; Enum := f11;
     Minimum := f12; ExclusiveMinimum := f13; Maximum := f14;
     ExclusiveMaximum := f15; MultipleOf := f16; MinLength := f17;
     MaxLength := f18; Pattern := f19; MinItems := f20; MaxItems := f21;
     UniqueItems := f22; Required := v; MinProperties := f24;
     MaxProperties := f25; ReadOnly := f26; WriteOnly := f27;
     Deprecated := f28; Extensions := f29; patternRe := f30;
     requiredMap := f31; propertyNames := f32; msgEnum := f33;
     msgMinimum := f34; msgExclusiveMinimum := f35; msgMaximum := f36;
     msgExclusiveMaximum := f37; msgMultipleOf := f38; msgMinLength := f39;
     msgMaxLength := f40; msgPattern := f41; msgMinItems := f42;
     msgMaxItems := f43; msgMinProperties := f44; msgMaxProperties := f45;
     msgRequired := f46 |}.

Definition set_requiredMap (v : gmap string bool) (s : Schema) : Schema :=
  let '(mkSchema f0 f1 f2 f3 f4 f5 f6 f7 f8 f9 f10 f11 f12 f13 f14 f15 f16
        f17 f18 f19 f20 f21 f22 f23 f24 f25 f26 f27 f28 f29 f30 f31 f32 f33
        f34 f35 f36 f37 f38 f39 f40 f41 f42 f43 f44 f45 f46) := s in
  {| Type_ := f0; Title := f1; Description := f2; Ref := f3; Format := f4;
     ContentEncoding := f5; Default := f6; Examples := f7; Items := f8;
     AdditionalProperties := f9; Properties := f10; Enum := f11;
     Minimum := f12; ExclusiveMinimum := f13; Maximum := f14;
     ExclusiveMaximum := f15; MultipleOf := f16; MinLength := f17;
     MaxLength := f18; Pattern := f19; MinItems := f20; MaxItems := f21;
     UniqueItems := f22; Required := f23; MinProperties := f24;
     MaxProperties := f25; ReadOnly := f26; WriteOnly := f27;
     Deprecated := f28; Extensions := f29; patternRe := f30;
     requiredMap := v; propertyNames := f32; msgEnum := f33;
     msgMinimum := f34; msgExclusiveMinimum := f35; msgMaximum := f36;
     msgExclusiveMaximum := f37; msgMultipleOf := f38; msgMinLength := f39;
     msgMaxLength := f40; msgPattern := f41; msgMinItems := f42;
     msgMaxItems := f43; msgMinProperties := f44; msgMaxProperties := f45;
     msgRequired := f46 |}.

Definition set_propertyNames (v : list string) (s : Schema) : Schema :=
  let '(mkSchema f0 f1 f2 f3 f4 f5 f6 f7 f8 f9 f10 f11 f12 f13 f14 f15 f16
        f17 f18 f19 f20 f21 f22 f23 f24 f25 f26 f27 f28 f29 f30 f31 f32 f33
        f34 f35 f36 f37 f38 f39 f40 f41 f42 f43 f44 f45 f46) := s in
  {| Type_ := f0; Title := f1; Description := f2; Ref := f3; Format := f4;
     ContentEncoding := f5; Default := f6; Examples := f7; Items := f8;
     AdditionalProperties := f9; Properties := f10; Enum := f11;
     Minimum := f12; ExclusiveMinimum := f13; Maximum := f14;
     ExclusiveMaximum := f15; MultipleOf := f16; MinLength := f17;
     MaxLength := f18; Pattern := f19; MinItems := f20; MaxItems := f21;
     UniqueItems := f22; Required := f23; MinProperties := f24;
     MaxProperties := f25; ReadOnly := f26; WriteOnly := f27;
     Deprecated := f28; Extensions := f29; patternRe := f30;
     requiredMap := f31; propertyNames := v; msgEnum := f33;
     msgMinimum := f34; msgExclusiveMinimum := f35; msgMaximum := f36;
     msgExclusiveMaximum := f37; msgMultipleOf := f38; msgMinLength := f39;
     msgMaxLength := f40; msgPattern := f41; msgMinItems := f42;
     msgMaxItems := f43; msgMinProperties := f44; msgMaxProperties := f45;
     msgRequired := f46 |}.


(** ** The Go library the code calls

    Functions of Go's standard library that [schema.go] calls and whose
    behaviour is not defined in this repository.  Fallible ones return the
    error text on the right. *)
Class GoLib := {
  (** [bits.UintSize]: the platform's word size, 32 or 64. *)
  UintSize : Z;
  (** [strconv.Atoi]. *)
  Atoi : string → Z + string;
  (** [strconv.ParseFloat(v, 64)]. *)
  ParseFloat : string → float + string;
  (** [strings.TrimSpace]. *)
  TrimSpace : string → string;
  (** [json.Unmarshal] into an [any]. *)
  json_Unmarshal : string → any + string;
  (** [fmt.Sprintf("%v", v)]. *)
  Sprint_v : any → string;
  (** [regexp.Compile]: the error text, [None] when the pattern compiles. *)
  regexp_error : string → option string;
  (** [Type.ConvertibleTo]. *)
  ConvertibleTo : reflect.type → reflect.type → bool;
  (** [Value.Convert]: the value, of the first type, converted to the
      second. *)
  Convert : reflect.type → any → reflect.type → any;
}.

(** The [Registry] interface: [SchemaFromType] and [SchemaFromField] obtain
    the schemas of nested types from it.  A registry is a mutable object,
    so [Schema] returns the registry after the call as well. *)
Class Registry (R : Type) := {
  Registry_Schema : R → reflect.type → bool → string → Result (option Schema * R);
  Registry_SchemaFromRef : R → string → option Schema;
}.

(** ** Well-known types, compared by identity *)

Definition named (p n : string) : reflect.TypeName := {| reflect.pkg := p; reflect.name := n |}.

Definition boolT : reflect.type := reflect.Scalar (named "" "bool") reflect.SBool.
Definition intT : reflect.type := reflect.Scalar (named "" "int") reflect.SInt.
Definition int64T : reflect.type := reflect.Scalar (named "" "int64") reflect.SInt64.
Definition uint8T : reflect.type := reflect.Scalar (named "" "uint8") reflect.SUint8.
Definition uint64T : reflect.type := reflect.Scalar (named "" "uint64") reflect.SUint64.
Definition float64T : reflect.type := reflect.Scalar (named "" "float64") reflect.SFloat64.
Definition stringT : reflect.type := reflect.Scalar (named "" "string") reflect.SString.
Definition anyT : reflect.type := reflect.InterfaceOf reflect.unnamed.

Definition unexported (pkg n : string) (t : reflect.type) : reflect.StructField :=
  {| reflect.Name := n; reflect.PkgPath := pkg; reflect.Type_ := t;
     reflect.Tag := []; reflect.Anonymous := false |}.

(** [time.Time], [net.IP] and [url.URL].  They are defined types, so
    identity with them is identity of names. *)
Definition timeType : reflect.type :=
  reflect.StructOf (named "time" "Time")
    [unexported "time" "wall" uint64T; unexported "time" "ext" int64T;
     unexported "time" "loc"
       (reflect.PtrTo reflect.unnamed (reflect.StructOf (named "time" "Location") []))].
Definition ipType : reflect.type := reflect.SliceOf (named "net" "IP") uint8T.
Definition urlType : reflect.type := reflect.StructOf (named "net/url" "URL") [].

Fixpoint deref (t : reflect.type) : reflect.type :=
  match t with
  | reflect.PtrTo _ e => deref e
  | _ => t
  end.

(** ** Precomputed messages *)

Definition msgRequiredFor (name : string) : string :=
  "expected required property " +:+ name +:+ " to be present".

Definition insertRequired (m : gmap string string) (name : string) : gmap string string :=
  <[name := msgRequiredFor name]> m.

Definition PrecomputeMessages {lib : GoLib} (s : Schema) : Result Schema :=
  let msgEnum' :=
    "expected value to be one of " +:+ dquote
      +:+ Join (map Sprint_v (Enum s)) ", " +:+ dquote in
  let msgMinimum' :=
    match Minimum s with
    | Some m => "expected number >= " +:+ Sprint_v (VFloat m)
    | None => msgMinimum s
    end in
  let msgExclusiveMinimum' :=
    match ExclusiveMinimum s with
    | Some m => "expected number > " +:+ Sprint_v (VFloat m)
    | None => msgExclusiveMinimum s
    end in
  let msgMaximum' :=
    match Maximum s with
    | Some m => "expected number <= " +:+ Sprint_v (VFloat m)
    | None => msgMaximum s
    end in
  let msgExclusiveMaximum' :=
    match ExclusiveMaximum s with
    | Some m => "expected number < " +:+ Sprint_v (VFloat m)
    | None => msgExclusiveMaximum s
    end in
  let msgMultipleOf' :=
    match MultipleOf s with
    | Some m => "expected number to be a multiple of " +:+ Sprint_v (VFloat m)
    | None => msgMultipleOf s
    end in
  let msgMinLength' :=
    match MinLength s with
    | Some n => "expected length >= " +:+ Sprintf_d n
    | None => msgMinLength s
    end in
  let msgMaxLength' :=
    match MaxLength s with
    | Some n => "expected length <= " +:+ Sprintf_d n
    | None => msgMaxLength s
    end in
  let! '(patternRe', msgPattern') :=
    if decide (Pattern s ≠ "") then
      match regexp_error (Pattern s) with
      | Some err =>
          Panic ("regexp: Compile(" +:+ Pattern s +:+ "): " +:+ err)
      | None =>
          Ok (Some (Pattern s), "expected string to match pattern " +:+ Pattern s)
      end
    else Ok (patternRe s, msgPattern s) in
  let msgMinItems' :=
    match MinItems s with
    | Some n => "expected array length >= " +:+ Sprintf_d n
    | None => msgMinItems s
    end in
  let msgMaxItems' :=
    match MaxItems s with
    | Some n => "expected array length <= " +:+ Sprintf_d n
    | None => msgMaxItems s
    end in
  let msgMinProperties' :=
    match MinProperties s with
    | Some n => "expected object with at least " +:+ Sprintf_d n +:+ " properties"
    | None => msgMinProperties s
    end in
  let msgMaxProperties' :=
    match MaxProperties s with
    | Some n => "expected object with at most " +:+ Sprintf_d n +:+ " properties"
    | None => msgMaxProperties s
    end in
  let msgRequired' :=
    match Required s with
    | Some required =>
        Some (foldl insertRequired (default ∅ (msgRequired s)) required)
    | None => msgRequired s
    end in
  Ok
  {| Type_ := Type_ s; Title := Title s; Description := Description s;
     Ref := Ref s; Format := Format s; ContentEncoding := ContentEncoding s;
     Default := Default s; Examples := Examples s; Items := Items s;
     AdditionalProperties := AdditionalProperties s;
     Properties := Properties s; Enum := Enum s; Minimum := Minimum s;
     ExclusiveMinimum := ExclusiveMinimum s; Maximum := Maximum s;
     ExclusiveMaximum := ExclusiveMaximum s; MultipleOf := MultipleOf s;
     MinLength := MinLength s; MaxLength := MaxLength s;
     Pattern := Pattern s; MinItems := MinItems s; MaxItems := MaxItems s;
     UniqueItems := UniqueItems s; Required := Required s;
     MinProperties := MinProperties s; MaxProperties := MaxProperties s;
     ReadOnly := ReadOnly s; WriteOnly := WriteOnly s;
     Deprecated := Deprecated s; Extensions := Extensions s;
     patternRe := patternRe'; requiredMap := requiredMap s;
     propertyNames := propertyNames s; msgEnum := msgEnum';
     msgMinimum := msgMinimum'; msgExclusiveMinimum := msgExclusiveMinimum';
     msgMaximum := msgMaximum'; msgExclusiveMaximum := msgExclusiveMaximum';
     msgMultipleOf := msgMultipleOf'; msgMinLength := msgMinLength';
     msgMaxLength := msgMaxLength'; msgPattern := msgPattern';
     msgMinItems := msgMinItems'; msgMaxItems := msgMaxItems';
     msgMinProperties := msgMinProperties';
     msgMaxProperties := msgMaxProperties'; msgRequired := msgRequired' |}.

(** ** Tags *)

Definition boolTag (f : reflect.StructField) (tag : string) : Result bool :=
  let v := reflect.Get (reflect.Tag f) tag in
  if decide (v ≠ "") then
    if decide (v = "true") then Ok true
    else if decide (v = "false") then Ok false
    else Panic ("invalid bool tag '" +:+ tag +:+ "' for field '"
                  +:+ reflect.Name f +:+ "': " +:+ v)
  else Ok false.

Definition intTag {lib : GoLib} (f : reflect.StructField) (tag : string) : Result (option Z) :=
  let v := reflect.Get (reflect.Tag f) tag in
  if decide (v ≠ "") then
    match Atoi v with
    | inl i => Ok (Some i)
    | inr err =>
        Panic ("invalid int tag '" +:+ tag +:+ "' for field '"
                 +:+ reflect.Name f +:+ "': " +:+ v +:+ " (" +:+ err +:+ ")")
    end
  else Ok None.

Definition floatTag {lib : GoLib} (f : reflect.StructField) (tag : string) : Result (option float) :=
  let v := reflect.Get (reflect.Tag f) tag in
  if decide (v ≠ "") then
    match ParseFloat v with
    | inl i => Ok (Some i)
    | inr err =>
        Panic ("invalid float tag '" +:+ tag +:+ "' for field '"
                 +:+ reflect.Name f +:+ "': " +:+ v +:+ " (" +:+ err +:+ ")")
    end
  else Ok None.

(** [reflect.TypeOf] on a value decoded by [json.Unmarshal] into an [any];
    [None] for the nil interface. *)
Definition TypeOf (v : any) : option reflect.type :=
  match v with
  | Nil => None
  | VBool _ => Some boolT
  | VInt _ => Some intT
  | VFloat _ => Some float64T
  | VString _ => Some stringT
  | VSlice _ => Some (reflect.SliceOf reflect.unnamed anyT)
  | VMap _ => Some (reflect.MapOf reflect.unnamed stringT anyT)
  end.

Definition ErrSchemaInvalid : string := "schema is invalid".

(** The element conversion of the slice case of [jsonTagValue]. *)
Definition convertElem {lib : GoLib} (te : reflect.type) (e : any) : Result any :=
  match TypeOf e with
  | None => Panic "reflect: call of reflect.Value.Type on zero Value"
  | Some et =>
      if ConvertibleTo et te then Ok (Convert et e te)
      else Panic ("unable to convert " +:+ Sprint_v e +:+ " to "
                    +:+ reflect.TName te +:+ ": " +:+ ErrSchemaInvalid)
  end.

Definition jsonTagValue {lib : GoLib} (f : reflect.StructField) (t : reflect.type)
    (value : string) : Result any :=
  (* Special case: strings don't need quotes. *)
  if decide (reflect.Kind_ t = reflect.String) then Ok (VString value)
  else
    (* Special case: array of strings with comma-separated values and no
       quotes. *)
    let! shorthand :=
      match t with
      | reflect.SliceOf _ e =>
          if decide (reflect.Kind_ e = reflect.String) then
            match value with
            | EmptyString => Panic "runtime error: index out of range [0] with length 0"
            | String c _ => Ok (bool_decide (c ≠ lbracket))
            end
          else Ok false
      | _ => Ok false
      end in
    if shorthand : bool then
      Ok (VSlice (map (λ s, VString (TrimSpace s)) (Split value comma)))
    else
      match json_Unmarshal value with
      | inr err =>
          Panic ("invalid tag for field '" +:+ reflect.Name f +:+ "': " +:+ err)
      | inl v =>
          match TypeOf v with
          | None => Ok v
          | Some tv =>
              if reflect.identical tv t then Ok v
              else
                match v with
                | VSlice elems =>
                    (* reflect.MakeSlice(t, ...) *)
                    match t with
                    | reflect.SliceOf _ te =>
                        let! tmp := mapR (convertElem te) elems in
                        Ok (Convert t (VSlice tmp) t)
                    | _ => Panic "reflect.MakeSlice of non-slice type"
                    end
                | _ =>
                    if ConvertibleTo tv t then Ok (Convert tv v t)
                    else Panic ("unable to convert " +:+ reflect.TName tv +:+ " to "
                                  +:+ reflect.TName t +:+ ": " +:+ ErrSchemaInvalid)
                end
          end
      end.

(** [jsonTag] returns a value of the schema's type for the given tag
    string. *)
Definition jsonTag {lib : GoLib} (f : reflect.StructField) (name : string) (multi : bool)
    : Result any :=
  let t := reflect.Type_ f in
  let value := reflect.Get (reflect.Tag f) name in
  if decide (value ≠ "") then jsonTagValue f t value else Ok Nil.

(** ** Schema of a field *)

Definition SchemaFromField {lib : GoLib} {R} {reg : Registry R} (registry : R)
    (parent : option reflect.type) (f : reflect.StructField)
    : Result (option Schema * R) :=
  let tag := reflect.Tag f in
  let parentName :=
    match parent with
    | Some p => reflect.TName p
    | None => ""
    end in
  let! '(ofs, registry) :=
    Registry_Schema registry (reflect.Type_ f) true
      (parentName +:+ reflect.Name f +:+ "Struct") in
  match ofs with
  | None => Ok (None, registry)
  | Some fs =>
      let Description' := reflect.Get tag "doc" in
      let Format' :=
        if decide (reflect.Get tag "format" ≠ "") then reflect.Get tag "format"
        else Format fs in
      let ContentEncoding' :=
        if decide (reflect.Get tag "encoding" ≠ "") then reflect.Get tag "encoding"
        else ContentEncoding fs in
      let! Default' := jsonTag f "default" false in
      let! e := jsonTag f "example" false in
      let Examples' :=
        match e with
        | Nil => Examples fs
        | _ => [e]
        end in
      let enum := reflect.Get tag "enum" in
      let! '(Enum', Items') :=
        if decide (enum ≠ "") then
          let! fType :=
            if decide (Type_ fs = TypeArray) then
              match reflect.Elem (reflect.Type_ f) with
              | Some e => Ok e
              | None => Panic "reflect: Elem of invalid type"
              end
            else Ok (reflect.Type_ f) in
          let! enumValues := mapR (jsonTagValue f fType) (Split enum comma) in
          if decide (Type_ fs = TypeArray) then
            match Items fs with
            | Some items => Ok (Enum fs, Some (set_Enum enumValues items))
            | None =>
                Panic "runtime error: invalid memory address or nil pointer dereference"
            end
          else Ok (enumValues, Items fs)
        else Ok (Enum fs, Items fs) in
      let! Minimum' := floatTag f "minimum" in
      let! ExclusiveMinimum' := floatTag f "exclusiveMinimum" in
      let! Maximum' := floatTag f "maximum" in
      let! ExclusiveMaximum' := floatTag f "exclusiveMaximum" in
      let! MultipleOf' := floatTag f "multipleOf" in
      let! MinLength' := intTag f "minLength" in
      let! MaxLength' := intTag f "maxLength" in
      let Pattern' := reflect.Get tag "pattern" in
      let! MinItems' := intTag f "minItems" in
      let! MaxItems' := intTag f "maxItems" in
      let! UniqueItems' := boolTag f "uniqueItems" in
      let! MinProperties' := intTag f "minProperties" in
      let! MaxProperties' := intTag f "maxProperties" in
      let! ReadOnly' := boolTag f "readOnly" in
      let! WriteOnly' := boolTag f "writeOnly" in
      let! Deprecated' := boolTag f "deprecated" in
      let! fs' :=
        PrecomputeMessages
        {| Type_ := Type_ fs; Title := Title fs; Description := Description';
           Ref := Ref fs; Format := Format';
           ContentEncoding := ContentEncoding'; Default := Default';
           Examples := Examples'; Items := Items';
           AdditionalProperties := AdditionalProperties fs;
           Properties := Properties fs; Enum := Enum'; Minimum := Minimum';
           ExclusiveMinimum := ExclusiveMinimum'; Maximum := Maximum';
           ExclusiveMaximum := ExclusiveMaximum'; MultipleOf := MultipleOf';
           MinLength := MinLength'; MaxLength := MaxLength';
           Pattern := Pattern'; MinItems := MinItems'; MaxItems := MaxItems';
           UniqueItems := UniqueItems'; Required := Required fs;
           MinProperties := MinProperties'; MaxProperties := MaxProperties';
           ReadOnly := ReadOnly'; WriteOnly := WriteOnly';
           Deprecated := Deprecated'; Extensions := Extensions fs;
           patternRe := patternRe fs; requiredMap := requiredMap fs;
           propertyNames := propertyNames fs; msgEnum := msgEnum fs;
           msgMinimum := msgMinimum fs;
           msgExclusiveMinimum := msgExclusiveMinimum fs;
           msgMaximum := msgMaximum fs;
           msgExclusiveMaximum := msgExclusiveMaximum fs;
           msgMultipleOf := msgMultipleOf fs;
           msgMinLength := msgMinLength fs; msgMaxLength := msgMaxLength fs;
           msgPattern := msgPattern fs; msgMinItems := msgMinItems fs;
           msgMaxItems := msgMaxItems fs;
           msgMinProperties := msgMinProperties fs;
           msgMaxProperties := msgMaxProperties fs;
           msgRequired := msgRequired fs |} in
      Ok (Some fs', registry)
  end.

(** ** Field resolution *)

(** [fieldInfo] stores information about a field, which may come from an
    embedded type.  The [Parent] stores the field's direct parent. *)
Record fieldInfo := {
  Parent : reflect.type;
  Field : reflect.StructField;
}.

(** The first loop of [getFields]: the exported, named fields of [typ]. *)
Definition directFields (typ : reflect.type) (fs : list reflect.StructField)
    : list fieldInfo :=
  map (λ f, {| Parent := typ; Field := f |})
    (filter (λ f, reflect.IsExported f = true ∧ reflect.Anonymous f = false) fs).

(** The fields the first loop puts in [embedded]. *)
Definition embeddedFields (fs : list reflect.StructField) : list reflect.StructField :=
  filter (λ f, reflect.IsExported f = true ∧ reflect.Anonymous f = true) fs.

(** What the second loop of [getFields] appends for one embedded field of
    type [t]: the pointers are stripped and, when a struct remains, its
    fields are collected in the same way.  The recursion of [getFields]
    goes through this function, so it is the one defined by structural
    recursion; [getFields] below is its struct case and
    [getFields_unfold] gives the equation that reads like the Go code. *)
Fixpoint embeddedExpansion (t : reflect.type) : list fieldInfo :=
  match t with
  | reflect.PtrTo _ e => embeddedExpansion e
  | reflect.StructOf _ fs =>
      directFields t fs ++
      flat_map (λ f,
        if reflect.IsExported f && reflect.Anonymous f
        then embeddedExpansion (reflect.Type_ f) else []) fs
  | _ => []
  end.

(** [getFields] performs a search for all fields including embedded ones.
    It may return multiple fields with the same name. *)
Definition getFields (typ : reflect.type) : list fieldInfo :=
  match typ with
  | reflect.StructOf _ _ => embeddedExpansion typ
  | _ => []
  end.

(** ** Schema of a type *)

(** The serialized name of a field and whether it is marked [omitempty]. *)
Definition fieldName (f : reflect.StructField) : string * bool :=
  let j := reflect.Get (reflect.Tag f) "json" in
  if decide (j ≠ "") then (hd "" (Split j comma), Contains j "omitempty")
  else (reflect.Name f, false).

(** The variables the struct case of [SchemaFromType] builds up. *)
Record structVars := {
  required : list string;
  requiredMap_ : gmap string bool;
  propNames : list string;
  props : gmap string Schema;
}.

Definition structVars0 : structVars :=
  {| required := []; requiredMap_ := ∅; propNames := []; props := ∅ |}.

(** The loop [for _, info := range getFields(t)] of [SchemaFromType]. *)
Fixpoint structLoop {lib : GoLib} {R} {reg : Registry R} (r : R) (infos : list fieldInfo)
    (v : structVars) : Result (structVars * R) :=
  match infos with
  | [] => Ok (v, r)
  | info :: infos' =>
      let f := Field info in
      let '(name, omit) := fieldName f in
      if decide (name = "-") then
        (* This field is deliberately ignored. *)
        structLoop r infos' v
      else if decide (is_Some (props v !! name)) then
        (* This field was overridden by an ancestor type, so we should
           ignore it. *)
        structLoop r infos' v
      else
        let! '(ofs, r) := SchemaFromField r (Some (Parent info)) f in
        match ofs with
        | Some fs =>
            structLoop r infos'
              {| props := <[name := fs]> (props v);
                 propNames := propNames v ++ [name];
                 required := if omit then required v else required v ++ [name];
                 requiredMap_ :=
                   if omit then requiredMap_ v else <[name := true]> (requiredMap_ v) |}
        | None => structLoop r infos' v
        end
  end.

Definition intFormat {lib : GoLib} : string :=
  if decide (UintSize = 32) then "int32" else "int64".

Definition SchemaFromType {lib : GoLib} {R} {reg : Registry R} (r : R) (t : reflect.type)
    : Result (option Schema * R) :=
  let s := emptySchema in
  let t := deref t in
  if reflect.identical t ipType then
    (* Special case: IP address. *)
    Ok (Some (set_Format "ipv4" (set_Type_ TypeString emptySchema)), r)
  else
    let minZero := 0%float in
    match reflect.Kind_ t with
    | reflect.Bool => Ok (Some (set_Type_ TypeBoolean s), r)
    | reflect.Int => Ok (Some (set_Format intFormat (set_Type_ TypeInteger s)), r)
    | reflect.Int8 | reflect.Int16 | reflect.Int32 =>
        Ok (Some (set_Format "int32" (set_Type_ TypeInteger s)), r)
    | reflect.Int64 => Ok (Some (set_Format "int64" (set_Type_ TypeInteger s)), r)
    | reflect.Uint =>
        Ok (Some (set_Minimum (Some minZero)
                    (set_Format intFormat (set_Type_ TypeInteger s))), r)
    | reflect.Uint8 | reflect.Uint16 | reflect.Uint32 =>
        (* Unsigned integers can't be negative. *)
        Ok (Some (set_Minimum (Some minZero)
                    (set_Format "int32" (set_Type_ TypeInteger s))), r)
    | reflect.Uint64 =>
        (* Unsigned integers can't be negative. *)
        Ok (Some (set_Minimum (Some minZero)
                    (set_Format "int64" (set_Type_ TypeInteger s))), r)
    | reflect.Float32 => Ok (Some (set_Format "float" (set_Type_ TypeNumber s)), r)
    | reflect.Float64 => Ok (Some (set_Format "double" (set_Type_ TypeNumber s)), r)
    | reflect.String => Ok (Some (set_Type_ TypeString s), r)
    | reflect.Slice | reflect.Array =>
        match reflect.Elem t with
        | None => Panic "reflect: Elem of invalid type"
        | Some elem =>
            if decide (reflect.Kind_ elem = reflect.Uint8) then
              (* Special case: []byte will be serialized as a base64 string. *)
              Ok (Some (set_ContentEncoding "base64" (set_Type_ TypeString s)), r)
            else
              let! '(items, r) :=
                Registry_Schema r elem true (reflect.TName t +:+ "Item") in
              let s := set_Items items (set_Type_ TypeArray s) in
              if decide (reflect.Kind_ t = reflect.Array) then
                let len := reflect.Len t in
                Ok (Some (set_MaxItems (Some len) (set_MinItems (Some len) s)), r)
              else Ok (Some s, r)
        end
    | reflect.Map =>
        match reflect.Elem t with
        | None => Panic "reflect: Elem of invalid type"
        | Some elem =>
            let! '(value, r) :=
              Registry_Schema r elem true (reflect.TName t +:+ "Value") in
            Ok (Some (set_AdditionalProperties (APSchema value)
                        (set_Type_ TypeObject s)), r)
        end
    | reflect.Struct =>
        (* Handle special cases. *)
        if reflect.identical t timeType then
          Ok (Some (set_Format "date-time" (set_Type_ TypeString emptySchema)), r)
        else if reflect.identical t urlType then
          Ok (Some (set_Format "uri" (set_Type_ TypeString emptySchema)), r)
        else
          let! '(v, r) := structLoop r (getFields t) structVars0 in
          let s := set_Type_ TypeObject s in
          let s := set_AdditionalProperties (APBool false) s in
          let s := set_Properties (props v) s in
          let s := set_propertyNames (propNames v) s in
          let s := set_Required (Some (required v)) s in
          let s := set_requiredMap (requiredMap_ v) s in
          let! s := PrecomputeMessages s in
          Ok (Some s, r)
    | reflect.Interface =>
        (* Interfaces mean any object. *)
        Ok (Some s, r)
    | _ => Ok (None, r)
    end.

(** ** Validation

    [validate.go] is not among the sources; only its tests are
    ([validate_test.go]).  The validator below follows the specification's
    description of it (section 4.3) and the messages the tests expect. *)

(** Modelled from the spec: the two modes of [Validate] (the declaration is
    in the missing [validate.go]; the tests name the constants). *)
Inductive ValidateMode : Set :=
| ModeReadFromServer     (* server-to-client *)
| ModeWriteToServer.     (* client-to-server *)

#[global] Instance ValidateMode_eq_dec : EqDecision ValidateMode.
Proof. solve_decision. Defined.

(** Modelled from the spec: a segment pushed on the [PathBuffer], an object
    key or an array index ([validate.go] is missing). *)
Inductive PathSegment : Type :=
| Key (k : string)
| Index (i : Z).

Definition Path := list PathSegment.

(** Modelled from the spec: one violation, [{location, message, value}]
    ([validate.go] is missing). *)
Record ErrorDetail := {
  Location : Path;
  Message : string;
  Value : any;
}.

(** Library functions the validator relies on. *)
Class ValidatorLib := {
  (** [utf8.RuneCountInString]: length in logical characters. *)
  RuneCount : string → Z;
  (** Matching with a compiled pattern. *)
  MatchString : Regexp → string → bool;
  (** Whether base64 decoding of the string succeeds. *)
  base64Decodes : string → bool;
  (** The format validators: for a format of the table and a string that
      fails it, the message (naming the expected standard, with the
      parser's diagnostic when there is one). *)
  formatError : string → string → option string;
  (** Whether a number is a whole number. *)
  isWhole : float → bool;
  (** The tolerant remainder test of [multipleOf]. *)
  isMultipleOf : float → float → bool;
  (** The canonical (serialized) representation compared by [uniqueItems]. *)
  canonical : any → string;
  (** Type-aware equality of a value with an enum member. *)
  enumEqual : any → any → bool;
}.

Definition Z_to_float (n : Z) : float :=
  if n <? 0 then PrimFloat.opp (PrimFloat.of_uint63 (Uint63.of_Z (- n)))
  else PrimFloat.of_uint63 (Uint63.of_Z n).

(** Modelled from the spec: whether a value is "the zero value" for the
    write-only check ([validate.go] is missing): nil, [false], 0, the empty
    string.  A decoded sequence or mapping is never the nil one. *)
Definition IsZero (v : any) : bool :=
  match v with
  | Nil => true
  | VBool b => negb b
  | VInt n => n =? 0
  | VFloat x => PrimFloat.eqb x 0%float
  | VString s => bool_decide (s = "")
  | VSlice _ => false
  | VMap _ => false
  end.

Definition msgWriteOnly : string := "write only property is non-zero".
Definition msgUnexpectedProperty : string := "unexpected property".
Definition msgBase64 : string := "expected string to be base64 encoded".
Definition msgUnique : string := "expected array items to be unique".

Definition addError (path : Path) (v : any) (msg : string) : list ErrorDetail :=
  [{| Location := path; Message := msg; Value := v |}].

(** Modelled from the spec: the mode-adjusted requiredness of a declared
    property ([validate.go] is missing).  Server-to-client: "readOnly
    fields are required and must be present"; client-to-server: "readOnly
    fields are optional"; otherwise a property is required when the
    required-name lookup set has it. *)
Definition requiredInMode (mode : ValidateMode) (s prop : Schema) (k : string) : bool :=
  let declared := bool_decide (requiredMap s !! k = Some true) in
  match mode with
  | ModeReadFromServer => declared || ReadOnly prop
  | ModeWriteToServer => declared && negb (ReadOnly prop)
  end.

Fixpoint lookupKey {A} (m : list (string * A)) (k : string) : option A :=
  match m with
  | [] => None
  | (k', x) :: m' => if decide (k' = k) then Some x else lookupKey m' k
  end.

Section Validator.
Context {vlib : ValidatorLib} {R : Type} {reg : Registry R}.

(** Modelled from the spec: a schema that is a reference stands for the
    schema the registry stores under it ([validate.go] is missing). *)
Definition resolveRef (r : R) (s : Schema) : Schema :=
  if decide (Ref s ≠ "") then default s (Registry_SchemaFromRef r (Ref s)) else s.

(** Modelled from the spec: the numeric checks of [Validate]
    ([validate.go] is missing). *)
Definition validateNumber (s : Schema) (path : Path) (v : any) (num : float)
    : list ErrorDetail :=
  match Minimum s with
  | Some m => if PrimFloat.ltb num m then addError path v (msgMinimum s) else []
  | None => []
  end ++
  match ExclusiveMinimum s with
  | Some m => if PrimFloat.leb num m then addError path v (msgExclusiveMinimum s) else []
  | None => []
  end ++
  match Maximum s with
  | Some m => if PrimFloat.ltb m num then addError path v (msgMaximum s) else []
  | None => []
  end ++
  match ExclusiveMaximum s with
  | Some m => if PrimFloat.leb m num then addError path v (msgExclusiveMaximum s) else []
  | None => []
  end ++
  match MultipleOf s with
  | Some m => if isMultipleOf num m then [] else addError path v (msgMultipleOf s)
  | None => []
  end.

(** Modelled from the spec: the string checks of [Validate]
    ([validate.go] is missing): length in logical characters, the
    precompiled pattern, base64 content encoding, the format table. *)
Definition validateString (s : Schema) (path : Path) (str : string)
    : list ErrorDetail :=
  match MinLength s with
  | Some n =>
      if RuneCount str <? n then addError path (VString str) (msgMinLength s) else []
  | None => []
  end ++
  match MaxLength s with
  | Some n =>
      if n <? RuneCount str then addError path (VString str) (msgMaxLength s) else []
  | None => []
  end ++
  match patternRe s with
  | Some re =>
      if MatchString re str then [] else addError path (VString str) (msgPattern s)
  | None => []
  end ++
  (if decide (ContentEncoding s = "base64") then
     if base64Decodes str then [] else addError path (VString str) msgBase64
   else []) ++
  (if decide (Format s ≠ "") then
     match formatError (Format s) str with
     | Some msg => addError path (VString str) msg
     | None => []
     end
   else []).

(** Modelled from the spec: array bounds and uniqueness
    ([validate.go] is missing). *)
Definition validateArrayBounds (s : Schema) (path : Path) (l : list any)
    : list ErrorDetail :=
  match MinItems s with
  | Some n =>
      if Z.of_nat (length l) <? n then addError path (VSlice l) (msgMinItems s) else []
  | None => []
  end ++
  match MaxItems s with
  | Some n =>
      if n <? Z.of_nat (length l) then addError path (VSlice l) (msgMaxItems s) else []
  | None => []
  end ++
  (if UniqueItems s then
     if bool_decide (NoDup (map canonical l)) then []
     else addError path (VSlice l) msgUnique
   else []).

(** An entry of the input mapping, with the validator of its value:
    [check] validates the entry's value against a schema at a path.
    ([Validate] recurses on the input; the entries carry its recursive
    calls to the object checks.) *)
Record Entry := {
  entryValue : any;
  check : Schema → Path → list ErrorDetail;
}.

(** Modelled from the spec: what one declared property [k] contributes
    to the violations of an object ([validate.go] is missing).  In
    server-to-client mode a writeOnly property that is present with a
    non-zero value is a violation; a present value is validated against
    the property's schema with the key pushed onto the path; a property
    that is absent and required in this mode yields the required-property
    message. *)
Definition validateProperty (r : R) (mode : ValidateMode) (s : Schema)
    (path : Path) (input : any) (m : list (string * Entry)) (k : string)
    : list ErrorDetail :=
  match Properties s !! k with
  | None => []
  | Some prop =>
      (* the flags of a property are those of the schema it refers to *)
      let flags := resolveRef r prop in
      match lookupKey m k with
      | Some e =>
          (if bool_decide (mode = ModeReadFromServer) && WriteOnly flags
              && negb (IsZero (entryValue e))
           then addError path (entryValue e) msgWriteOnly else []) ++
          check e prop (path ++ [Key k])
      | None =>
          if requiredInMode mode s flags k
          then addError path input (msgRequiredFor k) else []
      end
  end.

(** Modelled from the spec: the object checks of [Validate]
    ([validate.go] is missing): property-count bounds, the declared
    properties in their order, unexpected properties when
    [additionalProperties] is [false], and every value against
    [additionalProperties] when that is a schema. *)
Definition validateObject (r : R) (mode : ValidateMode) (s : Schema)
    (path : Path) (input : any) (m : list (string * Entry)) : list ErrorDetail :=
  match MinProperties s with
  | Some n =>
      if Z.of_nat (length m) <? n then addError path input (msgMinProperties s) else []
  | None => []
  end ++
  match MaxProperties s with
  | Some n =>
      if n <? Z.of_nat (length m) then addError path input (msgMaxProperties s) else []
  | None => []
  end ++
  flat_map (validateProperty r mode s path input m) (propertyNames s) ++
  match AdditionalProperties s with
  | APBool false =>
      flat_map (λ ke : string * Entry,
        if decide (is_Some (Properties s !! ke.1)) then []
        else addError (path ++ [Key ke.1]) input msgUnexpectedProperty) m
  | APSchema (Some addl) =>
      flat_map (λ ke : string * Entry, check ke.2 addl (path ++ [Key ke.1])) m
  | _ => []
  end.

Definition typeMismatch (path : Path) (v : any) (msg : string)
    : bool * list ErrorDetail :=
  (true, addError path v msg).

(** Modelled from the spec: [Validate(registry, schema, pathBuffer, mode,
    value, result)] ([validate.go] is missing).  The violations appended
    to [result] are the list returned.  A type mismatch stops the checks
    of the node; everything else accumulates. *)
Fixpoint Validate (r : R) (mode : ValidateMode) (v : any) (s : Schema) (path : Path)
    {struct v} : list ErrorDetail :=
  let s := resolveRef r s in
  let '(mismatch, errs) :=
    if decide (Type_ s = TypeBoolean) then
      match v with
      | VBool _ => (false, [])
      | _ => typeMismatch path v "expected boolean"
      end
    else if decide (Type_ s = TypeNumber ∨ Type_ s = TypeInteger) then
      match v with
      | VInt n => (false, validateNumber s path v (Z_to_float n))
      | VFloat x =>
          if bool_decide (Type_ s = TypeInteger) && negb (isWhole x)
          then typeMismatch path v "expected integer"
          else (false, validateNumber s path v x)
      | _ => typeMismatch path v "expected number"
      end
    else if decide (Type_ s = TypeString) then
      match v with
      | VString str => (false, validateString s path str)
      | _ => typeMismatch path v "expected string"
      end
    else if decide (Type_ s = TypeArray) then
      match v with
      | VSlice l =>
          (false,
           validateArrayBounds s path l ++
           match Items s with
           | Some items =>
               (fix each (l : list any) (i : Z) : list ErrorDetail :=
                  match l with
                  | [] => []
                  | x :: l' =>
                      Validate r mode x items (path ++ [Index i]) ++ each l' (i + 1)
                  end) l 0
           | None => []
           end)
      | _ => typeMismatch path v "expected array"
      end
    else if decide (Type_ s = TypeObject) then
      match v with
      | VMap m =>
          (false,
           validateObject r mode s path v
             ((fix entries (m : list (string * any)) : list (string * Entry) :=
                 match m with
                 | [] => []
                 | (k, x) :: m' =>
                     (k, {| entryValue := x; check := Validate r mode x |})
                       :: entries m'
                 end) m))
      | _ => typeMismatch path v "expected object"
      end
    else (false, []) in
  if mismatch : bool then errs
  else
    errs ++
    match Enum s with
    | [] => []
    | _ =>
        if existsb (enumEqual v) (Enum s) then []
        else addError path v (msgEnum s)
    end.

End Validator.

(** ** A registry

    [registry.go] is not among the sources either; the tests build their
    registry with [NewMapRegistry(prefix, DefaultSchemaNamer)].  The
    theorems below hold for every implementation of [Registry]; this one
    serves to run the code on concrete types. *)

(** Modelled from the spec: the state of a registry, the stored schemas by
    name and the registered types ([registry.go] is missing). *)
Record mapRegistry := {
  prefix : string;
  schemas : gmap string Schema;
  types : list (string * reflect.type);
}.

Definition NewMapRegistry (prefix : string) : mapRegistry :=
  {| prefix := prefix; schemas := ∅; types := [] |}.

(** Modelled from the spec: the name of a type's schema, "derived from
    nameHint or the type's own name" ([registry.go] is missing). *)
Definition DefaultSchemaNamer (t : reflect.type) (hint : string) : string :=
  if decide (reflect.TName t ≠ "") then reflect.TName t else hint.

Definition refSchema (ref : string) : Schema := set_Ref ref emptySchema.

Definition cachedName (r : mapRegistry) (t : reflect.type) : option string :=
  fst <$> find (λ nt : string * reflect.type, reflect.identical nt.2 t) (types r).

(** Modelled from the spec: [SchemaFromRef], the reverse lookup of a
    reference [prefix + name] ([registry.go] is missing). *)
Definition mapRegistry_SchemaFromRef (r : mapRegistry) (ref : string) : option Schema :=
  if String.prefix (prefix r) ref then
    schemas r !! String.substring (String.length (prefix r))
                   (String.length ref - String.length (prefix r)) ref
  else None.

(** Modelled from the spec: [Schema(type, allowRef, nameHint)]
    ([registry.go] is missing).  A type that was synthesized is served
    from the cache; otherwise it is named, registered before its nested
    types are visited, synthesized and stored.  With [allowRef], a type
    that is not a primitive is answered by a reference to the stored
    schema.  Everything but a struct counts as a primitive here: the tests
    put per-field bounds on slice, map and [time.Time] fields, which a
    bare reference could not carry.  The [fuel] bounds the nesting depth
    of the type. *)
Fixpoint mapRegistry_Schema {lib : GoLib} (fuel : nat) (r : mapRegistry)
    (t : reflect.type) (allowRef : bool) (hint : string)
    : Result (option Schema * mapRegistry) :=
  match fuel with
  | O => Panic "registry: type nested too deeply"
  | S fuel' =>
      let nested : Registry mapRegistry :=
        {| Registry_Schema := mapRegistry_Schema fuel';
           Registry_SchemaFromRef := mapRegistry_SchemaFromRef |} in
      let t := deref t in
      let getsRef :=
        bool_decide (reflect.Kind_ t = reflect.Struct)
        && negb (reflect.identical t timeType) && negb (reflect.identical t urlType) in
      if getsRef then
        match cachedName r t with
        | Some name =>
            if allowRef then Ok (Some (refSchema (prefix r +:+ name)), r)
            else Ok (schemas r !! name, r)
        | None =>
            let name := DefaultSchemaNamer t hint in
            let r :=
              {| prefix := prefix r;
                 schemas := <[name := emptySchema]> (schemas r);
                 types := types r ++ [(name, t)] |} in
            let! '(os, r) := SchemaFromType (reg := nested) r t in
            let r :=
              match os with
              | Some s =>
                  {| prefix := prefix r; schemas := <[name := s]> (schemas r);
                     types := types r |}
              | None => r
              end in
            if allowRef then Ok (Some (refSchema (prefix r +:+ name)), r)
            else Ok (os, r)
        end
      else SchemaFromType (reg := nested) r t
  end.

(** The registry for types nested at most [fuel] levels deep. *)
Definition mapRegistryOf {lib : GoLib} (fuel : nat) : Registry mapRegistry :=
  {| Registry_Schema := mapRegistry_Schema fuel;
     Registry_SchemaFromRef := mapRegistry_SchemaFromRef |}.

(** ** Library functions for running examples

    Implementations of the library functions that agree with Go's on the
    inputs of the examples in this file: decimal integer literals, the
    JSON literals [null], [true], [false], integers and plain strings, and
    ASCII text. *)

Module examples.

Fixpoint digits (s : string) (acc : Z) : option Z :=
  match s with
  | EmptyString => Some acc
  | String c r =>
      let n := Z.of_nat (Ascii.nat_of_ascii c) in
      if (48 <=? n) && (n <=? 57) then digits r (10 * acc + (n - 48)) else None
  end.

Definition parseInt (s : string) : option Z :=
  match s with
  | EmptyString => None
  | String c r =>
      if bool_decide (c = Ascii.ascii_of_nat 45) then
        if bool_decide (r = "") then None else Z.opp <$> digits r 0
      else if bool_decide (c = Ascii.ascii_of_nat 43) then
        if bool_decide (r = "") then None else digits r 0
      else digits s 0
  end.

Definition syntaxError (fn s : string) : string :=
  "strconv." +:+ fn +:+ ": parsing " +:+ dquote +:+ s +:+ dquote +:+ ": invalid syntax".

Definition Atoi (s : string) : Z + string :=
  match parseInt s with
  | Some n =>
      if (- 2 ^ 63 <=? n) && (n <? 2 ^ 63) then inl n
      else inr ("strconv.Atoi: parsing " +:+ dquote +:+ s +:+ dquote
                  +:+ ": value out of range")
  | None => inr (syntaxError "Atoi" s)
  end.

Definition ParseFloat (s : string) : float + string :=
  match parseInt s with
  | Some n => inl (Z_to_float n)
  | None => inr (syntaxError "ParseFloat" s)
  end.

Definition isSpace (c : Ascii.ascii) : bool :=
  let n := Ascii.nat_of_ascii c in
  bool_decide (n = 32%nat ∨ (9 ≤ n ≤ 13)%nat).

Fixpoint trimLeft (s : string) : string :=
  match s with
  | String c r => if isSpace c then trimLeft r else s
  | EmptyString => s
  end.

Definition TrimSpace (s : string) : string :=
  String.rev (trimLeft (String.rev (trimLeft s))).

Fixpoint plain (s : string) : bool :=
  match s with
  | EmptyString => true
  | String c r =>
      negb (bool_decide (c = Ascii.ascii_of_nat 34 ∨ c = Ascii.ascii_of_nat 92)) && plain r
  end.

Definition json_Unmarshal (s : string) : any + string :=
  if bool_decide (s = "null") then inl Nil
  else if bool_decide (s = "true") then inl (VBool true)
  else if bool_decide (s = "false") then inl (VBool false)
  else
    match parseInt s with
    | Some n => inl (VFloat (Z_to_float n))
    | None =>
        let n := String.length s in
        let inner := String.substring 1 (n - 2) s in
        if (2 <=? n)%nat && String.prefix dquote s
           && bool_decide (String.substring (n - 1) 1 s = dquote) && plain inner
        then inl (VString inner)
        else inr "invalid character looking for beginning of value"
    end.

(** The integer a float denotes, if it is a whole number. *)
Definition wholeValue (x : float) : option Z :=
  match FloatOps.Prim2SF x with
  | SpecFloat.S754_zero _ => Some 0
  | SpecFloat.S754_finite sign m e =>
      let mag :=
        if 0 <=? e then Some (Z.pos m * 2 ^ e)
        else if Z.pos m mod 2 ^ (- e) =? 0 then Some (Z.pos m / 2 ^ (- e))
        else None in
      (λ n, if sign then - n else n) <$> mag
  | _ => None
  end.

Fixpoint Sprint_v (v : any) : string :=
  match v with
  | Nil => "<nil>"
  | VBool b => if b then "true" else "false"
  | VInt n => Sprintf_d n
  | VFloat x =>
      match wholeValue x with
      | Some n => Sprintf_d n
      | None => "NaN"
      end
  | VString s => s
  | VSlice l =>
      "[" +:+ (fix each (l : list any) : string :=
                 match l with
                 | [] => ""
                 | [x] => Sprint_v x
                 | x :: l' => Sprint_v x +:+ " " +:+ each l'
                 end) l +:+ "]"
  | VMap _ => "map[]"
  end.

(** Unbalanced brackets are the one syntax error detected. *)
Fixpoint brackets (s : string) (open : bool) : bool :=
  match s with
  | EmptyString => negb open
  | String c r =>
      if bool_decide (c = lbracket) then brackets r true
      else if bool_decide (c = Ascii.ascii_of_nat 93) then brackets r false
      else brackets r open
  end.

Definition regexp_error (p : string) : option string :=
  if brackets p false then None
  else Some ("error parsing regexp: missing closing ]: `" +:+ p +:+ "`").

Definition isInteger (k : reflect.Kind) : bool :=
  bool_decide (k ∈ [reflect.Int; reflect.Int8; reflect.Int16; reflect.Int32;
                    reflect.Int64; reflect.Uint; reflect.Uint8; reflect.Uint16;
                    reflect.Uint32; reflect.Uint64; reflect.Uintptr]).

Definition isFloat (k : reflect.Kind) : bool :=
  bool_decide (k ∈ [reflect.Float32; reflect.Float64]).

(** [ConvertibleTo] from the types [json.Unmarshal] produces. *)
Definition ConvertibleTo (src dst : reflect.type) : bool :=
  let ks := reflect.Kind_ src in
  let kd := reflect.Kind_ dst in
  bool_decide (kd = reflect.Interface)
  || (isFloat ks && (isInteger kd || isFloat kd))
  || (bool_decide (ks = reflect.Bool) && bool_decide (kd = reflect.Bool))
  || (bool_decide (ks = reflect.String) && bool_decide (kd = reflect.String)).

Definition Convert (src : reflect.type) (v : any) (dst : reflect.type) : any :=
  match v with
  | VFloat x =>
      if isInteger (reflect.Kind_ dst) then
        match wholeValue x with
        | Some n => VInt n
        | None => v
        end
      else v
  | _ => v
  end.

Definition lib : GoLib :=
  Build_GoLib 64 Atoi ParseFloat TrimSpace json_Unmarshal Sprint_v regexp_error
    ConvertibleTo Convert.

(** Standard base64 with padding, as [base64.StdEncoding] decodes it
    (line breaks are skipped). *)
Definition isBase64Char (c : Ascii.ascii) : bool :=
  let n := Ascii.nat_of_ascii c in
  bool_decide ((65 ≤ n ≤ 90)%nat ∨ (97 ≤ n ≤ 122)%nat ∨ (48 ≤ n ≤ 57)%nat
               ∨ n = 43%nat ∨ n = 47%nat).

Definition isPad (c : Ascii.ascii) : bool := bool_decide (c = Ascii.ascii_of_nat 61).

Fixpoint quanta (l : list Ascii.ascii) : bool :=
  match l with
  | [] => true
  | a :: b :: c :: d :: l' =>
      isBase64Char a && isBase64Char b &&
      match l' with
      | [] => (isBase64Char c && (isBase64Char d || isPad d)) || (isPad c && isPad d)
      | _ => isBase64Char c && isBase64Char d && quanta l'
      end
  | _ => false
  end.

Definition base64Decodes (s : string) : bool :=
  quanta (filter (λ c, c ≠ Ascii.ascii_of_nat 10 ∧ c ≠ Ascii.ascii_of_nat 13)
            (String.list_ascii_of_string s)).

Definition isWhole (x : float) : bool := bool_decide (is_Some (wholeValue x)).

Definition isMultipleOf (x m : float) : bool :=
  match wholeValue x, wholeValue m with
  | Some a, Some b => bool_decide (b ≠ 0 ∧ a mod b = 0)
  | _, _ => false
  end.

(** Patterns and formats are not interpreted: every string passes. *)
Definition vlib : ValidatorLib :=
  Build_ValidatorLib
    (λ s, Z.of_nat (String.length s))
    (λ _ _, true)
    base64Decodes
    (λ _ _, None)
    isWhole
    isMultipleOf
    Sprint_v
    (λ v e, bool_decide (Sprint_v v = Sprint_v e)).

(** The registry of the tests, for types nested at most five deep. *)
Definition registry : Registry mapRegistry := mapRegistryOf (lib := lib) 5.
Definition registry0 : mapRegistry := NewMapRegistry "#/components/schemas/".

(** Field and type descriptors. *)
Definition field (n : string) (t : reflect.type) (tag : reflect.StructTag)
    : reflect.StructField :=
  {| reflect.Name := n; reflect.PkgPath := ""; reflect.Type_ := t;
     reflect.Tag := tag; reflect.Anonymous := false |}.

Definition embed (t : reflect.type) : reflect.StructField :=
  {| reflect.Name := reflect.TName t; reflect.PkgPath := ""; reflect.Type_ := t;
     reflect.Tag := []; reflect.Anonymous := true |}.

Definition struct (n : string) (fs : list reflect.StructField) : reflect.type :=
  reflect.StructOf (named (if decide (n = "") then "" else "main") n) fs.

(** [struct { Value string `json:"value" readOnly:"true"` }] *)
Definition readOnlyValue : reflect.type :=
  struct "" [field "Value" stringT [("json", "value"); ("readOnly", "true")]].

(** [struct { Value string `json:"value" writeOnly:"true"` }] *)
Definition writeOnlyValue : reflect.type :=
  struct "" [field "Value" stringT [("json", "value"); ("writeOnly", "true")]].

(** [struct { Value []byte `json:"value"` }] *)
Definition bytesValue : reflect.type :=
  struct "" [field "Value" (reflect.SliceOf reflect.unnamed uint8T) [("json", "value")]].

(** [struct { Value int `json:"value" minimum:"1"` }] *)
Definition minimumValue : reflect.type :=
  struct "" [field "Value" intT [("json", "value"); ("minimum", "1")]].

(** [struct { Value string `json:"value" pattern:"^[a-"` }] *)
Definition patternInvalid : reflect.type :=
  struct "" [field "Value" stringT [("json", "value"); ("pattern", "^[a-")]].

(** [struct { Value int `json:"-" minimum:"abc"` }]: an ignored field with a
    bound that is not a number. *)
Definition ignoredMalformed : reflect.type :=
  struct "" [field "Value" intT [("json", "-"); ("minimum", "abc")]].

(** [[4]byte] and [uintptr]. *)
Definition byteArray4 : reflect.type := reflect.ArrayOf reflect.unnamed 4 uint8T.
Definition uintptrT : reflect.type :=
  reflect.Scalar (named "" "uintptr") reflect.SUintptr.

(** Embedding two levels deep next to embedding one level deep:
<<
    type C struct { Z int `json:"z"` }
    type A struct { C }
    type B struct { Z string `json:"z"` }
    type D struct { H string `json:"h"` }
    type Outer struct { A; B; D; Handler func() `json:"h"` }
>> *)
Definition C : reflect.type := struct "C" [field "Z" intT [("json", "z")]].
Definition A : reflect.type := struct "A" [embed C].
Definition B : reflect.type := struct "B" [field "Z" stringT [("json", "z")]].
Definition D : reflect.type := struct "D" [field "H" stringT [("json", "h")]].
Definition Outer : reflect.type :=
  struct "Outer"
    [embed A; embed B; embed D;
     field "Handler" (reflect.FuncOf reflect.unnamed) [("json", "h")]].

Definition run (t : reflect.type) : Result (option Schema * mapRegistry) :=
  SchemaFromType (lib := lib) (reg := registry) registry0 t.

(** The schema and the registry [run] ends with. *)
Definition schemaOf (t : reflect.type) : Schema :=
  match run t with
  | Ok (Some s, _) => s
  | _ => emptySchema
  end.

Definition registryAfter (t : reflect.type) : mapRegistry :=
  match run t with
  | Ok (_, r) => r
  | Panic _ => registry0
  end.

(** The schema [SchemaFromField] gives a field of [parent], from the empty
    registry. *)
Definition fieldSchemaOf (parent : reflect.type) (f : reflect.StructField) : Schema :=
  match SchemaFromField (lib := lib) (reg := registry) registry0 (Some parent) f with
  | Ok (Some s, _) => s
  | _ => emptySchema
  end.

Definition uint32T : reflect.type := reflect.Scalar (named "" "uint32") reflect.SUint32.
Definition bytesT : reflect.type := reflect.SliceOf reflect.unnamed uint8T.

End examples.

(** * Properties *)

(** ** Results *)

Lemma bindR_Ok {A B} (m : Result A) (k : A → Result B) (b : B) :
  bindR m k = Ok b → ∃ a, m = Ok a ∧ k a = Ok b.
Proof. destruct m as [a|msg]; simpl; [eauto | discriminate]. Qed.

Lemma bindR_Panic {A B} (m : Result A) (k : A → Result B) :
  is_Panic m = true → is_Panic (bindR m k) = true.
Proof. by destruct m. Qed.

Lemma is_Panic_Ok {A} (m : Result A) (a : A) : m = Ok a → is_Panic m = false.
Proof. by intros ->. Qed.

Lemma is_Panic_true {A} (m : Result A) : is_Panic m = true ↔ ∃ msg, m = Panic msg.
Proof.
  destruct m as [a|msg]; split; try discriminate; eauto.
  by intros [? ?].
Qed.

(** Inverts a hypothesis [bindR m k = Ok b]. *)
Ltac inv_bind H :=
  let a := fresh "a" in
  let Ha := fresh "Hm" in
  apply bindR_Ok in H as (a & Ha & H).

(** ** Pointers *)

(** [n] pointer types around [t], each with a name of its own. *)
Definition pointers (nms : list reflect.TypeName) (t : reflect.type) : reflect.type :=
  foldr reflect.PtrTo t nms.

Lemma deref_pointers nms t : deref (pointers nms t) = deref t.
Proof. induction nms as [|nm nms IH]; [done | by simpl]. Qed.

Lemma deref_idemp t : deref (deref t) = deref t.
Proof. induction t; simpl; auto. Qed.

Lemma deref_not_Ptr t : reflect.Kind_ (deref t) ≠ reflect.Ptr.
Proof. induction t; simpl; try done. by destruct k. Qed.

Section Synthesis.
Context {lib : GoLib} {R : Type} {reg : Registry R}.
Implicit Types (r : R) (t : reflect.type) (s : Schema).

(** [SchemaFromType] looks at its argument through [deref] only. *)
Lemma SchemaFromType_deref r t : SchemaFromType r t = SchemaFromType r (deref t).
Proof. unfold SchemaFromType. by rewrite deref_idemp. Qed.

(** C10. Pointer indirection is transparent to schema synthesis: for
    every type [t] and any number of pointer types wrapped around it,
    [SchemaFromType] yields for the pointer type what it yields for [t],
    result and registry alike; in particular it yields for every type
    what it yields for the fully dereferenced type. *)
Theorem SchemaFromType_pointer_transparent r nms t :
  SchemaFromType r (pointers nms t) = SchemaFromType r t
  ∧ SchemaFromType r (pointers nms t) = SchemaFromType r (deref t).
Proof.
  split.
  - rewrite (SchemaFromType_deref r (pointers nms t)), deref_pointers.
    symmetry. apply SchemaFromType_deref.
  - rewrite (SchemaFromType_deref r (pointers nms t)). by rewrite deref_pointers.
Qed.

(** *** Scalars *)

Lemma identical_Scalar_ipType nm k : reflect.identical (reflect.Scalar nm k) ipType = false.
Proof. simpl. apply andb_false_r. Qed.

(** The unsigned integer kinds with a case in [SchemaFromType]. *)
Definition sizedUnsigned : list reflect.ScalarKind :=
  [reflect.SUint; reflect.SUint8; reflect.SUint16; reflect.SUint32; reflect.SUint64].

(** C7 (amended). For every type of kind uint, uint8, uint16, uint32 or
    uint64, [SchemaFromType] yields an integer schema whose [Minimum] is
    0, with format int32 for the widths up to 32 bits, int64 for uint64,
    and for uint the format of the platform's word size (int32 when
    [bits.UintSize] is 32, int64 otherwise); the registry is left as it
    was.  The unsigned type uintptr has no case: it yields no schema. *)
Theorem SchemaFromType_unsigned r nm k :
  (k ∈ sizedUnsigned →
   ∃ s, SchemaFromType r (reflect.Scalar nm k) = Ok (Some s, r)
        ∧ Type_ s = TypeInteger
        ∧ Minimum s = Some 0%float
        ∧ Format s =
            match k with
            | reflect.SUint8 | reflect.SUint16 | reflect.SUint32 => "int32"
            | reflect.SUint64 => "int64"
            | _ => if decide (UintSize = 32) then "int32" else "int64"
            end)
  ∧ SchemaFromType r (reflect.Scalar nm reflect.SUintptr) = Ok (None, r).
Proof.
  split.
  - intros Hk. unfold SchemaFromType. simpl deref.
    rewrite identical_Scalar_ipType.
    unfold sizedUnsigned in Hk. rewrite !elem_of_cons in Hk.
    destruct Hk as [->|[->|[->|[->|[->|Hk]]]]];
      [eexists; simpl; split_and!; reflexivity .. | by apply elem_of_nil in Hk].
  - unfold SchemaFromType. simpl deref. by rewrite identical_Scalar_ipType.
Qed.

(** *** Sequences *)

Lemma identical_uint8_kind e nm :
  reflect.identical e (reflect.Scalar nm reflect.SUint8) = true →
  reflect.Kind_ e = reflect.Uint8.
Proof.
  destruct e; simpl; rewrite ?andb_false_r; try discriminate.
  intros [_ Hk%bool_decide_eq_true]%andb_true_iff. by subst.
Qed.

Lemma identical_Slice_ipType nm e :
  reflect.Kind_ e ≠ reflect.Uint8 → reflect.identical (reflect.SliceOf nm e) ipType = false.
Proof.
  intros Hk. simpl. apply andb_false_iff. right.
  apply not_true_is_false. intros He. by apply Hk, (identical_uint8_kind _ _ He).
Qed.

Lemma identical_Array_ipType nm n e : reflect.identical (reflect.ArrayOf nm n e) ipType = false.
Proof. simpl. apply andb_false_r. Qed.

(** The schema of a byte sequence. *)
Definition base64Schema : Schema :=
  set_ContentEncoding "base64" (set_Type_ TypeString emptySchema).

Lemma SchemaFromType_bytes r t e :
  reflect.Kind_ t = reflect.Slice ∨ reflect.Kind_ t = reflect.Array →
  reflect.Elem t = Some e →
  reflect.Kind_ e = reflect.Uint8 →
  reflect.identical t ipType = false →
  SchemaFromType r t = Ok (Some base64Schema, r).
Proof.
  intros Hkind He Hk Hip. unfold SchemaFromType.
  assert (deref t = t) as -> by (destruct t; simpl in *; destruct Hkind; try done).
  rewrite Hip.
  destruct Hkind as [-> | ->]; rewrite He; by destruct (decide _).
Qed.

(** C6 (amended). For every fixed-size array type whose element kind is
    not uint8, [SchemaFromType] yields an array schema whose [MinItems]
    and [MaxItems] both equal the declared length; every slice type whose
    element kind is not uint8 yields an array schema without these
    bounds.  In both, [Items] is what the registry answers for the
    element type (under the hint [Name + "Item"]), which is no schema at
    all when the element type has none.  An array of uint8 elements
    yields a string schema with content encoding base64 and no bounds. *)
Theorem SchemaFromType_sequence r r' nm n e items :
  (reflect.Kind_ e ≠ reflect.Uint8 →
   Registry_Schema r e true (reflect.name nm +:+ "Item") = Ok (items, r') →
   (∃ s, SchemaFromType r (reflect.ArrayOf nm n e) = Ok (Some s, r')
         ∧ Type_ s = TypeArray ∧ Items s = items
         ∧ MinItems s = Some n ∧ MaxItems s = Some n)
   ∧ (∃ s, SchemaFromType r (reflect.SliceOf nm e) = Ok (Some s, r')
           ∧ Type_ s = TypeArray ∧ Items s = items
           ∧ MinItems s = None ∧ MaxItems s = None))
  ∧ (reflect.Kind_ e = reflect.Uint8 →
     ∃ s, SchemaFromType r (reflect.ArrayOf nm n e) = Ok (Some s, r)
          ∧ Type_ s = TypeString ∧ ContentEncoding s = "base64"
          ∧ Items s = None ∧ MinItems s = None ∧ MaxItems s = None).
Proof.
  split.
  - intros Hk Hreg. split.
    + unfold SchemaFromType. simpl deref. rewrite identical_Array_ipType.
      simpl. destruct (decide (reflect.Kind_ e = reflect.Uint8)); [done|].
      unfold reflect.TName; simpl. rewrite Hreg. simpl.
      eexists; split_and!; reflexivity.
    + unfold SchemaFromType. simpl deref. rewrite identical_Slice_ipType by done.
      simpl. destruct (decide (reflect.Kind_ e = reflect.Uint8)); [done|].
      unfold reflect.TName; simpl. rewrite Hreg. simpl.
      eexists; split_and!; reflexivity.
  - intros Hk. exists base64Schema. split_and!; try reflexivity.
    apply (SchemaFromType_bytes r _ e); [by right | done | done |].
    apply identical_Array_ipType.
Qed.

End Synthesis.

(** ** Byte sequences *)

Section Bytes.
Context {lib : GoLib} {vlib : ValidatorLib} {R : Type} {reg : Registry R}.

Lemma Validate_base64Schema (r : R) mode str path :
  Validate r mode (VString str) base64Schema path =
    if base64Decodes str then []
    else [{| Location := path; Message := msgBase64; Value := VString str |}].
Proof.
  cbn. unfold validateString. cbn.
  destruct (base64Decodes str); reflexivity.
Qed.

(** C5 (amended). For every byte-sequence type (a slice or an array
    whose element kind is uint8) other than the IP-address type,
    [SchemaFromType] yields a string schema with content encoding base64,
    and [Validate] on that schema and a string appends the one violation
    "expected string to be base64 encoded" when the string fails to
    base64-decode and nothing when it decodes.  The IP-address type, a
    slice of bytes too, yields a string schema with format ipv4 and no
    content encoding. *)
Theorem SchemaFromType_bytes_base64 (r : R) t e :
  (reflect.Kind_ t = reflect.Slice ∨ reflect.Kind_ t = reflect.Array →
   reflect.Elem t = Some e →
   reflect.Kind_ e = reflect.Uint8 →
   reflect.identical t ipType = false →
   ∃ s, SchemaFromType r t = Ok (Some s, r)
        ∧ Type_ s = TypeString
        ∧ ContentEncoding s = "base64"
        ∧ ∀ (r' : R) mode str path,
            (base64Decodes str = true → Validate r' mode (VString str) s path = [])
            ∧ (base64Decodes str = false →
               map Message (Validate r' mode (VString str) s path) = [msgBase64])
            ∧ (msgBase64 ∈ map Message (Validate r' mode (VString str) s path)
               ↔ base64Decodes str = false))
  ∧ ∃ s, SchemaFromType r ipType = Ok (Some s, r)
         ∧ Type_ s = TypeString ∧ Format s = "ipv4" ∧ ContentEncoding s = "".
Proof.
  split.
  - intros Hkind He Hk Hip. exists base64Schema.
    split; [by eapply SchemaFromType_bytes|].
    split; [done|]. split; [done|].
    intros r' mode str path. rewrite Validate_base64Schema.
    destruct (base64Decodes str); split_and!; try done.
    + split; [|done]. cbn. intros Hin. by apply elem_of_nil in Hin.
    + split; [done|]. intros _. cbn. apply list_elem_of_here.
  - eexists. split_and!; reflexivity.
Qed.

End Bytes.

(** ** Precomputed messages *)

Section Messages.
Context {lib : GoLib}.

Lemma lookup_foldl_insertRequired (l : list string) (m : gmap string string) k :
  foldl insertRequired m l !! k =
    if decide (k ∈ l) then Some (msgRequiredFor k) else m !! k.
Proof.
  revert m. induction l as [|x l IH]; intros m; simpl.
  - destruct (decide (k ∈ [])) as [Hin|]; [by apply elem_of_nil in Hin | done].
  - rewrite IH. unfold insertRequired.
    destruct (decide (k ∈ l)) as [Hin|Hin].
    + rewrite decide_True; [done | by apply list_elem_of_further].
    + destruct (decide (x = k)) as [->|Hne].
      * rewrite lookup_insert_eq, decide_True; [done | apply list_elem_of_here].
      * rewrite lookup_insert_ne by done.
        rewrite decide_False; [done|].
        intros [?|?]%elem_of_cons; congruence.
Qed.

Lemma foldl_insertRequired_id (l : list string) (m : gmap string string) :
  (∀ k, k ∈ l → m !! k = Some (msgRequiredFor k)) →
  foldl insertRequired m l = m.
Proof.
  revert m. induction l as [|x l IH]; intros m Hm; simpl; [done|].
  unfold insertRequired at 2.
  rewrite insert_id by (apply Hm, list_elem_of_here).
  apply IH. intros k Hk. by apply Hm, list_elem_of_further.
Qed.

Lemma foldl_insertRequired_idemp (l : list string) (m : gmap string string) :
  foldl insertRequired (foldl insertRequired m l) l = foldl insertRequired m l.
Proof.
  apply foldl_insertRequired_id. intros k Hk.
  rewrite lookup_foldl_insertRequired. by rewrite decide_True.
Qed.

(** The table [PrecomputeMessages] builds holds, for every name in
    [Required], the message the validator reports for it. *)
Lemma PrecomputeMessages_msgRequired s s' required name :
  PrecomputeMessages s = Ok s' →
  Required s = Some required →
  name ∈ required →
  ∃ m, msgRequired s' = Some m ∧ m !! name = Some (msgRequiredFor name).
Proof.
  intros Hpm Hreq Hin. unfold PrecomputeMessages in Hpm.
  inv_bind Hpm. destruct a as [re msg]. injection Hpm as <-. simpl.
  rewrite Hreq. eexists; split; [reflexivity|].
  rewrite lookup_foldl_insertRequired. by rewrite decide_True.
Qed.

(** [PrecomputeMessages] leaves the constraint fields as they are. *)
Lemma PrecomputeMessages_constraints s s' :
  PrecomputeMessages s = Ok s' →
  Type_ s' = Type_ s ∧ Properties s' = Properties s ∧ Required s' = Required s
  ∧ requiredMap s' = requiredMap s ∧ propertyNames s' = propertyNames s
  ∧ Items s' = Items s ∧ AdditionalProperties s' = AdditionalProperties s
  ∧ Format s' = Format s ∧ ContentEncoding s' = ContentEncoding s
  ∧ Minimum s' = Minimum s ∧ MinItems s' = MinItems s ∧ MaxItems s' = MaxItems s
  ∧ ReadOnly s' = ReadOnly s ∧ WriteOnly s' = WriteOnly s ∧ Ref s' = Ref s
  ∧ Enum s' = Enum s ∧ Pattern s' = Pattern s.
Proof.
  intros Hpm. unfold PrecomputeMessages in Hpm.
  inv_bind Hpm. destruct a as [re msg]. injection Hpm as <-. simpl.
  split_and!; reflexivity.
Qed.

(** C9. [PrecomputeMessages] is idempotent: when a call on a schema
    returns, a second call on the result (whose constraint fields are
    those of the schema) returns too and changes nothing: every
    precomputed message field, the table of required-property messages
    included, is the one the first call left. *)
Theorem PrecomputeMessages_idempotent s s' :
  PrecomputeMessages s = Ok s' → PrecomputeMessages s' = Ok s'.
Proof.
  intros Hpm. unfold PrecomputeMessages in Hpm.
  inv_bind Hpm. destruct a as [re msg]. injection Hpm as <-.
  unfold PrecomputeMessages. cbn.
  assert (∀ k : option string * string → Result Schema,
            bindR (if decide (Pattern s ≠ "")
                   then match regexp_error (Pattern s) with
                        | Some err =>
                            Panic ("regexp: Compile(" +:+ Pattern s +:+ "): " +:+ err)
                        | None =>
                            Ok (Some (Pattern s),
                                "expected string to match pattern " +:+ Pattern s)
                        end
                   else Ok (re, msg)) k = k (re, msg)) as ->.
  { intros k. destruct (decide (Pattern s ≠ "")); [|done].
    destruct (regexp_error (Pattern s)); [discriminate | by injection Hm as <- <-]. }
  f_equal. destruct s; cbn.
  f_equal; try (by match goal with |- match ?o with _ => _ end = _ => destruct o end).
  destruct Required0 as [required|]; [|done].
  cbn. f_equal. apply foldl_insertRequired_idemp.
Qed.

End Messages.

(** ** The struct case *)

Section Structs.
Context {lib : GoLib} {R : Type} {reg : Registry R}.
Implicit Types (r : R) (t : reflect.type) (s : Schema) (v : structVars).

(** What the loop maintains: the property names are the keys of the
    properties, in the order they were added and without repetition; the
    required names are property names, without repetition; the lookup set
    holds exactly the required names. *)
Record structInv (v : structVars) : Prop := {
  inv_propNames_NoDup : NoDup (propNames v);
  inv_propNames : ∀ n, n ∈ propNames v ↔ is_Some (props v !! n);
  inv_required_NoDup : NoDup (required v);
  inv_required : ∀ n, n ∈ required v → n ∈ propNames v;
  inv_requiredMap :
    ∀ n, requiredMap_ v !! n = if decide (n ∈ required v) then Some true else None;
}.

Lemma structInv0 : structInv structVars0.
Proof.
  split; simpl.
  - apply NoDup_nil_2.
  - intros n. rewrite lookup_empty. split; [by intros ?%elem_of_nil | by intros [? ?]].
  - apply NoDup_nil_2.
  - by intros n ?%elem_of_nil.
  - intros n. rewrite lookup_empty.
    destruct (decide (n ∈ [])) as [?%elem_of_nil|]; done.
Qed.

(** The variables after a field named [name] was given the schema [fs]. *)
Definition addProperty (v : structVars) (name : string) (omit : bool) (fs : Schema)
    : structVars :=
  {| props := <[name := fs]> (props v);
     propNames := propNames v ++ [name];
     required := if omit then required v else required v ++ [name];
     requiredMap_ := if omit then requiredMap_ v else <[name := true]> (requiredMap_ v) |}.

Lemma structInv_addProperty v name omit fs :
  structInv v → props v !! name = None → structInv (addProperty v name omit fs).
Proof.
  intros [Hnd Hpn Hrnd Hreq Hmap] Hnone.
  assert (name ∉ propNames v) as Hfresh.
  { rewrite Hpn, Hnone. by intros [? ?]. }
  assert (name ∉ required v) as Hfresh' by (intros ?; by apply Hfresh, Hreq).
  split; simpl.
  - apply NoDup_app. split_and!; [done | | apply NoDup_singleton].
    intros x Hx ->%list_elem_of_singleton. done.
  - intros n. rewrite elem_of_app, list_elem_of_singleton, Hpn.
    destruct (decide (name = n)) as [->|Hne].
    + rewrite lookup_insert_eq. split; eauto.
    + rewrite lookup_insert_ne by done. split; [intros [?|?]; [done|congruence] | auto].
  - destruct omit; [done|].
    apply NoDup_app. split_and!; [done | | apply NoDup_singleton].
    intros x Hx ->%list_elem_of_singleton. done.
  - intros n Hn. rewrite elem_of_app. destruct omit.
    + left. by apply Hreq.
    + apply elem_of_app in Hn as [Hn|Hn]; [left; by apply Hreq | by right].
  - intros n. destruct omit; [apply Hmap|].
    destruct (decide (name = n)) as [->|Hne].
    + rewrite lookup_insert_eq, decide_True; [done|].
      apply elem_of_app. right. apply list_elem_of_here.
    + rewrite lookup_insert_ne, Hmap by done.
      destruct (decide (n ∈ required v)) as [Hin|Hin].
      * rewrite decide_True; [done | apply elem_of_app; by left].
      * rewrite decide_False; [done|].
        intros [?|?%list_elem_of_singleton]%elem_of_app; congruence.
Qed.

(** One step of the loop, read off the code. *)
Lemma structLoop_cons r info infos v :
  structLoop r (info :: infos) v =
    let f := Field info in
    if decide ((fieldName f).1 = "-") then structLoop r infos v
    else if decide (is_Some (props v !! (fieldName f).1)) then structLoop r infos v
    else
      bindR (SchemaFromField r (Some (Parent info)) f) (λ z,
        match z.1 with
        | Some fs =>
            structLoop z.2 infos (addProperty v (fieldName f).1 (fieldName f).2 fs)
        | None => structLoop z.2 infos v
        end).
Proof.
  cbn [structLoop]. cbn zeta.
  destruct (fieldName (Field info)) as [name omit]; cbn [fst snd].
  repeat case_decide; try done.
  destruct (SchemaFromField r (Some (Parent info)) (Field info)) as [[[fs|] r1]|]; done.
Qed.

Lemma structLoop_app r infos1 infos2 v :
  structLoop r (infos1 ++ infos2) v =
    bindR (structLoop r infos1 v) (λ z, structLoop z.2 infos2 z.1).
Proof.
  revert r v. induction infos1 as [|info infos1 IH]; intros r v; [done|].
  rewrite <- app_comm_cons, !structLoop_cons. cbn zeta.
  repeat case_decide; try apply IH.
  destruct (SchemaFromField r (Some (Parent info)) (Field info)) as [[[fs|] r1]|];
    simpl; [apply IH .. | done].
Qed.

Lemma structLoop_inv r infos v v' r' :
  structLoop r infos v = Ok (v', r') → structInv v → structInv v'.
Proof.
  revert r v. induction infos as [|info infos IH]; intros r v Hloop Hinv.
  - by injection Hloop as <- <-.
  - rewrite structLoop_cons in Hloop. cbn zeta in Hloop.
    destruct (decide ((fieldName (Field info)).1 = "-")); [by eapply IH|].
    destruct (decide (is_Some (props v !! (fieldName (Field info)).1))) as [|Hnone];
      [by eapply IH|].
    inv_bind Hloop. destruct a as [[fs|] r1]; simpl in Hloop; [|by eapply IH].
    eapply IH; [done|]. apply structInv_addProperty; [done|].
    by apply eq_None_not_Some.
Qed.

(** Once a name has its schema, the rest of the loop leaves it alone. *)
Lemma structLoop_props_stable r infos v v' r' name fs :
  structLoop r infos v = Ok (v', r') →
  props v !! name = Some fs → props v' !! name = Some fs.
Proof.
  revert r v. induction infos as [|info infos IH]; intros r v Hloop Hname.
  - by injection Hloop as <- <-.
  - rewrite structLoop_cons in Hloop. cbn zeta in Hloop.
    destruct (decide ((fieldName (Field info)).1 = "-")); [by eapply IH|].
    destruct (decide (is_Some (props v !! (fieldName (Field info)).1))) as [|Hnone];
      [by eapply IH|].
    inv_bind Hloop. destruct a as [[fs'|] r1]; simpl in Hloop; [|by eapply IH].
    eapply IH; [done|]. simpl. rewrite lookup_insert_ne; [done|].
    intros Heq. apply Hnone. rewrite Heq, Hname. eauto.
Qed.

(** The loop never puts a name in [required] that is already a property. *)
Lemma structLoop_required_stable r infos v v' r' name :
  structLoop r infos v = Ok (v', r') →
  is_Some (props v !! name) →
  (name ∈ required v' ↔ name ∈ required v).
Proof.
  revert r v. induction infos as [|info infos IH]; intros r v Hloop Hname.
  - by injection Hloop as <- <-.
  - rewrite structLoop_cons in Hloop. cbn zeta in Hloop.
    destruct (decide ((fieldName (Field info)).1 = "-")); [by eapply IH|].
    destruct (decide (is_Some (props v !! (fieldName (Field info)).1))) as [|Hnone];
      [by eapply IH|].
    inv_bind Hloop. destruct a as [[fs'|] r1]; simpl in Hloop; [|by eapply IH].
    assert ((fieldName (Field info)).1 ≠ name) as Hne
      by (intros Heq; apply Hnone; by rewrite Heq).
    rewrite (IH _ _ Hloop).
    + simpl. destruct (fieldName (Field info)).2; [done|].
      rewrite elem_of_app, list_elem_of_singleton. split; [intros [?|?]; congruence | auto].
    + simpl. by rewrite lookup_insert_ne.
Qed.

(** A field whose name is not among [infos] is not touched by the loop. *)
Lemma structLoop_props_other r infos v v' r' name :
  structLoop r infos v = Ok (v', r') →
  (∀ info, info ∈ infos → (fieldName (Field info)).1 ≠ name) →
  props v' !! name = props v !! name.
Proof.
  revert r v. induction infos as [|info infos IH]; intros r v Hloop Hother.
  - by injection Hloop as <- <-.
  - assert (∀ i, i ∈ infos → (fieldName (Field i)).1 ≠ name) as Hother'
      by (intros i Hi; by apply Hother, list_elem_of_further).
    assert ((fieldName (Field info)).1 ≠ name) as Hne
      by apply Hother, list_elem_of_here.
    rewrite structLoop_cons in Hloop. cbn zeta in Hloop.
    destruct (decide ((fieldName (Field info)).1 = "-")); [by eapply IH|].
    destruct (decide (is_Some (props v !! (fieldName (Field info)).1))) as [|Hnone];
      [by eapply IH|].
    inv_bind Hloop. destruct a as [[fs'|] r1]; simpl in Hloop; [|by eapply IH].
    rewrite (IH _ _ Hloop Hother'). simpl. by rewrite lookup_insert_ne.
Qed.

(** The name "-" never becomes a property. *)
Lemma structLoop_props_ignored r infos v v' r' :
  structLoop r infos v = Ok (v', r') →
  props v !! "-" = None → props v' !! "-" = None.
Proof.
  revert r v. induction infos as [|info infos IH]; intros r v Hloop Hnone.
  - by injection Hloop as <- <-.
  - rewrite structLoop_cons in Hloop. cbn zeta in Hloop.
    destruct (decide ((fieldName (Field info)).1 = "-")); [by eapply IH|].
    destruct (decide (is_Some (props v !! (fieldName (Field info)).1)));
      [by eapply IH|].
    inv_bind Hloop. destruct a as [[fs'|] r1]; simpl in Hloop; [|by eapply IH].
    eapply IH; [done|]. simpl. by rewrite lookup_insert_ne.
Qed.

(** A schema [SchemaFromType] returns is either one without properties
    or the one the struct case builds from the variables of its loop. *)
Lemma SchemaFromType_inv r t s r' :
  SchemaFromType r t = Ok (Some s, r') →
  (Properties s = ∅ ∧ Required s = None ∧ requiredMap s = ∅ ∧ propertyNames s = [])
  ∨ (∃ v, structLoop r (getFields (deref t)) structVars0 = Ok (v, r')
          ∧ Type_ s = TypeObject ∧ AdditionalProperties s = APBool false
          ∧ Properties s = props v ∧ Required s = Some (required v)
          ∧ requiredMap s = requiredMap_ v ∧ propertyNames s = propNames v
          ∧ ∃ m, msgRequired s = Some m
                 ∧ ∀ n, n ∈ required v → m !! n = Some (msgRequiredFor n)).
Proof.
  unfold SchemaFromType. intros Hs.
  destruct (reflect.identical (deref t) ipType);
    [injection Hs as <- <-; by left|].
  destruct (reflect.Kind_ (deref t)) eqn:Hk;
    try (injection Hs as <- <-; by left); try discriminate.
  - (* Array *)
    destruct (reflect.Elem (deref t)) as [e|]; [|discriminate].
    destruct (decide _); [injection Hs as <- <-; by left|].
    inv_bind Hs. destruct a as [items r1].
    destruct (decide _); injection Hs as <- <-; by left.
  - (* Map *)
    destruct (reflect.Elem (deref t)) as [e|]; [|discriminate].
    inv_bind Hs. destruct a as [items r1]. injection Hs as <- <-. by left.
  - (* Slice *)
    destruct (reflect.Elem (deref t)) as [e|]; [|discriminate].
    destruct (decide _); [injection Hs as <- <-; by left|].
    inv_bind Hs. destruct a as [items r1].
    destruct (decide _); injection Hs as <- <-; by left.
  - (* Struct *)
    destruct (reflect.identical (deref t) timeType);
      [injection Hs as <- <-; by left|].
    destruct (reflect.identical (deref t) urlType);
      [injection Hs as <- <-; by left|].
    inv_bind Hs. destruct a as [v r1]. inv_bind Hs. injection Hs as <- <-.
    right. exists v. split; [done|].
    pose proof (PrecomputeMessages_constraints _ _ Hm0) as Hc.
    destruct Hc as (-> & -> & -> & -> & -> & _ & -> & _).
    split_and!; try reflexivity.
    unfold PrecomputeMessages in Hm0. inv_bind Hm0. destruct a0 as [re msg].
    injection Hm0 as <-. cbn. eexists; split; [reflexivity|].
    intros n Hn. rewrite lookup_foldl_insertRequired. by rewrite decide_True.
Qed.

(** C8. For every schema [SchemaFromType] returns, each name in
    [Required] has a schema in [Properties], and the required-name lookup
    set holds exactly the names in [Required] (each with the value
    [true]). *)
Theorem SchemaFromType_required r t s r' :
  SchemaFromType r t = Ok (Some s, r') →
  (∀ n, n ∈ default [] (Required s) → is_Some (Properties s !! n))
  ∧ (∀ n, is_Some (requiredMap s !! n) ↔ n ∈ default [] (Required s))
  ∧ (∀ n, n ∈ default [] (Required s) → requiredMap s !! n = Some true).
Proof.
  intros Hs. apply SchemaFromType_inv in Hs as [(Hp & -> & -> & _) | (v & Hloop & Hs)].
  - simpl. split_and!.
    + by intros n ?%elem_of_nil.
    + intros n. rewrite lookup_empty. split; [by intros [? ?] | by intros ?%elem_of_nil].
    + by intros n ?%elem_of_nil.
  - destruct Hs as (_ & _ & -> & -> & -> & _). simpl.
    pose proof (structLoop_inv _ _ _ _ _ Hloop structInv0) as [_ Hpn _ Hreq Hmap].
    split_and!.
    + intros n Hn. by apply Hpn, Hreq.
    + intros n. rewrite Hmap.
      destruct (decide (n ∈ required v)); split; eauto; try done; by intros [? ?].
    + intros n Hn. rewrite Hmap. by rewrite decide_True.
Qed.

End Structs.

(** ** Field resolution *)

Lemma embeddedExpansion_deref t : embeddedExpansion t = embeddedExpansion (deref t).
Proof. induction t; simpl; auto. Qed.

Lemma embeddedExpansion_getFields t :
  embeddedExpansion t =
    let newTyp := deref t in
    if decide (reflect.Kind_ newTyp = reflect.Struct) then getFields newTyp else [].
Proof.
  rewrite embeddedExpansion_deref. cbn zeta.
  pose proof (deref_not_Ptr t) as Hptr.
  destruct (deref t); simpl in *; try done.
  by destruct k.
Qed.

Lemma flat_map_filter {A B} (P : A → Prop) `{∀ x, Decision (P x)} (g : A → list B) l :
  flat_map g (filter P l) = flat_map (λ x, if decide (P x) then g x else []) l.
Proof.
  induction l as [|x l IH]; [done|].
  rewrite filter_cons. simpl. destruct (decide (P x)); simpl; by rewrite IH.
Qed.

(** [getFields] as the Go code computes it for a struct type: the exported
    named fields of the type in declaration order, then, for each exported
    embedded field in declaration order, the fields [getFields] collects
    from its type once the pointers are stripped, if that is a struct. *)
Lemma getFields_unfold nm fs :
  getFields (reflect.StructOf nm fs) =
    directFields (reflect.StructOf nm fs) fs ++
    flat_map (λ f,
      let newTyp := deref (reflect.Type_ f) in
      if decide (reflect.Kind_ newTyp = reflect.Struct) then getFields newTyp else [])
      (embeddedFields fs).
Proof.
  unfold getFields at 1. cbn [embeddedExpansion]. f_equal.
  unfold embeddedFields. rewrite flat_map_filter.
  apply flat_map_ext. intros f.
  rewrite embeddedExpansion_getFields.
  by destruct (reflect.IsExported f), (reflect.Anonymous f).
Qed.

Section FieldResolution.
Context {lib : GoLib} {R : Type} {reg : Registry R}.
Implicit Types (r : R) (t : reflect.type) (s : Schema) (v : structVars).

(** The struct case of [SchemaFromType], for a struct type that is none
    of the special ones. *)
Lemma SchemaFromType_struct r t s r' :
  reflect.Kind_ (deref t) = reflect.Struct →
  reflect.identical (deref t) timeType = false →
  reflect.identical (deref t) urlType = false →
  SchemaFromType r t = Ok (Some s, r') →
  ∃ v, structLoop r (getFields (deref t)) structVars0 = Ok (v, r')
       ∧ Properties s = props v ∧ Required s = Some (required v)
       ∧ requiredMap s = requiredMap_ v ∧ propertyNames s = propNames v.
Proof.
  intros Hk Htime Hurl Hs. unfold SchemaFromType in Hs.
  assert (reflect.identical (deref t) ipType = false) as Hip.
  { destruct (deref t) as [? k| | | | | | | |]; try discriminate; [by destruct k|].
    simpl. apply andb_false_r. }
  rewrite Hip, Hk, Htime, Hurl in Hs.
  inv_bind Hs. destruct a as [v r1]. inv_bind Hs. injection Hs as <- <-.
  exists v. split; [done|].
  pose proof (PrecomputeMessages_constraints _ _ Hm0) as Hc.
  destruct Hc as (_ & -> & -> & -> & -> & _). done.
Qed.

(** What the code computes where several collected fields have one
    serialized name (the order is the one [getFields] produces, which is
    not the breadth-first order its comment announces; the examples at
    the end show it).  For every struct type other than the two
    special ones (time and URL) for which [SchemaFromType] returns a
    schema: [getFields] lists the exported named fields of the type first
    and then, for each exported embedded field in declaration order, the
    fields it lists for the field's struct type; no name occurs
    twice in the property names or in [Required], and "-" is no
    property; and for every collected field whose serialized name is not
    "-": the fields collected before it have been processed without a
    fault; if none of them has its name, no property of that name was
    captured before it; if a property of its name was captured before
    it, the field is discarded and that property and its membership in
    [Required] stay as they were; and if none was and the field yields a
    schema, that schema is the property's schema, and the name is in
    [Required] exactly when the field is not marked omitempty. *)
Theorem getFields_first_wins r nm fields s r' :
  let t := reflect.StructOf nm fields in
  reflect.identical t timeType = false →
  reflect.identical t urlType = false →
  SchemaFromType r t = Ok (Some s, r') →
  getFields t =
    directFields t fields ++
    flat_map (λ f,
      let newTyp := deref (reflect.Type_ f) in
      if decide (reflect.Kind_ newTyp = reflect.Struct) then getFields newTyp else [])
      (embeddedFields fields)
  ∧ NoDup (propertyNames s)
  ∧ NoDup (default [] (Required s))
  ∧ (∀ n, n ∈ propertyNames s ↔ is_Some (Properties s !! n))
  ∧ Properties s !! "-" = None
  ∧ ∀ pre info post,
      getFields t = pre ++ info :: post →
      (fieldName (Field info)).1 ≠ "-" →
      ∃ v1 r1,
        structLoop r pre structVars0 = Ok (v1, r1)
        ∧ ((∀ i, i ∈ pre → (fieldName (Field i)).1 ≠ (fieldName (Field info)).1) →
           props v1 !! (fieldName (Field info)).1 = None)
        ∧ (is_Some (props v1 !! (fieldName (Field info)).1) →
           Properties s !! (fieldName (Field info)).1
             = props v1 !! (fieldName (Field info)).1
           ∧ ((fieldName (Field info)).1 ∈ default [] (Required s)
              ↔ (fieldName (Field info)).1 ∈ required v1))
        ∧ (props v1 !! (fieldName (Field info)).1 = None →
           ∀ fs r2,
             SchemaFromField r1 (Some (Parent info)) (Field info) = Ok (Some fs, r2) →
             Properties s !! (fieldName (Field info)).1 = Some fs
             ∧ ((fieldName (Field info)).1 ∈ default [] (Required s)
                ↔ (fieldName (Field info)).2 = false)).
Proof.
  intros t Htime Hurl Hs.
  apply SchemaFromType_struct in Hs as (v & Hloop & Hp & Hreq & _ & Hpn); try done.
  change (deref t) with t in Hloop.
  pose proof (structLoop_inv _ _ _ _ _ Hloop structInv0) as [Hnd Hnames Hrnd _ _].
  rewrite Hp, Hreq, Hpn. cbn [default].
  split; [apply getFields_unfold|]. split_and!; try done.
  { by apply (structLoop_props_ignored _ _ _ _ _ Hloop). }
  intros pre info post Hsplit Hname.
  rewrite Hsplit, structLoop_app in Hloop.
  inv_bind Hloop. destruct a as [v1 r1]. cbn [fst snd] in Hloop.
  pose proof (structLoop_inv _ _ _ _ _ Hm structInv0) as [_ Hnames1 _ Hreq1 _].
  exists v1, r1. split; [done|]. split_and!.
  - intros Hother.
    rewrite (structLoop_props_other _ _ _ _ _ _ Hm Hother). apply lookup_empty.
  - intros [fs Hfs]. split.
    + rewrite Hfs. by eapply structLoop_props_stable.
    + eapply structLoop_required_stable; [done|]. rewrite Hfs. eauto.
  - intros Hnone fs r2 Hfield.
    rewrite structLoop_cons in Hloop. cbn zeta in Hloop.
    rewrite decide_False in Hloop by done.
    rewrite decide_False in Hloop by (rewrite Hnone; by intros [? ?]).
    rewrite Hfield in Hloop. cbn in Hloop.
    split.
    + eapply structLoop_props_stable; [done|]. simpl. apply lookup_insert_eq.
    + rewrite (structLoop_required_stable _ _ _ _ _ _ Hloop)
        by (simpl; rewrite lookup_insert_eq; eauto).
      simpl. destruct (fieldName (Field info)).2.
      * split; [|done]. intros Hin%Hreq1%Hnames1.
        rewrite Hnone in Hin. by destruct Hin.
      * split; [done|]. intros _. apply elem_of_app. right. apply list_elem_of_here.
Qed.

End FieldResolution.

(** ** Malformed annotations *)

Lemma mapR_Panic {A B} (f : A → Result B) (l : list A) x :
  x ∈ l → is_Panic (f x) = true → is_Panic (mapR f l) = true.
Proof.
  induction l as [|y l IH]; [by intros ?%elem_of_nil|].
  intros [->|Hin]%elem_of_cons Hx; simpl.
  - by apply bindR_Panic.
  - destruct (f y); [simpl | done]. by apply bindR_Panic, IH.
Qed.

(** The tags [SchemaFromField] reads as booleans, integers and numbers. *)
Definition boolTags : list string := ["uniqueItems"; "readOnly"; "writeOnly"; "deprecated"].
Definition intTags : list string :=
  ["minLength"; "maxLength"; "minItems"; "maxItems"; "minProperties"; "maxProperties"].
Definition floatTags : list string :=
  ["minimum"; "exclusiveMinimum"; "maximum"; "exclusiveMaximum"; "multipleOf"].

Section Malformed.
Context {lib : GoLib}.

(** The value of a default, example or enum tag is read as JSON (the
    type is not a string and the comma-separated shorthand for a slice
    of strings does not apply). *)
Definition readAsJSON (t : reflect.type) (value : string) : Prop :=
  reflect.Kind_ t ≠ reflect.String
  ∧ ∀ nm e, t = reflect.SliceOf nm e → reflect.Kind_ e = reflect.String →
            ∃ rest, value = String lbracket rest.

(** A tag value that cannot be converted to the type [t]: it is not
    JSON, or it decodes to a value of another type that is not
    convertible to [t], or to a sequence with an element that is not
    convertible to the element type of the slice type [t]. *)
Inductive unconvertible (t : reflect.type) (value : string) : Prop :=
| unconvertible_syntax err :
    readAsJSON t value →
    json_Unmarshal value = inr err →
    unconvertible t value
| unconvertible_value v tv :
    readAsJSON t value →
    json_Unmarshal value = inl v →
    (∀ l, v ≠ VSlice l) →
    TypeOf v = Some tv →
    reflect.identical tv t = false →
    ConvertibleTo tv t = false →
    unconvertible t value
| unconvertible_element elems nm te e et :
    readAsJSON t value →
    json_Unmarshal value = inl (VSlice elems) →
    t = reflect.SliceOf nm te →
    reflect.identical (reflect.SliceOf reflect.unnamed anyT) t = false →
    e ∈ elems →
    TypeOf e = Some et →
    ConvertibleTo et te = false →
    unconvertible t value.

(** The type an enum member is converted to. *)
Definition enumType (f : reflect.StructField) (fs : Schema) : option reflect.type :=
  if decide (Type_ fs = TypeArray) then reflect.Elem (reflect.Type_ f)
  else Some (reflect.Type_ f).

(** A field with a malformed annotation; [fs] is the schema of the
    field's type. *)
Inductive malformed (f : reflect.StructField) (fs : Schema) : Prop :=
| malformed_bool tag :
    tag ∈ boolTags →
    reflect.Get (reflect.Tag f) tag ∉ [""; "true"; "false"] →
    malformed f fs
| malformed_int tag err :
    tag ∈ intTags →
    reflect.Get (reflect.Tag f) tag ≠ "" →
    Atoi (reflect.Get (reflect.Tag f) tag) = inr err →
    malformed f fs
| malformed_float tag err :
    tag ∈ floatTags →
    reflect.Get (reflect.Tag f) tag ≠ "" →
    ParseFloat (reflect.Get (reflect.Tag f) tag) = inr err →
    malformed f fs
| malformed_value tag :
    tag ∈ ["default"; "example"] →
    reflect.Get (reflect.Tag f) tag ≠ "" →
    unconvertible (reflect.Type_ f) (reflect.Get (reflect.Tag f) tag) →
    malformed f fs
| malformed_enum member :
    reflect.Get (reflect.Tag f) "enum" ≠ "" →
    member ∈ Split (reflect.Get (reflect.Tag f) "enum") comma →
    (∀ fType, enumType f fs = Some fType → unconvertible fType member) →
    malformed f fs
| malformed_pattern err :
    reflect.Get (reflect.Tag f) "pattern" ≠ "" →
    regexp_error (reflect.Get (reflect.Tag f) "pattern") = Some err →
    malformed f fs.

Lemma boolTag_Panic f tag :
  reflect.Get (reflect.Tag f) tag ∉ [""; "true"; "false"] →
  is_Panic (boolTag f tag) = true.
Proof.
  intros Hv. unfold boolTag.
  repeat case_decide; try done; exfalso; apply Hv; set_solver.
Qed.

Lemma intTag_Panic f tag err :
  reflect.Get (reflect.Tag f) tag ≠ "" →
  Atoi (reflect.Get (reflect.Tag f) tag) = inr err →
  is_Panic (intTag f tag) = true.
Proof. intros Hv Herr. unfold intTag. rewrite decide_True by done. by rewrite Herr. Qed.

Lemma floatTag_Panic f tag err :
  reflect.Get (reflect.Tag f) tag ≠ "" →
  ParseFloat (reflect.Get (reflect.Tag f) tag) = inr err →
  is_Panic (floatTag f tag) = true.
Proof. intros Hv Herr. unfold floatTag. rewrite decide_True by done. by rewrite Herr. Qed.

Lemma jsonTagValue_Panic f t value :
  unconvertible t value → is_Panic (jsonTagValue f t value) = true.
Proof.
  intros Hbad. unfold jsonTagValue.
  assert (readAsJSON t value) as [Hstr Hshort] by (by destruct Hbad).
  rewrite decide_False by done.
  assert ((match t with
           | reflect.SliceOf _ e =>
               if decide (reflect.Kind_ e = reflect.String) then
                 match value with
                 | EmptyString => Panic "runtime error: index out of range [0] with length 0"
                 | String c _ => Ok (bool_decide (c ≠ lbracket))
                 end
               else Ok false
           | _ => Ok false
           end) = Ok false) as ->.
  { destruct t as [| |nm e| | | | | |]; try done.
    destruct (decide _) as [He|]; [|done].
    destruct (Hshort nm e eq_refl He) as [rest ->].
    by rewrite bool_decide_false by (by intros ?). }
  cbn [bindR].
  destruct Hbad as [err _ Herr | v tv _ Hv Hns Htv Hid Hconv
                   | elems nm te e et _ Hv -> Hid He Het Hconv].
  - by rewrite Herr.
  - rewrite Hv, Htv, Hid, Hconv. by destruct v; try done; destruct (Hns l).
  - rewrite Hv. cbn [TypeOf]. rewrite Hid.
    apply bindR_Panic, (mapR_Panic _ _ e He).
    unfold convertElem. by rewrite Het, Hconv.
Qed.

Lemma jsonTag_Panic f name multi :
  reflect.Get (reflect.Tag f) name ≠ "" →
  unconvertible (reflect.Type_ f) (reflect.Get (reflect.Tag f) name) →
  is_Panic (jsonTag f name multi) = true.
Proof.
  intros Hv Hbad. unfold jsonTag. rewrite decide_True by done.
  by apply jsonTagValue_Panic.
Qed.

Lemma PrecomputeMessages_Panic s err :
  Pattern s ≠ "" → regexp_error (Pattern s) = Some err →
  is_Panic (PrecomputeMessages s) = true.
Proof.
  intros Hp Herr. unfold PrecomputeMessages.
  rewrite decide_True by done. by rewrite Herr.
Qed.

End Malformed.

(** Decides [is_Panic (bindR m k)] when [m] is known to panic, and
    otherwise steps over [m]. *)
Ltac panic_step :=
  lazymatch goal with
  | H : is_Panic ?m = true |- is_Panic (bindR ?m _) = true => by apply bindR_Panic
  | |- is_Panic (bindR ?m _) = true =>
      let E := fresh "E" in
      destruct m eqn:E; [cbn [bindR]; cbn beta zeta | reflexivity]
  | |- is_Panic (let (_, _) := ?p in _) = true => destruct p; cbn beta zeta
  | |- is_Panic (match ?p with (_, _) => _ end) = true => destruct p; cbn beta zeta
  end.

Section MalformedField.
Context {lib : GoLib} {R : Type} {reg : Registry R}.
Implicit Types (r : R) (t : reflect.type) (s : Schema) (v : structVars).

(** The name hint [SchemaFromField] passes to the registry. *)
Definition fieldHint (parent : option reflect.type) (f : reflect.StructField) : string :=
  match parent with
  | Some p => reflect.TName p
  | None => ""
  end +:+ reflect.Name f +:+ "Struct".

Lemma SchemaFromField_malformed r r1 parent f fs :
  Registry_Schema r (reflect.Type_ f) true (fieldHint parent f) = Ok (Some fs, r1) →
  malformed f fs →
  is_Panic (SchemaFromField r parent f) = true.
Proof.
  intros Hreg Hbad. unfold SchemaFromField. unfold fieldHint in Hreg.
  rewrite Hreg. cbn [bindR]. cbn beta zeta.
  destruct Hbad as [tag Htag Hv | tag err Htag Hv Herr | tag err Htag Hv Herr
                   | tag Htag Hv Hval | member Hv Hmem Hmember | err Hv Herr].
  - pose proof (boolTag_Panic f tag Hv) as Hp.
    unfold boolTags in Htag. rewrite !elem_of_cons in Htag.
    destruct Htag as [->|[->|[->|[->|Htag]]]]; [| | | |by apply elem_of_nil in Htag];
      repeat panic_step.
  - pose proof (intTag_Panic f tag err Hv Herr) as Hp.
    unfold intTags in Htag. rewrite !elem_of_cons in Htag.
    destruct Htag as [->|[->|[->|[->|[->|[->|Htag]]]]]];
      [| | | | | |by apply elem_of_nil in Htag]; repeat panic_step.
  - pose proof (floatTag_Panic f tag err Hv Herr) as Hp.
    unfold floatTags in Htag. rewrite !elem_of_cons in Htag.
    destruct Htag as [->|[->|[->|[->|[->|Htag]]]]];
      [| | | | |by apply elem_of_nil in Htag]; repeat panic_step.
  - pose proof (jsonTag_Panic f tag false Hv Hval) as Hp.
    rewrite !elem_of_cons in Htag.
    destruct Htag as [->|[->|Htag]]; [| |by apply elem_of_nil in Htag];
      repeat panic_step.
  - do 2 panic_step.
    apply bindR_Panic. rewrite decide_True by done.
    unfold enumType in Hmember.
    destruct (decide (Type_ fs = TypeArray)).
    + destruct (reflect.Elem (reflect.Type_ f)) as [fType|]; [|done].
      cbn [bindR]. apply bindR_Panic, (mapR_Panic _ _ member Hmem).
      by apply jsonTagValue_Panic, Hmember.
    + cbn [bindR]. apply bindR_Panic, (mapR_Panic _ _ member Hmem).
      by apply jsonTagValue_Panic, Hmember.
  - repeat (lazymatch goal with
            | |- is_Panic (bindR (PrecomputeMessages _) _) = true => fail
            | _ => panic_step
            end).
    all: apply bindR_Panic; by eapply PrecomputeMessages_Panic.
Qed.

End MalformedField.

Section MalformedStruct.
Context {lib : GoLib} {R : Type} {reg : Registry R}.
Implicit Types (r : R) (t : reflect.type) (s : Schema) (v : structVars).

Lemma SchemaFromField_registry_Panic r parent f msg :
  Registry_Schema r (reflect.Type_ f) true (fieldHint parent f) = Panic msg →
  SchemaFromField r parent f = Panic msg.
Proof. intros Hreg. unfold SchemaFromField. unfold fieldHint in Hreg. by rewrite Hreg. Qed.

(** C4 (amended). For every field that [SchemaFromType] processes when
    it builds the schema of a struct type (none of the special ones) --
    a field that field resolution collects (exported, not embedded),
    whose serialized name is not "-", that is not preceded by a collected
    field of the same name, and for whose type the registry has a schema
    -- a malformed annotation (a boolean tag that is neither "true" nor
    "false", an integer or number tag that does not parse, a default,
    example or enum member that cannot be converted to the field's type,
    a pattern that does not compile) makes [SchemaFromType] panic: it
    returns no schema, so the defect is not a validation violation and
    [Validate] has no schema to run on. *)
Theorem malformed_annotation_aborts r nm fields pre info post :
  let t := reflect.StructOf nm fields in
  reflect.identical t timeType = false →
  reflect.identical t urlType = false →
  getFields t = pre ++ info :: post →
  (fieldName (Field info)).1 ≠ "-" →
  (∀ i, i ∈ pre → (fieldName (Field i)).1 ≠ (fieldName (Field info)).1) →
  (∀ r1 ofs r2,
      Registry_Schema r1 (reflect.Type_ (Field info)) true
        (fieldHint (Some (Parent info)) (Field info)) = Ok (ofs, r2) →
      ∃ fs, ofs = Some fs ∧ malformed (Field info) fs) →
  ∃ msg, SchemaFromType r t = Panic msg.
Proof.
  intros t Htime Hurl Hsplit Hname Hfirst Hreg.
  apply is_Panic_true. unfold SchemaFromType.
  change (deref t) with t. cbn [reflect.Kind_ t].
  assert (reflect.identical t ipType = false) as -> by (simpl; apply andb_false_r).
  rewrite Htime, Hurl, Hsplit, structLoop_app.
  destruct (structLoop r pre structVars0) as [[v1 r1]|] eqn:Hpre; [|done].
  cbn [bindR fst snd]. apply bindR_Panic.
  rewrite structLoop_cons. cbn zeta.
  rewrite decide_False by done.
  rewrite decide_False.
  2:{ rewrite (structLoop_props_other _ _ _ _ _ _ Hpre Hfirst).
      cbn [props structVars0]. rewrite lookup_empty. by intros [? ?]. }
  apply bindR_Panic.
  destruct (Registry_Schema r1 (reflect.Type_ (Field info)) true
              (fieldHint (Some (Parent info)) (Field info)))
    as [[ofs r2]|msg] eqn:Hr.
  - destruct (Hreg _ _ _ Hr) as (fs & -> & Hbad).
    by eapply SchemaFromField_malformed.
  - by rewrite (SchemaFromField_registry_Panic _ _ _ _ Hr).
Qed.

End MalformedStruct.

(** ** Modes of validation *)

Section Modes.
Context {vlib : ValidatorLib} {R : Type} {reg : Registry R}.
Implicit Types (r : R) (s prop : Schema) (m : list (string * any)).

(** The input mapping with the validator of each of its values. *)
Definition entries (r : R) (mode : ValidateMode) (m : list (string * any))
    : list (string * Entry) :=
  map (λ kx : string * any,
         (kx.1, {| entryValue := kx.2; check := Validate r mode kx.2 |})) m.




End Modes.

Section ReadWriteOnly.
Context {vlib : ValidatorLib} {R : Type} {reg : Registry R}.
Implicit Types (r : R) (s prop : Schema) (m : list (string * any)).





End ReadWriteOnly.

(** * The code on concrete inputs *)

Section Examples.
Import examples.
#[local] Existing Instance lib.
#[local] Existing Instance vlib.
#[local] Existing Instance registry.

(** ** The tests of [validate_test.go] *)

Definition messages (t : reflect.type) (mode : ValidateMode) (input : any)
    : list string :=
  map Message (Validate (registryAfter t) mode input (schemaOf t) []).

Example readOnly_set_success :
  messages readOnlyValue ModeWriteToServer (VMap [("value", VString "whoops")]) = [].
Proof. vm_compute. reflexivity. Qed.

Example readOnly_missing_success :
  messages readOnlyValue ModeWriteToServer (VMap []) = [].
Proof. vm_compute. reflexivity. Qed.

Example readOnly_missing_fail :
  messages readOnlyValue ModeReadFromServer (VMap [])
    = ["expected required property value to be present"].
Proof. vm_compute. reflexivity. Qed.

Example writeOnly_missing_fail :
  messages writeOnlyValue ModeReadFromServer
    (VMap [("value", VString "should not be set")])
    = ["write only property is non-zero"].
Proof. vm_compute. reflexivity. Qed.

Example base64_byte_success :
  messages bytesValue ModeReadFromServer (VMap [("value", VString "ABCD")]) = [].
Proof. vm_compute. reflexivity. Qed.

Example base64_fail :
  messages bytesValue ModeReadFromServer (VMap [("value", VString "!")])
    = ["expected string to be base64 encoded"].
Proof. vm_compute. reflexivity. Qed.

Example minimum_fail :
  messages minimumValue ModeReadFromServer (VMap [("value", VInt 0)])
    = ["expected number >= 1"].
Proof. vm_compute. reflexivity. Qed.

Example pattern_invalid : is_Panic (run patternInvalid) = true.
Proof. vm_compute. reflexivity. Qed.

(** ** Instances of the theorems *)

Lemma SchemaFromType_unsigned_witness :
  reflect.SUint32 ∈ sizedUnsigned
  ∧ ∃ s, run uint32T = Ok (Some s, registry0)
         ∧ Type_ s = TypeInteger ∧ Minimum s = Some 0%float ∧ Format s = "int32".
Proof.
  assert (reflect.SUint32 ∈ sizedUnsigned) as Hk.
  { unfold sizedUnsigned. do 3 apply list_elem_of_further. apply list_elem_of_here. }
  split; [exact Hk|].
  exact (proj1 (SchemaFromType_unsigned registry0 (named "" "uint32") reflect.SUint32) Hk).
Defined.

(** [[4]int]: bounded on both sides by its length. *)
Lemma SchemaFromType_sequence_witness :
  reflect.Kind_ intT ≠ reflect.Uint8
  ∧ Registry_Schema registry0 intT true "Item" = Ok (Some (schemaOf intT), registry0)
  ∧ ∃ s, run (reflect.ArrayOf reflect.unnamed 4 intT) = Ok (Some s, registry0)
         ∧ Type_ s = TypeArray ∧ Items s = Some (schemaOf intT)
         ∧ MinItems s = Some 4 ∧ MaxItems s = Some 4.
Proof.
  assert (reflect.Kind_ intT ≠ reflect.Uint8) as Hk by discriminate.
  assert (Registry_Schema registry0 intT true (reflect.name reflect.unnamed +:+ "Item")
          = Ok (Some (schemaOf intT), registry0)) as Hreg by reflexivity.
  split; [exact Hk|]. split; [exact Hreg|].
  exact (proj1 (proj1 (SchemaFromType_sequence registry0 registry0 reflect.unnamed 4
                         intT (Some (schemaOf intT))) Hk Hreg)).
Defined.

(** [[]byte]. *)
Lemma SchemaFromType_bytes_base64_witness :
  reflect.Kind_ bytesT = reflect.Slice
  ∧ reflect.Elem bytesT = Some uint8T
  ∧ reflect.identical bytesT ipType = false
  ∧ ∃ s, run bytesT = Ok (Some s, registry0)
         ∧ Type_ s = TypeString ∧ ContentEncoding s = "base64"
         ∧ Validate registry0 ModeReadFromServer (VString "ABCD") s [] = []
         ∧ map Message (Validate registry0 ModeReadFromServer (VString "!") s [])
             = [msgBase64].
Proof.
  assert (reflect.identical bytesT ipType = false) as Hip by reflexivity.
  split; [reflexivity|]. split; [reflexivity|]. split; [exact Hip|].
  destruct (proj1 (SchemaFromType_bytes_base64 registry0 bytesT uint8T)
              (or_introl eq_refl) eq_refl eq_refl Hip) as (s & Hs & Hty & Henc & Hv).
  exists s. split; [exact Hs|]. split; [exact Hty|]. split; [exact Henc|].
  split.
  - apply (Hv registry0 ModeReadFromServer "ABCD" []). reflexivity.
  - apply (Hv registry0 ModeReadFromServer "!" []). reflexivity.
Defined.

(** A schema with a bound and a required name, before and after its
    messages are computed. *)
Definition bounded : Schema :=
  set_Required (Some ["value"]) (set_Minimum (Some 1%float) emptySchema).

Definition boundedFinal : Schema :=
  match PrecomputeMessages bounded with
  | Ok s => s
  | Panic _ => emptySchema
  end.

Lemma PrecomputeMessages_idempotent_witness :
  PrecomputeMessages bounded = Ok boundedFinal
  ∧ msgMinimum boundedFinal = "expected number >= 1"
  ∧ PrecomputeMessages boundedFinal = Ok boundedFinal.
Proof.
  assert (PrecomputeMessages bounded = Ok boundedFinal) as H1
    by (vm_compute; reflexivity).
  split; [exact H1|]. split; [vm_compute; reflexivity|].
  exact (PrecomputeMessages_idempotent _ _ H1).
Defined.

Lemma SchemaFromType_required_witness :
  run readOnlyValue = Ok (Some (schemaOf readOnlyValue), registryAfter readOnlyValue)
  ∧ Required (schemaOf readOnlyValue) = Some ["value"]
  ∧ is_Some (Properties (schemaOf readOnlyValue) !! "value")
  ∧ requiredMap (schemaOf readOnlyValue) !! "value" = Some true.
Proof.
  assert (run readOnlyValue
          = Ok (Some (schemaOf readOnlyValue), registryAfter readOnlyValue)) as Hrun
    by (vm_compute; reflexivity).
  assert (Required (schemaOf readOnlyValue) = Some ["value"]) as Hreq
    by (vm_compute; reflexivity).
  destruct (SchemaFromType_required _ _ _ _ Hrun) as (Hsub & _ & Hmap).
  rewrite Hreq in Hsub, Hmap. cbn [default] in Hsub, Hmap.
  split; [exact Hrun|]. split; [exact Hreq|].
  split; [apply Hsub | apply Hmap]; apply list_elem_of_here.
Defined.



(** [Outer]: the field [C.Z] is the first one named "z" and wins over the
    later [B.Z]. *)
Lemma getFields_first_wins_witness :
  reflect.identical Outer timeType = false
  ∧ reflect.identical Outer urlType = false
  ∧ run Outer = Ok (Some (schemaOf Outer), registryAfter Outer)
  ∧ getFields Outer
      = [{| Parent := Outer;
            Field := field "Handler" (reflect.FuncOf reflect.unnamed) [("json", "h")] |}]
        ++ {| Parent := C; Field := field "Z" intT [("json", "z")] |}
        :: [{| Parent := B; Field := field "Z" stringT [("json", "z")] |};
            {| Parent := D; Field := field "H" stringT [("json", "h")] |}]
  ∧ NoDup (propertyNames (schemaOf Outer))
  ∧ NoDup (default [] (Required (schemaOf Outer)))
  ∧ Type_ <$> Properties (schemaOf Outer) !! "z" = Some TypeInteger
  ∧ "z" ∈ default [] (Required (schemaOf Outer)).
Proof.
  assert (run Outer = Ok (Some (schemaOf Outer), registryAfter Outer)) as Hrun
    by (vm_compute; reflexivity).
  destruct (getFields_first_wins registry0 (named "main" "Outer") (reflect.Fields Outer)
              (schemaOf Outer) (registryAfter Outer) eq_refl eq_refl Hrun)
    as (_ & Hnames & Hrequired & _ & _ & Hfirst).
  split; [reflexivity|]. split; [reflexivity|]. split; [exact Hrun|].
  split; [reflexivity|]. split; [exact Hnames|]. split; [exact Hrequired|].
  destruct (Hfirst
              [{| Parent := Outer;
                  Field := field "Handler" (reflect.FuncOf reflect.unnamed)
                             [("json", "h")] |}]
              {| Parent := C; Field := field "Z" intT [("json", "z")] |}
              [{| Parent := B; Field := field "Z" stringT [("json", "z")] |};
               {| Parent := D; Field := field "H" stringT [("json", "h")] |}]
              eq_refl ltac:(discriminate))
    as (v1 & r1 & Hpre & _ & _ & Hwin).
  vm_compute in Hpre. injection Hpre as <- <-.
  assert (SchemaFromField registry0 (Some C) (field "Z" intT [("json", "z")])
          = Ok (Some (fieldSchemaOf C (field "Z" intT [("json", "z")])), registry0))
    as Hfield
    by (vm_compute; reflexivity).
  destruct (Hwin eq_refl _ _ Hfield) as (Hprop & Hreq).
  split.
  - exact (eq_trans (f_equal (fmap Type_) Hprop) eq_refl).
  - apply Hreq. reflexivity.
Defined.

(** The test "pattern invalid". *)
Lemma malformed_annotation_aborts_witness :
  getFields patternInvalid
    = [] ++ {| Parent := patternInvalid;
               Field := field "Value" stringT [("json", "value"); ("pattern", "^[a-")] |}
         :: []
  ∧ ∃ msg, run patternInvalid = Panic msg.
Proof.
  split; [reflexivity|].
  apply (malformed_annotation_aborts registry0 reflect.unnamed
           (reflect.Fields patternInvalid) []
           {| Parent := patternInvalid;
              Field := field "Value" stringT [("json", "value"); ("pattern", "^[a-")] |}
           [] eq_refl eq_refl eq_refl).
  - discriminate.
  - intros i Hi. destruct (proj1 (elem_of_nil i) Hi).
  - intros r1 ofs r2 Hreg. cbn in Hreg. injection Hreg as <- <-.
    eexists. split; [reflexivity|].
    apply (malformed_pattern _ _ "error parsing regexp: missing closing ]: `^[a-`");
      [discriminate | reflexivity].
Defined.

(** ** Inputs on which the claims as written fail *)

(** [uintptr] is an unsigned integer type and has no schema. *)
Lemma uintptr_no_schema :
  reflect.Kind_ uintptrT = reflect.Uintptr ∧ run uintptrT = Ok (None, registry0).
Proof. split; reflexivity. Qed.

(** [[4]byte] is a fixed-size sequence; its schema is a base64 string
    without item bounds. *)
Lemma byte_array_is_string :
  reflect.Kind_ byteArray4 = reflect.Array
  ∧ reflect.Len byteArray4 = 4
  ∧ ∃ s, run byteArray4 = Ok (Some s, registry0)
         ∧ Type_ s = TypeString ∧ ContentEncoding s = "base64"
         ∧ MinItems s = None ∧ MaxItems s = None ∧ Items s = None.
Proof. split; [reflexivity|]. split; [reflexivity|]. eexists. split_and!; reflexivity. Qed.

(** [net.IP] is a byte sequence ([type IP []byte]); its schema has the
    format ipv4 and no content encoding, so a string that is not base64
    is no base64 violation. *)
Lemma ip_is_not_base64 :
  reflect.Kind_ ipType = reflect.Slice
  ∧ reflect.Kind_ <$> reflect.Elem ipType = Some reflect.Uint8
  ∧ base64Decodes "!" = false
  ∧ ∃ s, run ipType = Ok (Some s, registry0)
         ∧ Type_ s = TypeString ∧ Format s = "ipv4" ∧ ContentEncoding s = ""
         ∧ msgBase64 ∉ map Message (Validate registry0 ModeReadFromServer (VString "!") s []).
Proof.
  split; [reflexivity|]. split; [reflexivity|]. split; [reflexivity|].
  eexists. split_and!; try reflexivity.
  vm_compute. by intros ?%elem_of_nil.
Qed.

(** An ignored field with a malformed bound: the bound does not parse,
    and the schema is built all the same. *)
Lemma ignored_field_not_checked :
  is_Panic (floatTag (field "Value" intT [("json", "-"); ("minimum", "abc")]) "minimum")
    = true
  ∧ ∃ s r, run ignoredMalformed = Ok (Some s, r)
           ∧ Type_ s = TypeObject ∧ propertyNames s = [].
Proof. split; [reflexivity|]. eexists _, _. split_and!; reflexivity. Qed.

(** C3. The comment of [getFields] promises a breadth-first search whose
    first field of a name is the outer-most declaration.  In [Outer],
    the name "z" is declared by [B.Z] (a string), one embedding deep, and
    by [C.Z] (an integer), two embeddings deep (in [A]); [getFields]
    expands [A] completely before it looks at [B], so it lists [C.Z]
    before [B.Z] and the property "z" is the integer, not the outer-most
    declaration.  (The name "h" is met first at [Outer.Handler], a func,
    which has no schema; by the guard [fs != nil] the property is the
    later [D.H].) *)
Lemma deeper_field_wins :
  map reflect.Name (embeddedFields (reflect.Fields Outer)) = ["A"; "B"; "D"]
  ∧ map reflect.Name (embeddedFields (reflect.Fields A)) = ["C"]
  ∧ map (λ i, (reflect.TName (Parent i), reflect.Name (Field i),
               (fieldName (Field i)).1)) (getFields Outer)
      = [("Outer", "Handler", "h"); ("C", "Z", "z"); ("B", "Z", "z"); ("D", "H", "h")]
  ∧ ∃ s r, run Outer = Ok (Some s, r)
           ∧ propertyNames s = ["z"; "h"]
           ∧ Type_ <$> Properties s !! "z" = Some TypeInteger
           ∧ Type_ <$> Properties s !! "h" = Some TypeString.
Proof.
  split; [reflexivity|]. split; [reflexivity|]. split; [reflexivity|].
  eexists _, _. split_and!; [vm_compute; reflexivity | reflexivity ..].
Qed.

End Examples.

(** * Further properties of [schema.go] *)

(** ** Which types have a schema *)

(** The kinds without a case in the switch of [SchemaFromType]. *)
Definition unsupportedKinds : list reflect.Kind :=
  [reflect.Invalid; reflect.Uintptr; reflect.Complex64; reflect.Complex128;
   reflect.Chan; reflect.Func; reflect.UnsafePointer].

(** Whether [SchemaFromType] hands a type to the registry or to
    [SchemaFromField]: a slice or an array whose elements are not bytes, a
    map, a struct. *)
Definition consultsRegistry (t : reflect.type) : bool :=
  match deref t with
  | reflect.SliceOf _ e | reflect.ArrayOf _ _ e =>
      bool_decide (reflect.Kind_ e ≠ reflect.Uint8)
  | reflect.MapOf _ _ _ | reflect.StructOf _ _ => true
  | _ => false
  end.

Lemma identical_ipType_Slice t :
  reflect.identical t ipType = true → reflect.Kind_ t = reflect.Slice.
Proof.
  destruct t; simpl; rewrite ?andb_false_r; try discriminate. done.
Qed.

Lemma identical_ipType_bytes t :
  reflect.identical t ipType = true →
  ∃ nm e, t = reflect.SliceOf nm e ∧ reflect.Kind_ e = reflect.Uint8.
Proof.
  destruct t as [| |nm e| | | | | |]; simpl; rewrite ?andb_false_r; try discriminate.
  intros [_ He]%andb_true_iff. exists nm, e. split; [done|].
  by eapply identical_uint8_kind.
Qed.

Section Kinds.
Context {lib : GoLib} {R : Type} {reg : Registry R}.
Implicit Types (r : R) (t : reflect.type) (s : Schema).

(** X1. [SchemaFromType] returns without a schema exactly for the types
    whose kind, once the pointers are stripped, has no case in its switch
    (uintptr, the complex kinds, channels, functions, unsafe pointers),
    and it leaves the registry as it was. *)
Theorem SchemaFromType_nil_iff r t r' :
  SchemaFromType r t = Ok (None, r')
  ↔ reflect.Kind_ (deref t) ∈ unsupportedKinds ∧ r' = r.
Proof.
  split.
  - unfold SchemaFromType. intros Hs.
    destruct (reflect.identical (deref t) ipType); [discriminate|].
    pose proof (deref_not_Ptr t) as Hptr.
    destruct (reflect.Kind_ (deref t)) eqn:Hk; try discriminate; try done;
      try (injection Hs as <-; split; [by apply (bool_decide_unpack _) | done]).
    + destruct (reflect.Elem (deref t)); [|discriminate].
      destruct (decide _); [discriminate|].
      inv_bind Hs. destruct a as [items r1]. by destruct (decide _).
    + destruct (reflect.Elem (deref t)); [|discriminate].
      inv_bind Hs. by destruct a.
    + destruct (reflect.Elem (deref t)); [|discriminate].
      destruct (decide _); [discriminate|].
      inv_bind Hs. destruct a as [items r1]. by destruct (decide _).
    + destruct (reflect.identical (deref t) timeType); [discriminate|].
      destruct (reflect.identical (deref t) urlType); [discriminate|].
      inv_bind Hs. destruct a as [v r1]. inv_bind Hs. discriminate.
  - intros [Hk ->]. unfold SchemaFromType.
    destruct (reflect.identical (deref t) ipType) eqn:Hip.
    { apply identical_ipType_Slice in Hip. rewrite Hip in Hk.
      by apply (bool_decide_pack _) in Hk. }
    unfold unsupportedKinds in Hk. rewrite !elem_of_cons in Hk.
    destruct Hk as [->|[->|[->|[->|[->|[->|[->|Hk]]]]]]]; try done.
    by apply elem_of_nil in Hk.
Qed.

(** X2. For a type that is no slice or array of other elements than
    bytes, no map and no struct, [SchemaFromType] never panics and never
    touches the registry. *)
Theorem SchemaFromType_leaf r t :
  consultsRegistry t = false → ∃ os, SchemaFromType r t = Ok (os, r).
Proof.
  unfold consultsRegistry, SchemaFromType. intros Hleaf.
  destruct (reflect.identical (deref t) ipType); [eauto|].
  destruct (deref t) as [nm k|nm e|nm e|nm n e|nm k e|nm e|nm|nm|nm fs];
    try discriminate; simpl.
  - destruct k; simpl; eauto.
  - eauto.
  - apply bool_decide_eq_false in Hleaf.
    destruct (decide (reflect.Kind_ e = reflect.Uint8)) as [|Hne]; [eauto|].
    by destruct Hleaf.
  - apply bool_decide_eq_false in Hleaf.
    destruct (decide (reflect.Kind_ e = reflect.Uint8)) as [|Hne]; [eauto|].
    by destruct Hleaf.
  - eauto.
  - eauto.
  - eauto.
Qed.

(** The signed integer kinds. *)
Definition signedKinds : list reflect.ScalarKind :=
  [reflect.SInt; reflect.SInt8; reflect.SInt16; reflect.SInt32; reflect.SInt64].

(** X3. For every signed integer type, [SchemaFromType] yields an
    integer schema without a minimum, with format int32 for int8, int16
    and int32, int64 for int64, and for int the format of the platform's
    word size. *)
Theorem SchemaFromType_signed r nm k :
  k ∈ signedKinds →
  ∃ s, SchemaFromType r (reflect.Scalar nm k) = Ok (Some s, r)
       ∧ Type_ s = TypeInteger
       ∧ Minimum s = None
       ∧ Format s =
           match k with
           | reflect.SInt8 | reflect.SInt16 | reflect.SInt32 => "int32"
           | reflect.SInt64 => "int64"
           | _ => if decide (UintSize = 32) then "int32" else "int64"
           end.
Proof.
  intros Hk. unfold SchemaFromType. simpl deref.
  rewrite identical_Scalar_ipType.
  unfold signedKinds in Hk. rewrite !elem_of_cons in Hk.
  destruct Hk as [->|[->|[->|[->|[->|Hk]]]]];
    [eexists; simpl; split_and!; reflexivity .. | by apply elem_of_nil in Hk].
Qed.

(** X4. The schema of a map type is an object schema whose
    [AdditionalProperties] is what the registry answers for the element
    type (under the hint [Name + "Value"]), without properties of its
    own; the key type plays no part in it. *)
Theorem SchemaFromType_map r nm k e :
  (∀ value r',
      Registry_Schema r e true (reflect.name nm +:+ "Value") = Ok (value, r') →
      ∃ s, SchemaFromType r (reflect.MapOf nm k e) = Ok (Some s, r')
           ∧ Type_ s = TypeObject
           ∧ AdditionalProperties s = APSchema value
           ∧ Properties s = ∅ ∧ propertyNames s = [] ∧ Required s = None)
  ∧ (∀ k', SchemaFromType r (reflect.MapOf nm k' e)
           = SchemaFromType r (reflect.MapOf nm k e)).
Proof.
  split.
  - intros value r' Hreg. unfold SchemaFromType. simpl deref.
    assert (reflect.identical (reflect.MapOf nm k e) ipType = false) as ->
      by (simpl; apply andb_false_r).
    simpl. unfold reflect.TName; simpl. rewrite Hreg. simpl.
    eexists; split_and!; reflexivity.
  - intros k'. unfold SchemaFromType. simpl deref.
    assert (∀ k0, reflect.identical (reflect.MapOf nm k0 e) ipType = false) as Hip
      by (intros k0; simpl; apply andb_false_r).
    by rewrite !Hip.
Qed.

(** X5. Outside the struct case, [SchemaFromType] computes no
    messages: the schema of an unsigned integer has the minimum 0 and the
    schema of a fixed-size array has its bounds, with the messages for
    them left empty. *)
Theorem SchemaFromType_no_messages r t s r' :
  SchemaFromType r t = Ok (Some s, r') →
  reflect.Kind_ (deref t) ≠ reflect.Struct →
  msgEnum s = "" ∧ msgMinimum s = "" ∧ msgMinItems s = "" ∧ msgMaxItems s = ""
  ∧ msgRequired s = None ∧ patternRe s = None.
Proof.
  unfold SchemaFromType. intros Hs Hstruct.
  destruct (reflect.identical (deref t) ipType); [by injection Hs as <- <-|].
  destruct (reflect.Kind_ (deref t)) eqn:Hk;
    try (by injection Hs as <- <-); try discriminate; try done.
  - destruct (reflect.Elem (deref t)); [|discriminate].
    destruct (decide _); [by injection Hs as <- <-|].
    inv_bind Hs. destruct a as [items r1].
    by destruct (decide _); injection Hs as <- <-.
  - destruct (reflect.Elem (deref t)); [|discriminate].
    inv_bind Hs. destruct a. by injection Hs as <- <-.
  - destruct (reflect.Elem (deref t)); [|discriminate].
    destruct (decide _); [by injection Hs as <- <-|].
    inv_bind Hs. destruct a as [items r1].
    by destruct (decide _); injection Hs as <- <-.
Qed.

End Kinds.

(** ** What [PrecomputeMessages] computes and what it leaves *)

Section MessagesDetail.
Context {lib : GoLib}.
Implicit Types (s : Schema).

(** The precomputed fields of a schema agree with its constraints: every
    constraint that is set has its message, a pattern has its compiled
    expression, every required name has its entry in the table. *)
Record messagesCurrent (s : Schema) : Prop := {
  current_enum :
    msgEnum s = "expected value to be one of " +:+ dquote
                  +:+ Join (map Sprint_v (Enum s)) ", " +:+ dquote;
  current_minimum :
    ∀ m, Minimum s = Some m → msgMinimum s = "expected number >= " +:+ Sprint_v (VFloat m);
  current_exclusiveMinimum :
    ∀ m, ExclusiveMinimum s = Some m →
         msgExclusiveMinimum s = "expected number > " +:+ Sprint_v (VFloat m);
  current_maximum :
    ∀ m, Maximum s = Some m → msgMaximum s = "expected number <= " +:+ Sprint_v (VFloat m);
  current_exclusiveMaximum :
    ∀ m, ExclusiveMaximum s = Some m →
         msgExclusiveMaximum s = "expected number < " +:+ Sprint_v (VFloat m);
  current_multipleOf :
    ∀ m, MultipleOf s = Some m →
         msgMultipleOf s = "expected number to be a multiple of " +:+ Sprint_v (VFloat m);
  current_minLength :
    ∀ n, MinLength s = Some n → msgMinLength s = "expected length >= " +:+ Sprintf_d n;
  current_maxLength :
    ∀ n, MaxLength s = Some n → msgMaxLength s = "expected length <= " +:+ Sprintf_d n;
  current_pattern :
    Pattern s ≠ "" →
    patternRe s = Some (Pattern s) ∧ regexp_error (Pattern s) = None
    ∧ msgPattern s = "expected string to match pattern " +:+ Pattern s;
  current_minItems :
    ∀ n, MinItems s = Some n → msgMinItems s = "expected array length >= " +:+ Sprintf_d n;
  current_maxItems :
    ∀ n, MaxItems s = Some n → msgMaxItems s = "expected array length <= " +:+ Sprintf_d n;
  current_minProperties :
    ∀ n, MinProperties s = Some n →
         msgMinProperties s
           = "expected object with at least " +:+ Sprintf_d n +:+ " properties";
  current_maxProperties :
    ∀ n, MaxProperties s = Some n →
         msgMaxProperties s
           = "expected object with at most " +:+ Sprintf_d n +:+ " properties";
  current_required :
    ∀ required, Required s = Some required →
      ∃ m, msgRequired s = Some m
           ∧ ∀ name, name ∈ required → m !! name = Some (msgRequiredFor name);
}.

(** The result of [PrecomputeMessages], field by field. *)
Lemma PrecomputeMessages_Ok s s' :
  PrecomputeMessages s = Ok s' →
  ∃ re msg,
    (if decide (Pattern s ≠ "") then
       regexp_error (Pattern s) = None ∧ re = Some (Pattern s)
       ∧ msg = "expected string to match pattern " +:+ Pattern s
     else re = patternRe s ∧ msg = msgPattern s)
    ∧ s' =
        {| Type_ := Type_ s; Title := Title s; Description := Description s;
           Ref := Ref s; Format := Format s; ContentEncoding := ContentEncoding s;
           Default := Default s; Examples := Examples s; Items := Items s;
           AdditionalProperties := AdditionalProperties s;
           Properties := Properties s; Enum := Enum s; Minimum := Minimum s;
           ExclusiveMinimum := ExclusiveMinimum s; Maximum := Maximum s;
           ExclusiveMaximum := ExclusiveMaximum s; MultipleOf := MultipleOf s;
           MinLength := MinLength s; MaxLength := MaxLength s; Pattern := Pattern s;
           MinItems := MinItems s; MaxItems := MaxItems s;
           UniqueItems := UniqueItems s; Required := Required s;
           MinProperties := MinProperties s; MaxProperties := MaxProperties s;
           ReadOnly := ReadOnly s; WriteOnly := WriteOnly s;
           Deprecated := Deprecated s; Extensions := Extensions s;
           patternRe := re; requiredMap := requiredMap s;
           propertyNames := propertyNames s;
           msgEnum := "expected value to be one of " +:+ dquote
                        +:+ Join (map Sprint_v (Enum s)) ", " +:+ dquote;
           msgMinimum :=
             match Minimum s with
             | Some m => "expected number >= " +:+ Sprint_v (VFloat m)
             | None => msgMinimum s
             end;
           msgExclusiveMinimum :=
             match ExclusiveMinimum s with
             | Some m => "expected number > " +:+ Sprint_v (VFloat m)
             | None => msgExclusiveMinimum s
             end;
           msgMaximum :=
             match Maximum s with
             | Some m => "expected number <= " +:+ Sprint_v (VFloat m)
             | None => msgMaximum s
             end;
           msgExclusiveMaximum :=
             match ExclusiveMaximum s with
             | Some m => "expected number < " +:+ Sprint_v (VFloat m)
             | None => msgExclusiveMaximum s
             end;
           msgMultipleOf :=
             match MultipleOf s with
             | Some m => "expected number to be a multiple of " +:+ Sprint_v (VFloat m)
             | None => msgMultipleOf s
             end;
           msgMinLength :=
             match MinLength s with
             | Some n => "expected length >= " +:+ Sprintf_d n
             | None => msgMinLength s
             end;
           msgMaxLength :=
             match MaxLength s with
             | Some n => "expected length <= " +:+ Sprintf_d n
             | None => msgMaxLength s
             end;
           msgPattern := msg;
           msgMinItems :=
             match MinItems s with
             | Some n => "expected array length >= " +:+ Sprintf_d n
             | None => msgMinItems s
             end;
           msgMaxItems :=
             match MaxItems s with
             | Some n => "expected array length <= " +:+ Sprintf_d n
             | None => msgMaxItems s
             end;
           msgMinProperties :=
             match MinProperties s with
             | Some n =>
                 "expected object with at least " +:+ Sprintf_d n +:+ " properties"
             | None => msgMinProperties s
             end;
           msgMaxProperties :=
             match MaxProperties s with
             | Some n =>
                 "expected object with at most " +:+ Sprintf_d n +:+ " properties"
             | None => msgMaxProperties s
             end;
           msgRequired :=
             match Required s with
             | Some required =>
                 Some (foldl insertRequired (default ∅ (msgRequired s)) required)
             | None => msgRequired s
             end |}.
Proof.
  intros Hpm. unfold PrecomputeMessages in Hpm.
  inv_bind Hpm. destruct a as [re msg]. injection Hpm as <-.
  exists re, msg. split; [|reflexivity].
  destruct (decide (Pattern s ≠ "")); [|by injection Hm as <- <-].
  destruct (regexp_error (Pattern s)); [discriminate|]. by injection Hm as <- <-.
Qed.

(** X6. [PrecomputeMessages] panics exactly when the schema has a
    pattern that does not compile; otherwise it returns. *)
Theorem PrecomputeMessages_panics_iff s :
  is_Panic (PrecomputeMessages s) = true
  ↔ Pattern s ≠ "" ∧ is_Some (regexp_error (Pattern s)).
Proof.
  unfold PrecomputeMessages.
  destruct (decide (Pattern s ≠ "")) as [Hp|Hp].
  - destruct (regexp_error (Pattern s)) as [err|]; simpl.
    + split; [eauto | done].
    + split; [done | by intros [_ [? ?]]].
  - simpl. split; [done | by intros [? _]].
Qed.

(** X7. When [PrecomputeMessages] returns, the precomputed fields of the
    result agree with its constraints (which are those of the argument):
    each bound that is set has the message formatted from it, a
    non-empty pattern compiles and its compiled form and message are
    stored, and every name in [Required] has its message in the table. *)
Theorem PrecomputeMessages_current s s' :
  PrecomputeMessages s = Ok s' → messagesCurrent s'.
Proof.
  intros (re & msg & Hre & ->)%PrecomputeMessages_Ok.
  split; cbn; try reflexivity; try (by intros ? ->).
  - intros Hp. rewrite decide_True in Hre by done.
    by destruct Hre as (? & -> & ->).
  - intros required ->. eexists; split; [reflexivity|].
    intros name Hname. rewrite lookup_foldl_insertRequired. by rewrite decide_True.
Qed.

(** X8. [PrecomputeMessages] never clears anything: the message of a
    bound that is not set (each of the eleven bounds: minimum, exclusive
    minimum, maximum, exclusive maximum, multiple-of, minimum and maximum
    length, items and properties), the compiled pattern and its message
    when the
    pattern is empty, and the table entries of names that are not in
    [Required] stay as they were.  (So a schema keeps the old message,
    and the old compiled pattern, of a constraint removed since the
    messages were last computed.) *)
Theorem PrecomputeMessages_keeps_stale s s' :
  PrecomputeMessages s = Ok s' →
  (Minimum s = None → msgMinimum s' = msgMinimum s)
  ∧ (ExclusiveMinimum s = None → msgExclusiveMinimum s' = msgExclusiveMinimum s)
  ∧ (Maximum s = None → msgMaximum s' = msgMaximum s)
  ∧ (ExclusiveMaximum s = None → msgExclusiveMaximum s' = msgExclusiveMaximum s)
  ∧ (MultipleOf s = None → msgMultipleOf s' = msgMultipleOf s)
  ∧ (MinLength s = None → msgMinLength s' = msgMinLength s)
  ∧ (MaxLength s = None → msgMaxLength s' = msgMaxLength s)
  ∧ (MinItems s = None → msgMinItems s' = msgMinItems s)
  ∧ (MaxItems s = None → msgMaxItems s' = msgMaxItems s)
  ∧ (MinProperties s = None → msgMinProperties s' = msgMinProperties s)
  ∧ (MaxProperties s = None → msgMaxProperties s' = msgMaxProperties s)
  ∧ (Pattern s = "" → patternRe s' = patternRe s ∧ msgPattern s' = msgPattern s)
  ∧ (Required s = None → msgRequired s' = msgRequired s)
  ∧ (∀ required m name,
       Required s = Some required → msgRequired s = Some m → name ∉ required →
       ∃ m', msgRequired s' = Some m' ∧ m' !! name = m !! name).
Proof.
  intros (re & msg & Hre & ->)%PrecomputeMessages_Ok. cbn.
  split_and!; try (by intros ->).
  - intros Hp. rewrite decide_False in Hre by (by rewrite Hp; intros ?).
    by destruct Hre as [-> ->].
  - intros required m name -> -> Hname. eexists; split; [reflexivity|].
    cbn. rewrite lookup_foldl_insertRequired. by rewrite decide_False.
Qed.

End MessagesDetail.

(** ** What [SchemaFromField] does to the schema of the field's type *)

Lemma mapR_Ok {A B} (g : A → B) (f : A → Result B) (l : list A) :
  (∀ x, x ∈ l → f x = Ok (g x)) → mapR f l = Ok (map g l).
Proof.
  induction l as [|x l IH]; intros Hf; [done|]. simpl.
  rewrite (Hf x) by apply list_elem_of_here. simpl.
  rewrite IH by (intros y Hy; by apply Hf, list_elem_of_further). done.
Qed.

Lemma mapR_length {A B} (f : A → Result B) (l : list A) (l' : list B) :
  mapR f l = Ok l' → length l' = length l.
Proof.
  revert l'. induction l as [|x l IH]; intros l' Hl; simpl in Hl.
  - by injection Hl as <-.
  - inv_bind Hl. inv_bind Hl. injection Hl as <-. simpl. f_equal. by apply IH.
Qed.

Section FieldDetail.
Context {lib : GoLib} {R : Type} {reg : Registry R}.
Implicit Types (r : R) (f : reflect.StructField) (fs : Schema).

(** How the schema [fs'] that [SchemaFromField] returns for the field
    [f] relates to the schema [fs] the registry answered for the field's
    type. *)
Record fieldSchema (f : reflect.StructField) (fs fs' : Schema) : Prop := {
  field_Type : Type_ fs' = Type_ fs;
  field_Title : Title fs' = Title fs;
  field_Ref : Ref fs' = Ref fs;
  field_AdditionalProperties : AdditionalProperties fs' = AdditionalProperties fs;
  field_Properties : Properties fs' = Properties fs;
  field_Required : Required fs' = Required fs;
  field_requiredMap : requiredMap fs' = requiredMap fs;
  field_propertyNames : propertyNames fs' = propertyNames fs;
  field_Extensions : Extensions fs' = Extensions fs;
  field_Description : Description fs' = reflect.Get (reflect.Tag f) "doc";
  field_Format :
    Format fs' = if decide (reflect.Get (reflect.Tag f) "format" ≠ "")
                 then reflect.Get (reflect.Tag f) "format" else Format fs;
  field_ContentEncoding :
    ContentEncoding fs' = if decide (reflect.Get (reflect.Tag f) "encoding" ≠ "")
                          then reflect.Get (reflect.Tag f) "encoding"
                          else ContentEncoding fs;
  field_Default : jsonTag f "default" false = Ok (Default fs');
  field_Examples :
    ∃ e, jsonTag f "example" false = Ok e
         ∧ Examples fs' = match e with Nil => Examples fs | _ => [e] end;
  field_enum_absent :
    reflect.Get (reflect.Tag f) "enum" = "" → Enum fs' = Enum fs ∧ Items fs' = Items fs;
  field_enum_array :
    reflect.Get (reflect.Tag f) "enum" ≠ "" → Type_ fs = TypeArray →
    ∃ e items members,
      reflect.Elem (reflect.Type_ f) = Some e ∧ Items fs = Some items
      ∧ mapR (jsonTagValue f e) (Split (reflect.Get (reflect.Tag f) "enum") comma)
          = Ok members
      ∧ Items fs' = Some (set_Enum members items) ∧ Enum fs' = Enum fs;
  field_enum_other :
    reflect.Get (reflect.Tag f) "enum" ≠ "" → Type_ fs ≠ TypeArray →
    mapR (jsonTagValue f (reflect.Type_ f))
      (Split (reflect.Get (reflect.Tag f) "enum") comma) = Ok (Enum fs')
    ∧ Items fs' = Items fs;
  field_Minimum : floatTag f "minimum" = Ok (Minimum fs');
  field_ExclusiveMinimum : floatTag f "exclusiveMinimum" = Ok (ExclusiveMinimum fs');
  field_Maximum : floatTag f "maximum" = Ok (Maximum fs');
  field_ExclusiveMaximum : floatTag f "exclusiveMaximum" = Ok (ExclusiveMaximum fs');
  field_MultipleOf : floatTag f "multipleOf" = Ok (MultipleOf fs');
  field_MinLength : intTag f "minLength" = Ok (MinLength fs');
  field_MaxLength : intTag f "maxLength" = Ok (MaxLength fs');
  field_Pattern : Pattern fs' = reflect.Get (reflect.Tag f) "pattern";
  field_MinItems : intTag f "minItems" = Ok (MinItems fs');
  field_MaxItems : intTag f "maxItems" = Ok (MaxItems fs');
  field_UniqueItems : boolTag f "uniqueItems" = Ok (UniqueItems fs');
  field_MinProperties : intTag f "minProperties" = Ok (MinProperties fs');
  field_MaxProperties : intTag f "maxProperties" = Ok (MaxProperties fs');
  field_ReadOnly : boolTag f "readOnly" = Ok (ReadOnly fs');
  field_WriteOnly : boolTag f "writeOnly" = Ok (WriteOnly fs');
  field_Deprecated : boolTag f "deprecated" = Ok (Deprecated fs');
  field_messages : messagesCurrent fs';
}.

Lemma SchemaFromField_Some r parent f fs' r' :
  SchemaFromField r parent f = Ok (Some fs', r') →
  ∃ fs, Registry_Schema r (reflect.Type_ f) true (fieldHint parent f) = Ok (Some fs, r')
        ∧ fieldSchema f fs fs'.
Proof.
  unfold SchemaFromField, fieldHint. intros H.
  inv_bind H. destruct a as [[fs|] r1]; [|discriminate].
  exists fs.
  inv_bind H. rename a into Default', Hm0 into HDefault.
  inv_bind H. rename a into e, Hm0 into He.
  inv_bind H. destruct a as [Enum' Items']. rename Hm0 into HEnum.
  inv_bind H. rename a into Minimum', Hm0 into HMinimum.
  inv_bind H. rename a into ExclusiveMinimum', Hm0 into HExclusiveMinimum.
  inv_bind H. rename a into Maximum', Hm0 into HMaximum.
  inv_bind H. rename a into ExclusiveMaximum', Hm0 into HExclusiveMaximum.
  inv_bind H. rename a into MultipleOf', Hm0 into HMultipleOf.
  inv_bind H. rename a into MinLength', Hm0 into HMinLength.
  inv_bind H. rename a into MaxLength', Hm0 into HMaxLength.
  inv_bind H. rename a into MinItems', Hm0 into HMinItems.
  inv_bind H. rename a into MaxItems', Hm0 into HMaxItems.
  inv_bind H. rename a into UniqueItems', Hm0 into HUniqueItems.
  inv_bind H. rename a into MinProperties', Hm0 into HMinProperties.
  inv_bind H. rename a into MaxProperties', Hm0 into HMaxProperties.
  inv_bind H. rename a into ReadOnly', Hm0 into HReadOnly.
  inv_bind H. rename a into WriteOnly', Hm0 into HWriteOnly.
  inv_bind H. rename a into Deprecated', Hm0 into HDeprecated.
  inv_bind H. rename Hm0 into Hpm. injection H as -> ->.
  split; [done|].
  apply PrecomputeMessages_Ok in Hpm as (re & msg & Hre & ->).
  cbn in Hre. split; cbn; try done.
  - eauto.
  - intros Hnone. rewrite decide_False in HEnum by (by rewrite Hnone; intros ?).
    by injection HEnum as <- <-.
  - intros Hsome Harr. rewrite decide_True in HEnum by done.
    apply bindR_Ok in HEnum as (fType & HfType & HEnum).
    apply bindR_Ok in HEnum as (members & Hmembers & HEnum).
    rewrite decide_True in HEnum by done. rewrite decide_True in HfType by done.
    destruct (reflect.Elem (reflect.Type_ f)) as [e0|]; [|discriminate].
    injection HfType as ->.
    destruct (Items fs) as [items|]; [|discriminate].
    injection HEnum as <- <-. by exists fType, items, members.
  - intros Hsome Harr. rewrite decide_True in HEnum by done.
    apply bindR_Ok in HEnum as (fType & HfType & HEnum).
    apply bindR_Ok in HEnum as (members & Hmembers & HEnum).
    rewrite decide_False in HEnum by done. rewrite decide_False in HfType by done.
    injection HfType as <-. by injection HEnum as <- <-.
  - split; cbn; try reflexivity; try (by intros ? ->).
    + intros Hp. rewrite decide_True in Hre by done.
      by destruct Hre as (? & -> & ->).
    + intros required ->. eexists; split; [reflexivity|].
      intros name Hname. rewrite lookup_foldl_insertRequired. by rewrite decide_True.
Qed.

End FieldDetail.

Lemma boolTag_absent f tag :
  reflect.Get (reflect.Tag f) tag = "" → boolTag f tag = Ok false.
Proof. intros Hv. unfold boolTag. by rewrite Hv. Qed.

Lemma intTag_absent {lib : GoLib} f tag :
  reflect.Get (reflect.Tag f) tag = "" → intTag f tag = Ok None.
Proof. intros Hv. unfold intTag. by rewrite Hv. Qed.

Lemma floatTag_absent {lib : GoLib} f tag :
  reflect.Get (reflect.Tag f) tag = "" → floatTag f tag = Ok None.
Proof. intros Hv. unfold floatTag. by rewrite Hv. Qed.

Section FieldProperties.
Context {lib : GoLib} {R : Type} {reg : Registry R}.
Implicit Types (r : R) (f : reflect.StructField) (fs : Schema).

(** X9. The bounds of the schema [SchemaFromField] returns are those of
    the field's tags and nothing else: a bound whose tag is absent is
    unset, the description is the doc tag, and the default is nil
    without a default tag, whatever the schema of the field's type had
    there (the minimum 0 of an unsigned integer, the item bounds of a
    fixed-size array). *)
Theorem SchemaFromField_bounds_from_tags r parent f fs' r' :
  SchemaFromField r parent f = Ok (Some fs', r') →
  (reflect.Get (reflect.Tag f) "minimum" = "" → Minimum fs' = None)
  ∧ (reflect.Get (reflect.Tag f) "exclusiveMinimum" = "" → ExclusiveMinimum fs' = None)
  ∧ (reflect.Get (reflect.Tag f) "maximum" = "" → Maximum fs' = None)
  ∧ (reflect.Get (reflect.Tag f) "exclusiveMaximum" = "" → ExclusiveMaximum fs' = None)
  ∧ (reflect.Get (reflect.Tag f) "multipleOf" = "" → MultipleOf fs' = None)
  ∧ (reflect.Get (reflect.Tag f) "minLength" = "" → MinLength fs' = None)
  ∧ (reflect.Get (reflect.Tag f) "maxLength" = "" → MaxLength fs' = None)
  ∧ (reflect.Get (reflect.Tag f) "minItems" = "" → MinItems fs' = None)
  ∧ (reflect.Get (reflect.Tag f) "maxItems" = "" → MaxItems fs' = None)
  ∧ (reflect.Get (reflect.Tag f) "minProperties" = "" → MinProperties fs' = None)
  ∧ (reflect.Get (reflect.Tag f) "maxProperties" = "" → MaxProperties fs' = None)
  ∧ (reflect.Get (reflect.Tag f) "uniqueItems" = "" → UniqueItems fs' = false)
  ∧ (reflect.Get (reflect.Tag f) "readOnly" = "" → ReadOnly fs' = false)
  ∧ (reflect.Get (reflect.Tag f) "writeOnly" = "" → WriteOnly fs' = false)
  ∧ (reflect.Get (reflect.Tag f) "deprecated" = "" → Deprecated fs' = false)
  ∧ (reflect.Get (reflect.Tag f) "default" = "" → Default fs' = Nil)
  ∧ Description fs' = reflect.Get (reflect.Tag f) "doc"
  ∧ Pattern fs' = reflect.Get (reflect.Tag f) "pattern".
Proof.
  intros (fs & _ & Hfs)%SchemaFromField_Some.
  destruct Hfs.
  split_and!; try done;
    intros Hv;
    repeat match goal with
      | H : floatTag f ?tag = Ok _ |- _ =>
          rewrite (floatTag_absent f tag) in H by done; injection H as <-
      | H : intTag f ?tag = Ok _ |- _ =>
          rewrite (intTag_absent f tag) in H by done; injection H as <-
      | H : boolTag f ?tag = Ok _ |- _ =>
          rewrite (boolTag_absent f tag) in H by done; injection H as <-
      end; try done.
  unfold jsonTag in field_Default0. rewrite Hv in field_Default0.
  by injection field_Default0 as <-.
Qed.

(** X10. [SchemaFromField] returns without a schema exactly when the
    registry has none for the field's type; no tag is read then, so no
    annotation of such a field can make it panic. *)
Theorem SchemaFromField_nil_iff r parent f r' :
  SchemaFromField r parent f = Ok (None, r')
  ↔ Registry_Schema r (reflect.Type_ f) true (fieldHint parent f) = Ok (None, r').
Proof.
  split.
  - intros H. unfold SchemaFromField in H. unfold fieldHint.
    inv_bind H. destruct a as [[fs|] r1]; cbn beta iota in H.
    2:{ congruence. }
    repeat (inv_bind H;
            try match type of H with
                | (let (_, _) := ?p in _) = _ => destruct p
                end).
    discriminate.
  - intros H. unfold SchemaFromField. unfold fieldHint in H. by rewrite H.
Qed.

(** X11. [SchemaFromField] changes annotations only: the type, the
    title, the reference, the properties, the additional properties, the
    required names and the extensions of the schema it returns are those
    of the schema the registry answered, the registry is the one the
    registry call left, and the precomputed messages agree with the
    constraints of the result. *)
Theorem SchemaFromField_keeps_structure r parent f fs' r' :
  SchemaFromField r parent f = Ok (Some fs', r') →
  ∃ fs, Registry_Schema r (reflect.Type_ f) true (fieldHint parent f) = Ok (Some fs, r')
        ∧ Type_ fs' = Type_ fs ∧ Title fs' = Title fs ∧ Ref fs' = Ref fs
        ∧ Properties fs' = Properties fs
        ∧ AdditionalProperties fs' = AdditionalProperties fs
        ∧ Required fs' = Required fs ∧ requiredMap fs' = requiredMap fs
        ∧ propertyNames fs' = propertyNames fs ∧ Extensions fs' = Extensions fs
        ∧ messagesCurrent fs'.
Proof.
  intros (fs & Hreg & Hfs)%SchemaFromField_Some. exists fs.
  destruct Hfs. split_and!; done.
Qed.

(** X12. For a field of kind string, the enum members are the
    comma-separated parts of the enum tag as they stand (no JSON is
    parsed and no space is trimmed), and the default is the text of the
    default tag. *)
Theorem SchemaFromField_string_literals r parent f fs' r' :
  SchemaFromField r parent f = Ok (Some fs', r') →
  reflect.Kind_ (reflect.Type_ f) = reflect.String →
  Type_ fs' ≠ TypeArray →
  (reflect.Get (reflect.Tag f) "enum" ≠ "" →
   Enum fs' = map VString (Split (reflect.Get (reflect.Tag f) "enum") comma))
  ∧ (reflect.Get (reflect.Tag f) "default" ≠ "" →
     Default fs' = VString (reflect.Get (reflect.Tag f) "default")).
Proof.
  intros (fs & _ & Hfs)%SchemaFromField_Some Hkind Harr.
  destruct Hfs. rewrite field_Type0 in Harr.
  split.
  - intros Henum. destruct (field_enum_other0 Henum Harr) as [Hmembers _].
    rewrite (mapR_Ok VString) in Hmembers; [by injection Hmembers as <-|].
    intros x _. unfold jsonTagValue. by rewrite decide_True.
  - intros Hdefault. unfold jsonTag in field_Default0.
    rewrite decide_True in field_Default0 by done.
    unfold jsonTagValue in field_Default0.
    rewrite decide_True in field_Default0 by done. by injection field_Default0 as <-.
Qed.

End FieldProperties.

(** ** Where the properties of a struct schema come from *)

(** The serialized name of a collected field. *)
Definition serializedName (info : fieldInfo) : string := (fieldName (Field info)).1.

(** Whether a collected field is marked omitempty. *)
Definition omitEmpty (info : fieldInfo) : bool := (fieldName (Field info)).2.

Section Provenance.
Context {lib : GoLib} {R : Type} {reg : Registry R}.
Implicit Types (r : R) (t : reflect.type) (s : Schema) (v : structVars).

(** The loop appends: the names it adds are names of the fields it
    visits, in their order, and the required names it adds are among the
    names it adds, in their order. *)
Lemma structLoop_order r infos v v' r' :
  structLoop r infos v = Ok (v', r') →
  ∃ added addedRequired,
    propNames v' = propNames v ++ added
    ∧ required v' = required v ++ addedRequired
    ∧ addedRequired `sublist_of` added
    ∧ added `sublist_of` map serializedName infos.
Proof.
  revert r v. induction infos as [|info infos IH]; intros r v Hloop.
  - injection Hloop as <- <-. exists [], []. by rewrite !app_nil_r.
  - rewrite structLoop_cons in Hloop. cbn zeta in Hloop.
    assert (∀ r0 v0, structLoop r0 infos v0 = Ok (v', r') → propNames v0 = propNames v →
              required v0 = required v →
              ∃ added addedRequired,
                propNames v' = propNames v ++ added
                ∧ required v' = required v ++ addedRequired
                ∧ addedRequired `sublist_of` added
                ∧ added `sublist_of` map serializedName (info :: infos)) as Hskip.
    { intros r0 v0 Hl Hp Hr.
      destruct (IH _ _ Hl) as (added & addedRequired & Ha & Hb & Hc & Hd).
      exists added, addedRequired. rewrite <- Hp, <- Hr.
      split_and!; try done. by apply sublist_cons. }
    destruct (decide ((fieldName (Field info)).1 = "-")); [by eapply Hskip|].
    destruct (decide (is_Some (props v !! (fieldName (Field info)).1)));
      [by eapply Hskip|].
    inv_bind Hloop. destruct a as [[fs|] r1]; simpl in Hloop; [|by eapply Hskip].
    destruct (IH _ _ Hloop) as (added & addedRequired & Ha & Hb & Hc & Hd).
    simpl in Ha, Hb. rewrite <- app_assoc in Ha.
    exists (serializedName info :: added).
    destruct (fieldName (Field info)).2 eqn:Homit.
    + exists addedRequired. split_and!; try done.
      * by apply sublist_cons.
      * by apply sublist_skip.
    + rewrite <- app_assoc in Hb.
      exists (serializedName info :: addedRequired). split_and!; try done.
      * by apply sublist_skip.
      * by apply sublist_skip.
Qed.

(** A property the loop leaves was there before, or it is the schema
    [SchemaFromField] made of a visited field of that name, called with
    the registry the loop had reached after the fields before it, none of
    which had given the name a property. *)
Lemma structLoop_props_origin r infos v v' r' name prop :
  structLoop r infos v = Ok (v', r') →
  props v' !! name = Some prop →
  props v !! name = Some prop
  ∨ ∃ pre info post v1 r1 r2,
      infos = pre ++ info :: post
      ∧ serializedName info = name ∧ name ≠ "-"
      ∧ structLoop r pre v = Ok (v1, r1)
      ∧ props v1 !! name = None
      ∧ SchemaFromField r1 (Some (Parent info)) (Field info) = Ok (Some prop, r2).
Proof.
  revert r v. induction infos as [|info infos IH]; intros r v Hloop Hprop.
  - injection Hloop as <- <-. by left.
  - pose proof Hloop as Hcons. rewrite structLoop_cons in Hcons. cbn zeta in Hcons.
    assert (∀ r0, structLoop r0 infos v = Ok (v', r') →
              (∀ pre, structLoop r (info :: pre) v = structLoop r0 pre v) →
              props v !! name = Some prop
              ∨ ∃ pre i post v1 r1 r2,
                  info :: infos = pre ++ i :: post
                  ∧ serializedName i = name ∧ name ≠ "-"
                  ∧ structLoop r pre v = Ok (v1, r1)
                  ∧ props v1 !! name = None
                  ∧ SchemaFromField r1 (Some (Parent i)) (Field i) = Ok (Some prop, r2))
      as Hskip.
    { intros r0 Hl Hpre.
      destruct (IH _ _ Hl Hprop)
        as [?|(pre & i & post & v1 & r1 & r2 & -> & ? & ? & Hp & ? & ?)]; [by left|].
      right. exists (info :: pre), i, post, v1, r1, r2.
      split_and!; try done. by rewrite Hpre. }
    destruct (decide ((fieldName (Field info)).1 = "-")) as [Hdash|Hdash].
    { apply (Hskip r); [done|]. intros pre. rewrite structLoop_cons. cbn zeta.
      by rewrite decide_True. }
    destruct (decide (is_Some (props v !! (fieldName (Field info)).1))) as [Hdup|Hdup].
    { apply (Hskip r); [done|]. intros pre. rewrite structLoop_cons. cbn zeta.
      rewrite decide_False by done. by rewrite decide_True. }
    apply bindR_Ok in Hcons as (a & Hfield & Hcons).
    destruct a as [[fs|] r1]; simpl in Hcons.
    2:{ apply (Hskip r1); [done|]. intros pre. rewrite structLoop_cons. cbn zeta.
        rewrite decide_False by done. rewrite decide_False by done.
        by rewrite Hfield. }
    assert (∀ pre, structLoop r (info :: pre) v
                   = structLoop r1 pre
                       (addProperty v (fieldName (Field info)).1
                          (fieldName (Field info)).2 fs)) as Hpre.
    { intros pre. rewrite structLoop_cons. cbn zeta.
      rewrite decide_False by done. rewrite decide_False by done.
      by rewrite Hfield. }
    destruct (IH _ _ Hcons Hprop)
      as [Hold|(pre & i & post & v1 & r2 & r3 & -> & ? & ? & Hp & ? & ?)].
    + simpl in Hold. destruct (decide ((fieldName (Field info)).1 = name)) as [Heq|Hne].
      * rewrite Heq, lookup_insert_eq in Hold. injection Hold as ->.
        right. exists [], info, infos, v, r, r1. split_and!; try done.
        -- by rewrite <- Heq.
        -- rewrite <- Heq. by apply eq_None_not_Some.
      * rewrite lookup_insert_ne in Hold by done. by left.
    + right. exists (info :: pre), i, post, v1, r2, r3.
      split_and!; try done. by rewrite Hpre.
Qed.

(** A required name comes from a visited field that is not marked
    omitempty. *)
Lemma structLoop_required_origin r infos v v' r' name :
  structLoop r infos v = Ok (v', r') →
  name ∈ required v' →
  name ∈ required v
  ∨ ∃ info, info ∈ infos ∧ serializedName info = name ∧ omitEmpty info = false.
Proof.
  revert r v. induction infos as [|info infos IH]; intros r v Hloop Hreq.
  - injection Hloop as <- <-. by left.
  - rewrite structLoop_cons in Hloop. cbn zeta in Hloop.
    assert (∀ r0, structLoop r0 infos v = Ok (v', r') →
              name ∈ required v
              ∨ ∃ i, i ∈ info :: infos ∧ serializedName i = name ∧ omitEmpty i = false)
      as Hskip.
    { intros r0 Hl. destruct (IH _ _ Hl Hreq) as [?|(i & Hi & ?)]; [by left|].
      right. exists i. split; [by apply list_elem_of_further | done]. }
    destruct (decide ((fieldName (Field info)).1 = "-")); [by eapply Hskip|].
    destruct (decide (is_Some (props v !! (fieldName (Field info)).1)));
      [by eapply Hskip|].
    inv_bind Hloop. destruct a as [[fs|] r1]; simpl in Hloop; [|by eapply Hskip].
    destruct (IH _ _ Hloop Hreq) as [Hold|(i & Hi & ?)].
    + simpl in Hold. destruct (fieldName (Field info)).2 eqn:Homit; [by left|].
      apply elem_of_app in Hold as [?|Hnew]; [by left|].
      apply list_elem_of_singleton in Hnew as ->.
      right. exists info. split_and!; [apply list_elem_of_here | done | done].
    + right. exists i. split; [by apply list_elem_of_further | done].
Qed.

(** The struct case of [SchemaFromType], with the fields of the result
    that do not come from the loop. *)
Lemma SchemaFromType_struct_shape r t s r' :
  reflect.Kind_ (deref t) = reflect.Struct →
  reflect.identical (deref t) timeType = false →
  reflect.identical (deref t) urlType = false →
  SchemaFromType r t = Ok (Some s, r') →
  ∃ v, structLoop r (getFields (deref t)) structVars0 = Ok (v, r')
       ∧ Type_ s = TypeObject ∧ AdditionalProperties s = APBool false
       ∧ Items s = None ∧ Ref s = ""
       ∧ Properties s = props v ∧ Required s = Some (required v)
       ∧ requiredMap s = requiredMap_ v ∧ propertyNames s = propNames v
       ∧ msgRequired s = Some (foldl insertRequired ∅ (required v)).
Proof.
  intros Hk Htime Hurl Hs. unfold SchemaFromType in Hs.
  assert (reflect.identical (deref t) ipType = false) as Hip.
  { destruct (reflect.identical (deref t) ipType) eqn:Hip; [|done].
    apply identical_ipType_Slice in Hip. congruence. }
  rewrite Hip, Hk, Htime, Hurl in Hs.
  inv_bind Hs. destruct a as [v r1]. inv_bind Hs. injection Hs as <- <-.
  exists v. split; [done|].
  apply PrecomputeMessages_Ok in Hm0 as (re & msg & _ & ->). cbn.
  split_and!; reflexivity.
Qed.

(** X13. The schema of a struct type (none of the special ones) is an
    object schema that forbids additional properties; its property
    names are serialized names of collected fields, in the order of
    [getFields]; [Required] is a list (not nil, even when empty) of
    property names in the same order, each the name of a collected field
    that is not marked omitempty. *)
Theorem SchemaFromType_struct_names r t s r' :
  reflect.Kind_ (deref t) = reflect.Struct →
  reflect.identical (deref t) timeType = false →
  reflect.identical (deref t) urlType = false →
  SchemaFromType r t = Ok (Some s, r') →
  Type_ s = TypeObject
  ∧ AdditionalProperties s = APBool false
  ∧ propertyNames s `sublist_of` map serializedName (getFields (deref t))
  ∧ ∃ required,
      Required s = Some required
      ∧ required `sublist_of` propertyNames s
      ∧ ∀ name, name ∈ required →
          ∃ info, info ∈ getFields (deref t)
                  ∧ serializedName info = name ∧ omitEmpty info = false.
Proof.
  intros Hk Htime Hurl Hs.
  apply SchemaFromType_struct_shape in Hs
    as (v & Hloop & -> & -> & _ & _ & _ & -> & _ & -> & _); try done.
  destruct (structLoop_order _ _ _ _ _ Hloop)
    as (added & addedRequired & Ha & Hb & Hc & Hd).
  simpl in Ha, Hb.
  split_and!; try done.
  { by rewrite Ha. }
  exists (required v). split_and!; try done.
  { by rewrite Ha, Hb. }
  intros name Hname.
  destruct (structLoop_required_origin _ _ _ _ _ _ Hloop Hname) as [Hold|?]; [|done].
  by apply elem_of_nil in Hold.
Qed.

(** X14. Every property of the schema of a struct type is the schema
    [SchemaFromField] returned for a collected field with that serialized
    name (which is not "-"): the first such field for which a schema is
    produced, handed to [SchemaFromField] with its parent and with the
    registry as the fields before it left it.  So the property has the
    structure of the schema the registry answered for the field's type
    in that state, the bounds of the field's tags only, and messages that
    agree with its constraints. *)
Theorem SchemaFromType_struct_properties r t s r' name prop :
  reflect.Kind_ (deref t) = reflect.Struct →
  reflect.identical (deref t) timeType = false →
  reflect.identical (deref t) urlType = false →
  SchemaFromType r t = Ok (Some s, r') →
  Properties s !! name = Some prop →
  name ≠ "-"
  ∧ ∃ pre info post v1 r1 r2 fs,
      getFields (deref t) = pre ++ info :: post
      ∧ serializedName info = name
      ∧ structLoop r pre structVars0 = Ok (v1, r1)
      ∧ props v1 !! name = None
      ∧ SchemaFromField r1 (Some (Parent info)) (Field info) = Ok (Some prop, r2)
      ∧ Registry_Schema r1 (reflect.Type_ (Field info)) true
          (fieldHint (Some (Parent info)) (Field info)) = Ok (Some fs, r2)
      ∧ fieldSchema (Field info) fs prop.
Proof.
  intros Hk Htime Hurl Hs Hprop.
  apply SchemaFromType_struct_shape in Hs
    as (v & Hloop & _ & _ & _ & _ & Hp & _); try done.
  rewrite Hp in Hprop.
  destruct (structLoop_props_origin _ _ _ _ _ _ _ Hloop Hprop)
    as [Hold|(pre & info & post & v1 & r1 & r2 & Hsplit & Hname & Hdash & Hpre
              & Hnone & Hfield)].
  { simpl in Hold. by rewrite lookup_empty in Hold. }
  split; [done|].
  destruct (SchemaFromField_Some _ _ _ _ _ Hfield) as (fs & Hreg & Hfs).
  by exists pre, info, post, v1, r1, r2, fs.
Qed.

(** X15. The table of required-property messages of the schema of a
    struct type has exactly the required names as its keys, each with
    the message "expected required property <name> to be present". *)
Theorem SchemaFromType_struct_msgRequired r t s r' :
  reflect.Kind_ (deref t) = reflect.Struct →
  reflect.identical (deref t) timeType = false →
  reflect.identical (deref t) urlType = false →
  SchemaFromType r t = Ok (Some s, r') →
  ∃ required m,
    Required s = Some required ∧ msgRequired s = Some m
    ∧ ∀ name,
        m !! name = if decide (name ∈ required)
                    then Some ("expected required property " +:+ name +:+ " to be present")
                    else None.
Proof.
  intros Hk Htime Hurl Hs.
  apply SchemaFromType_struct_shape in Hs
    as (v & Hloop & _ & _ & _ & _ & _ & Hreq & _ & _ & Hmsg); try done.
  exists (required v), (foldl insertRequired ∅ (required v)).
  split_and!; try done.
  intros name. rewrite lookup_foldl_insertRequired.
  destruct (decide (name ∈ required v)); [done | apply lookup_empty].
Qed.

(** X16. A collected field that is ignored (its serialized name is "-")
    or overridden (a field collected before it gave its name a schema)
    is never handed to [SchemaFromField]: the loop runs as if the field
    were not there, whatever its type and its other annotations are. *)
Theorem structLoop_skips r pre info post v :
  (serializedName info = "-"
   ∨ ∀ v1 r1, structLoop r pre v = Ok (v1, r1) →
              is_Some (props v1 !! serializedName info)) →
  structLoop r (pre ++ info :: post) v = structLoop r (pre ++ post) v.
Proof.
  intros Hskip. rewrite !structLoop_app.
  destruct (structLoop r pre v) as [[v1 r1]|msg] eqn:Hpre; [|done].
  cbn [bindR fst snd]. rewrite structLoop_cons. cbn zeta.
  destruct Hskip as [Hdash|Hshadow].
  - by rewrite decide_True.
  - destruct (decide _); [done|]. rewrite decide_True; [done|].
    by apply (Hshadow v1 r1).
Qed.

End Provenance.

(** ** Which fields [getFields] collects *)

(** Induction on a type that reaches the types of the fields of a struct. *)
Lemma type_nested_ind (P : reflect.type → Prop)
    (HScalar : ∀ nm k, P (reflect.Scalar nm k))
    (HPtr : ∀ nm e, P e → P (reflect.PtrTo nm e))
    (HSlice : ∀ nm e, P e → P (reflect.SliceOf nm e))
    (HArray : ∀ nm len e, P e → P (reflect.ArrayOf nm len e))
    (HMap : ∀ nm k e, P k → P e → P (reflect.MapOf nm k e))
    (HChan : ∀ nm e, P e → P (reflect.ChanOf nm e))
    (HFunc : ∀ nm, P (reflect.FuncOf nm))
    (HInterface : ∀ nm, P (reflect.InterfaceOf nm))
    (HStruct : ∀ nm fs, Forall (λ f, P (reflect.Type_ f)) fs → P (reflect.StructOf nm fs)) :
  ∀ t, P t.
Proof.
  fix IH 1. intros [nm k|nm e|nm e|nm len e|nm k e|nm e|nm|nm|nm fs].
  - apply HScalar.
  - apply HPtr, IH.
  - apply HSlice, IH.
  - apply HArray, IH.
  - apply HMap; apply IH.
  - apply HChan, IH.
  - apply HFunc.
  - apply HInterface.
  - apply HStruct. revert fs. fix IHfs 1. intros [|f fs].
    + constructor.
    + constructor; [apply IH | apply IHfs].
Qed.

(** [embeds typ parent]: the struct type [parent] is [typ] or is reached
    from it through exported embedded fields, stripping the pointers of
    each embedded field's type. *)
Inductive embeds : reflect.type → reflect.type → Prop :=
| embeds_here nm fs : embeds (reflect.StructOf nm fs) (reflect.StructOf nm fs)
| embeds_field nm fs f parent :
    f ∈ fs → reflect.IsExported f = true → reflect.Anonymous f = true →
    embeds (deref (reflect.Type_ f)) parent →
    embeds (reflect.StructOf nm fs) parent.

Lemma embeds_Struct typ parent : embeds typ parent → reflect.Kind_ typ = reflect.Struct.
Proof. by intros []. Qed.

Lemma elem_of_flat_map {A B} (g : A → list B) (l : list A) (y : B) :
  y ∈ flat_map g l ↔ ∃ x, x ∈ l ∧ y ∈ g x.
Proof.
  induction l as [|x l IH]; simpl.
  - split; [by intros ?%elem_of_nil | by intros (? & ?%elem_of_nil & _)].
  - rewrite elem_of_app, IH. split.
    + intros [Hy|(x' & Hx' & Hy)].
      * exists x. split; [apply list_elem_of_here | done].
      * exists x'. split; [by apply list_elem_of_further | done].
    + intros (x' & [->|Hx']%elem_of_cons & Hy); [by left|]. right. by exists x'.
Qed.

Lemma elem_of_directFields typ fs info :
  info ∈ directFields typ fs
  ↔ Parent info = typ ∧ Field info ∈ fs
    ∧ reflect.IsExported (Field info) = true ∧ reflect.Anonymous (Field info) = false.
Proof.
  unfold directFields. rewrite list_elem_of_fmap. split.
  - intros (f & -> & Hf). apply list_elem_of_filter in Hf as [[? ?] ?]. by simpl.
  - intros (<- & Hf & Hexp & Hanon). exists (Field info). split; [by destruct info|].
    by apply list_elem_of_filter.
Qed.

Lemma embeddedExpansion_sound t info :
  info ∈ embeddedExpansion t →
  embeds (deref t) (Parent info) ∧ Field info ∈ reflect.Fields (Parent info)
  ∧ reflect.IsExported (Field info) = true ∧ reflect.Anonymous (Field info) = false.
Proof.
  revert info. induction t as [| | | | | | | |nm fs IH] using type_nested_ind;
    intros info Hinfo; simpl in Hinfo; try (by apply elem_of_nil in Hinfo); [by auto|].
  apply elem_of_app in Hinfo as [Hdirect|Hembedded].
  - apply elem_of_directFields in Hdirect as (Hp & Hf & Hexp & Hanon).
    rewrite Hp. simpl. split_and!; try done. constructor.
  - apply elem_of_flat_map in Hembedded as (f & Hf & Hinfo).
    destruct (reflect.IsExported f) eqn:Hexp; simpl in Hinfo;
      [|by apply elem_of_nil in Hinfo].
    destruct (reflect.Anonymous f) eqn:Hanon; [|by apply elem_of_nil in Hinfo].
    rewrite Forall_forall in IH.
    destruct (IH f Hf info Hinfo) as (Hemb & ?). split; [|done].
    simpl. by eapply embeds_field.
Qed.

Lemma getFields_complete typ parent f :
  embeds typ parent → f ∈ reflect.Fields parent →
  reflect.IsExported f = true → reflect.Anonymous f = false →
  {| Parent := parent; Field := f |} ∈ getFields typ.
Proof.
  intros Hemb Hf Hexp Hanon.
  induction Hemb as [nm fs|nm fs f' parent Hin Hfe Hfa Hemb IH].
  - rewrite getFields_unfold. apply elem_of_app. left.
    by apply elem_of_directFields.
  - rewrite getFields_unfold. apply elem_of_app. right.
    apply elem_of_flat_map. exists f'. split.
    + unfold embeddedFields. by apply list_elem_of_filter.
    + cbn zeta. rewrite decide_True by (by eapply embeds_Struct). by apply IH.
Qed.

(** X17. [getFields] collects, for a struct type, exactly the exported
    fields that are not embedded of the type itself and of every struct
    type reached through exported embedded fields (pointers to structs
    included), each with the struct that declares it as its parent.
    Unexported fields, and what is embedded in them, are never
    collected. *)
Theorem getFields_iff nm fs info :
  info ∈ getFields (reflect.StructOf nm fs)
  ↔ embeds (reflect.StructOf nm fs) (Parent info)
    ∧ Field info ∈ reflect.Fields (Parent info)
    ∧ reflect.IsExported (Field info) = true
    ∧ reflect.Anonymous (Field info) = false.
Proof.
  split.
  - intros Hinfo. by apply (embeddedExpansion_sound (reflect.StructOf nm fs)).
  - intros (? & ? & ? & ?). destruct info as [parent f]. by apply getFields_complete.
Qed.

(** X18. [deref] strips exactly the pointers a type starts with: its
    result is [u] if and only if the type is [u] under some number of
    pointers and [u] is no pointer. *)
Theorem deref_iff t u :
  deref t = u ↔ (∃ nms, t = pointers nms u) ∧ reflect.Kind_ u ≠ reflect.Ptr.
Proof.
  split.
  - intros <-. split; [|apply deref_not_Ptr].
    induction t as [| nm e IH | | | | | | |]; try (by exists []).
    destruct IH as [nms Hnms]. exists (nm :: nms). simpl. by rewrite <- Hnms.
  - intros [[nms ->] Hu]. rewrite deref_pointers.
    destruct u; try done.
Qed.

Section Special.
Context {lib : GoLib} {R : Type} {reg : Registry R}.
Implicit Types (r : R) (t : reflect.type).

Lemma identical_timeType_Struct t :
  reflect.identical t timeType = true → reflect.Kind_ t = reflect.Struct.
Proof. destruct t; simpl; rewrite ?andb_false_r; try discriminate. done. Qed.

Lemma identical_urlType_Struct t :
  reflect.identical t urlType = true → reflect.Kind_ t = reflect.Struct.
Proof. destruct t; simpl; rewrite ?andb_false_r; try discriminate. done. Qed.

Lemma identical_time_not_url t :
  reflect.identical t timeType = true → reflect.identical t urlType = false.
Proof.
  destruct t as [| | | | | | | |nm fs]; simpl; rewrite ?andb_false_r; try discriminate.
  unfold reflect.TypeName_eqb. simpl.
  intros [[Hp _]%andb_true_iff _]%andb_true_iff.
  apply bool_decide_eq_true in Hp. rewrite Hp. done.
Qed.

(** X19. The three types [SchemaFromType] knows by identity, behind
    any number of pointers: [time.Time] is a string in date-time
    format, [url.URL] a string in uri format, [net.IP] a string in ipv4
    format -- no object with the struct's fields, no base64 string --
    and the registry is left as it was. *)
Theorem SchemaFromType_special r t format :
  (reflect.identical (deref t) timeType = true ∧ format = "date-time")
  ∨ (reflect.identical (deref t) urlType = true ∧ format = "uri")
  ∨ (reflect.identical (deref t) ipType = true ∧ format = "ipv4") →
  SchemaFromType r t
    = Ok (Some (set_Format format (set_Type_ TypeString emptySchema)), r).
Proof.
  intros [[Ht ->]|[[Ht ->]|[Ht ->]]]; unfold SchemaFromType.
  - destruct (reflect.identical (deref t) ipType) eqn:Hip.
    { apply identical_ipType_Slice in Hip. apply identical_timeType_Struct in Ht.
      congruence. }
    by rewrite (identical_timeType_Struct _ Ht), Ht.
  - destruct (reflect.identical (deref t) ipType) eqn:Hip.
    { apply identical_ipType_Slice in Hip. apply identical_urlType_Struct in Ht.
      congruence. }
    rewrite (identical_urlType_Struct _ Ht), Ht.
    destruct (reflect.identical (deref t) timeType) eqn:Htime; [|done].
    apply identical_time_not_url in Htime. congruence.
  - by rewrite Ht.
Qed.

End Special.

(** ** When [SchemaFromField] and [SchemaFromType] return *)

(** The collected fields that get a property: those whose serialized name
    is not "-" and is not the name of a field before them ([seen] holds
    the names taken so far). *)
Fixpoint firstByName (seen : list string) (infos : list fieldInfo) : list fieldInfo :=
  match infos with
  | [] => []
  | info :: infos' =>
      if decide (serializedName info = "-" ∨ serializedName info ∈ seen)
      then firstByName seen infos'
      else info :: firstByName (serializedName info :: seen) infos'
  end.

Lemma PrecomputeMessages_returns {lib : GoLib} (s : Schema) :
  Pattern s = "" ∨ regexp_error (Pattern s) = None →
  ∃ s', PrecomputeMessages s = Ok s'.
Proof.
  intros Hp. unfold PrecomputeMessages.
  destruct (decide (Pattern s ≠ "")) as [Hne|_]; simpl; [|eauto].
  destruct Hp as [?| ->]; [done|]. simpl. eauto.
Qed.

Section Returns.
Context {lib : GoLib} {R : Type} {reg : Registry R}.
Implicit Types (r : R) (t : reflect.type) (f : reflect.StructField) (fs s : Schema).

(** Annotations that [SchemaFromField] accepts: boolean tags that are
    "true" or "false", integer and number tags that parse, default,
    example and enum values of a string type (taken literally), a
    pattern that compiles.  [fs] is the schema of the field's type. *)
Record wellFormed (f : reflect.StructField) (fs : Schema) : Prop := {
  wf_bool :
    ∀ tag, tag ∈ boolTags → reflect.Get (reflect.Tag f) tag ∈ [""; "true"; "false"];
  wf_int :
    ∀ tag, tag ∈ intTags →
      reflect.Get (reflect.Tag f) tag = ""
      ∨ ∃ i, Atoi (reflect.Get (reflect.Tag f) tag) = inl i;
  wf_float :
    ∀ tag, tag ∈ floatTags →
      reflect.Get (reflect.Tag f) tag = ""
      ∨ ∃ x, ParseFloat (reflect.Get (reflect.Tag f) tag) = inl x;
  wf_value :
    ∀ tag, tag ∈ ["default"; "example"] →
      reflect.Get (reflect.Tag f) tag = ""
      ∨ reflect.Kind_ (reflect.Type_ f) = reflect.String;
  wf_enum :
    reflect.Get (reflect.Tag f) "enum" = ""
    ∨ ∃ fType, enumType f fs = Some fType
               ∧ reflect.Kind_ fType = reflect.String
               ∧ (Type_ fs = TypeArray → is_Some (Items fs));
  wf_pattern :
    reflect.Get (reflect.Tag f) "pattern" = ""
    ∨ regexp_error (reflect.Get (reflect.Tag f) "pattern") = None;
}.

Lemma boolTag_returns f tag :
  reflect.Get (reflect.Tag f) tag ∈ [""; "true"; "false"] →
  ∃ b, boolTag f tag = Ok b.
Proof.
  intros Hv. unfold boolTag. rewrite !elem_of_cons in Hv.
  repeat case_decide; eauto.
  destruct Hv as [?|[?|[?|Hv]]]; try done. by apply elem_of_nil in Hv.
Qed.

Lemma intTag_returns f tag :
  reflect.Get (reflect.Tag f) tag = ""
  ∨ (∃ i, Atoi (reflect.Get (reflect.Tag f) tag) = inl i) →
  ∃ o, intTag f tag = Ok o.
Proof.
  intros Hv. unfold intTag. case_decide; [|eauto].
  destruct Hv as [?|[i ->]]; [done | eauto].
Qed.

Lemma floatTag_returns f tag :
  reflect.Get (reflect.Tag f) tag = ""
  ∨ (∃ x, ParseFloat (reflect.Get (reflect.Tag f) tag) = inl x) →
  ∃ o, floatTag f tag = Ok o.
Proof.
  intros Hv. unfold floatTag. case_decide; [|eauto].
  destruct Hv as [?|[i ->]]; [done | eauto].
Qed.

Lemma jsonTagValue_String f t value :
  reflect.Kind_ t = reflect.String → jsonTagValue f t value = Ok (VString value).
Proof. intros Hk. unfold jsonTagValue. by rewrite decide_True. Qed.

Lemma jsonTag_returns f tag multi :
  reflect.Get (reflect.Tag f) tag = ""
  ∨ reflect.Kind_ (reflect.Type_ f) = reflect.String →
  ∃ v, jsonTag f tag multi = Ok v.
Proof.
  intros Hv. unfold jsonTag. cbn zeta. case_decide; [|eauto].
  destruct Hv as [?|Hk]; [done|]. rewrite jsonTagValue_String by done. eauto.
Qed.

Ltac tag_in := unfold boolTags, intTags, floatTags; rewrite !elem_of_cons; tauto.

Lemma SchemaFromField_wellFormed r parent f fs r' :
  Registry_Schema r (reflect.Type_ f) true (fieldHint parent f) = Ok (Some fs, r') →
  wellFormed f fs →
  ∃ fs', SchemaFromField r parent f = Ok (Some fs', r').
Proof.
  intros Hreg [Hbool Hint Hfloat Hvalue Henum Hpattern].
  unfold SchemaFromField. unfold fieldHint in Hreg. cbn zeta. rewrite Hreg.
  cbn [bindR].
  destruct (jsonTag_returns f "default" false) as [? ->]; [apply Hvalue; tag_in|].
  cbn [bindR].
  destruct (jsonTag_returns f "example" false) as [? ->]; [apply Hvalue; tag_in|].
  cbn [bindR].
  assert (∃ p,
    (if decide (reflect.Get (reflect.Tag f) "enum" ≠ "") then
       let! fType :=
         if decide (Type_ fs = TypeArray) then
           match reflect.Elem (reflect.Type_ f) with
           | Some e => Ok e
           | None => Panic "reflect: Elem of invalid type"
           end
         else Ok (reflect.Type_ f) in
       let! enumValues :=
         mapR (jsonTagValue f fType)
           (Split (reflect.Get (reflect.Tag f) "enum") comma) in
       if decide (Type_ fs = TypeArray) then
         match Items fs with
         | Some items => Ok (Enum fs, Some (set_Enum enumValues items))
         | None =>
             Panic "runtime error: invalid memory address or nil pointer dereference"
         end
       else Ok (enumValues, Items fs)
     else Ok (Enum fs, Items fs)) = Ok p) as [[? ?] ->].
  { case_decide; [|eauto].
    destruct Henum as [?|(fType & HfType & Hk & Hitems)]; [done|].
    unfold enumType in HfType.
    destruct (decide (Type_ fs = TypeArray)) as [Harr|Harr].
    - rewrite HfType. cbn [bindR].
      rewrite (mapR_Ok VString) by (intros; by apply jsonTagValue_String).
      cbn [bindR]. destruct (Hitems Harr) as [items ->]. eauto.
    - injection HfType as <-. cbn [bindR].
      rewrite (mapR_Ok VString) by (intros; by apply jsonTagValue_String).
      cbn [bindR]. eauto. }
  cbn [bindR].
  destruct (floatTag_returns f "minimum") as [? ->]; [apply Hfloat; tag_in|].
  cbn [bindR].
  destruct (floatTag_returns f "exclusiveMinimum") as [? ->]; [apply Hfloat; tag_in|].
  cbn [bindR].
  destruct (floatTag_returns f "maximum") as [? ->]; [apply Hfloat; tag_in|].
  cbn [bindR].
  destruct (floatTag_returns f "exclusiveMaximum") as [? ->]; [apply Hfloat; tag_in|].
  cbn [bindR].
  destruct (floatTag_returns f "multipleOf") as [? ->]; [apply Hfloat; tag_in|].
  cbn [bindR].
  destruct (intTag_returns f "minLength") as [? ->]; [apply Hint; tag_in|].
  cbn [bindR].
  destruct (intTag_returns f "maxLength") as [? ->]; [apply Hint; tag_in|].
  cbn [bindR].
  destruct (intTag_returns f "minItems") as [? ->]; [apply Hint; tag_in|].
  cbn [bindR].
  destruct (intTag_returns f "maxItems") as [? ->]; [apply Hint; tag_in|].
  cbn [bindR].
  destruct (boolTag_returns f "uniqueItems") as [? ->]; [apply Hbool; tag_in|].
  cbn [bindR].
  destruct (intTag_returns f "minProperties") as [? ->]; [apply Hint; tag_in|].
  cbn [bindR].
  destruct (intTag_returns f "maxProperties") as [? ->]; [apply Hint; tag_in|].
  cbn [bindR].
  destruct (boolTag_returns f "readOnly") as [? ->]; [apply Hbool; tag_in|].
  cbn [bindR].
  destruct (boolTag_returns f "writeOnly") as [? ->]; [apply Hbool; tag_in|].
  cbn [bindR].
  destruct (boolTag_returns f "deprecated") as [? ->]; [apply Hbool; tag_in|].
  cbn [bindR].
  match goal with
  | |- context [PrecomputeMessages ?s] =>
      destruct (PrecomputeMessages_returns s Hpattern) as [fs' ->]
  end.
  cbn [bindR]. eauto.
Qed.

(** X20. [SchemaFromField] returns a schema whenever the registry has a
    schema for the field's type and the field's annotations are well
    formed; the schema it returns is the registry's with the
    annotations applied and the messages computed. *)
Theorem SchemaFromField_returns r parent f fs r' :
  Registry_Schema r (reflect.Type_ f) true (fieldHint parent f) = Ok (Some fs, r') →
  wellFormed f fs →
  ∃ fs', SchemaFromField r parent f = Ok (Some fs', r') ∧ fieldSchema f fs fs'.
Proof.
  intros Hreg Hwf.
  destruct (SchemaFromField_wellFormed _ _ _ _ _ Hreg Hwf) as [fs' Hfs'].
  exists fs'. split; [done|].
  apply SchemaFromField_Some in Hfs' as (fs0 & Hreg0 & Hrel).
  rewrite Hreg in Hreg0. by injection Hreg0 as <-.
Qed.

(** The registry has a schema for the type of each field in [infos],
    whatever its state, and the field's annotations are well formed. *)
Definition fieldsAccepted (infos : list fieldInfo) : Prop :=
  ∀ r1 info, info ∈ infos →
    ∃ fs r2,
      Registry_Schema r1 (reflect.Type_ (Field info)) true
        (fieldHint (Some (Parent info)) (Field info)) = Ok (Some fs, r2)
      ∧ wellFormed (Field info) fs.

Lemma structLoop_returns r infos v seen :
  (∀ name, is_Some (props v !! name) ↔ name ∈ seen) →
  fieldsAccepted (firstByName seen infos) →
  ∃ v' r',
    structLoop r infos v = Ok (v', r')
    ∧ propNames v' = propNames v ++ map serializedName (firstByName seen infos)
    ∧ required v'
        = required v
          ++ map serializedName
               (filter (λ info, omitEmpty info = false) (firstByName seen infos))
    ∧ ∀ name, is_Some (props v' !! name)
              ↔ name ∈ seen ∨ name ∈ map serializedName (firstByName seen infos).
Proof.
  revert r v seen. induction infos as [|info infos IH]; intros r v seen Hseen Hacc.
  - exists v, r. simpl. rewrite !app_nil_r. split_and!; try done.
    intros name. rewrite Hseen. split; [by left|].
    by intros [?|?%elem_of_nil].
  - rewrite structLoop_cons. cbn zeta. simpl in Hacc |- *.
    change (serializedName info) with (fieldName (Field info)).1 in *.
    destruct (decide ((fieldName (Field info)).1 = "-")) as [Hdash|Hdash].
    { rewrite decide_True in Hacc |- * by (by left). by apply IH. }
    destruct (decide (is_Some (props v !! (fieldName (Field info)).1))) as [Hdup|Hdup].
    { rewrite decide_True in Hacc |- * by (right; by apply Hseen). by apply IH. }
    rewrite decide_False in Hacc |- * by (intros [?|?%Hseen]; done).
    destruct (Hacc r info) as (fs & r1 & Hreg & Hwf); [apply list_elem_of_here|].
    destruct (SchemaFromField_wellFormed _ _ _ _ _ Hreg Hwf) as [fs' ->].
    cbn [bindR fst snd].
    destruct (IH r1 (addProperty v (fieldName (Field info)).1
                       (fieldName (Field info)).2 fs')
                ((fieldName (Field info)).1 :: seen))
      as (v' & r' & -> & Hnames & Hreq & Hprops).
    { simpl. intros name. rewrite elem_of_cons.
      destruct (decide (name = (fieldName (Field info)).1)) as [->|Hne].
      - rewrite lookup_insert_eq. split; [by left | by eauto].
      - rewrite lookup_insert_ne by done. rewrite Hseen. split; [by right|].
        by intros [?|?]. }
    { intros r2 i Hi. apply Hacc. by apply list_elem_of_further. }
    exists v', r'. split; [done|]. simpl in Hnames, Hreq.
    split_and!.
    + rewrite Hnames, <- app_assoc. done.
    + rewrite Hreq. rewrite filter_cons.
      change (omitEmpty info) with (fieldName (Field info)).2.
      destruct (fieldName (Field info)).2.
      * rewrite decide_False by done. done.
      * rewrite decide_True by done. by rewrite <- app_assoc.
    + intros name. rewrite Hprops. simpl. rewrite !elem_of_cons.
      change (serializedName info) with (fieldName (Field info)).1. tauto.
Qed.

(** X21. [SchemaFromType] returns an object schema for a struct type
    (none of the special ones) whenever the registry has a schema for
    the type of every field that gets a property and these fields are
    well annotated; the fields that are ignored or overridden need not
    be.  The property names are then exactly the serialized names of the
    collected fields, without "-" and without repetitions, in the order
    in which field resolution lists them first; the required names are
    those of them whose field is not marked omitempty; and a property
    exists for exactly these names. *)
Theorem SchemaFromType_struct_returns r t :
  reflect.Kind_ (deref t) = reflect.Struct →
  reflect.identical (deref t) timeType = false →
  reflect.identical (deref t) urlType = false →
  fieldsAccepted (firstByName [] (getFields (deref t))) →
  ∃ s r',
    SchemaFromType r t = Ok (Some s, r')
    ∧ propertyNames s = map serializedName (firstByName [] (getFields (deref t)))
    ∧ Required s
        = Some (map serializedName
                  (filter (λ info, omitEmpty info = false)
                     (firstByName [] (getFields (deref t)))))
    ∧ ∀ name, is_Some (Properties s !! name) ↔ name ∈ propertyNames s.
Proof.
  intros Hk Htime Hurl Hacc.
  destruct (structLoop_returns r (getFields (deref t)) structVars0 [])
    as (v & r' & Hloop & Hnames & Hreq & Hprops); [|done|].
  { intros name. simpl. rewrite lookup_empty. split; [by intros [? ?]|].
    by intros ?%elem_of_nil. }
  simpl in Hnames, Hreq.
  assert (reflect.identical (deref t) ipType = false) as Hip.
  { destruct (reflect.identical (deref t) ipType) eqn:Hip; [|done].
    apply identical_ipType_Slice in Hip. congruence. }
  unfold SchemaFromType. rewrite Hip, Hk, Htime, Hurl, Hloop. cbn [bindR].
  match goal with
  | |- context [PrecomputeMessages ?s0] =>
      destruct (PrecomputeMessages_returns s0) as [s Hs]; [by left|]
  end.
  rewrite Hs. cbn [bindR]. exists s, r'. split; [done|].
  apply PrecomputeMessages_Ok in Hs as (re & msg & _ & ->). cbn.
  rewrite Hnames, Hreq. split_and!; try done.
  intros name. rewrite Hprops. split; [|by right].
  by intros [?%elem_of_nil|?].
Qed.

End Returns.

(** * The further properties on concrete inputs *)

Section MoreExamples.
Import examples.
#[local] Existing Instance lib.
#[local] Existing Instance vlib.
#[local] Existing Instance registry.

(** [[4]int] and [*time.Time]. *)
Definition intArray4 : reflect.type := reflect.ArrayOf reflect.unnamed 4 intT.
Definition timePointer : reflect.type := reflect.PtrTo reflect.unnamed timeType.

(** [Count uint32 `json:"count"`] and the same field with a minimum. *)
Definition countField : reflect.StructField := field "Count" uint32T [("json", "count")].
Definition countFrom1 : reflect.StructField :=
  field "Count" uint32T [("json", "count"); ("minimum", "1")].
Definition Counter : reflect.type := struct "Counter" [countField].

(** [Kind string `json:"kind" enum:"one, two" default:"one"`] *)
Definition kindField : reflect.StructField :=
  field "Kind" stringT [("json", "kind"); ("enum", "one, two"); ("default", "one")].
Definition Kinded : reflect.type := struct "Kinded" [kindField].

(**
<<
    type Person struct {
      Name string `json:"name" doc:"Full name"`
      Nick string `json:"nick,omitempty"`
      Skip int    `json:"-" minimum:"abc"`
      Name2 int   `json:"name"`
    }
>> *)
Definition nameField : reflect.StructField :=
  field "Name" stringT [("json", "name"); ("doc", "Full name")].
Definition nickField : reflect.StructField :=
  field "Nick" stringT [("json", "nick,omitempty")].
Definition skipField : reflect.StructField :=
  field "Skip" intT [("json", "-"); ("minimum", "abc")].
Definition name2Field : reflect.StructField := field "Name2" intT [("json", "name")].
Definition Person : reflect.type :=
  struct "Person" [nameField; nickField; skipField; name2Field].

(** A schema whose minimum was removed after its messages were
    computed. *)
Definition stale : Schema := set_Minimum None boundedFinal.

Definition staleFinal : Schema :=
  match PrecomputeMessages stale with
  | Ok s => s
  | Panic _ => emptySchema
  end.

Lemma SchemaFromType_leaf_witness :
  consultsRegistry byteArray4 = false ∧ ∃ os, run byteArray4 = Ok (os, registry0).
Proof.
  split; [reflexivity|].
  exact (SchemaFromType_leaf registry0 byteArray4 eq_refl).
Defined.

Lemma SchemaFromType_signed_witness :
  reflect.SInt64 ∈ signedKinds
  ∧ ∃ s, run int64T = Ok (Some s, registry0)
         ∧ Type_ s = TypeInteger ∧ Minimum s = None ∧ Format s = "int64".
Proof.
  assert (reflect.SInt64 ∈ signedKinds) as Hk.
  { unfold signedKinds. do 4 apply list_elem_of_further. apply list_elem_of_here. }
  split; [exact Hk|].
  exact (SchemaFromType_signed registry0 (named "" "int64") reflect.SInt64 Hk).
Defined.

(** [[4]int] has its bounds and no message for them. *)
Lemma SchemaFromType_no_messages_witness :
  run intArray4 = Ok (Some (schemaOf intArray4), registry0)
  ∧ reflect.Kind_ (deref intArray4) ≠ reflect.Struct
  ∧ MinItems (schemaOf intArray4) = Some 4
  ∧ msgMinItems (schemaOf intArray4) = "".
Proof.
  assert (run intArray4 = Ok (Some (schemaOf intArray4), registry0)) as Hrun
    by (vm_compute; reflexivity).
  assert (reflect.Kind_ (deref intArray4) ≠ reflect.Struct) as Hk by discriminate.
  split; [exact Hrun|]. split; [exact Hk|]. split; [vm_compute; reflexivity|].
  exact (proj1 (proj2 (proj2
           (SchemaFromType_no_messages registry0 intArray4 _ _ Hrun Hk)))).
Defined.

Lemma PrecomputeMessages_current_witness :
  PrecomputeMessages bounded = Ok boundedFinal ∧ messagesCurrent boundedFinal.
Proof.
  assert (PrecomputeMessages bounded = Ok boundedFinal) as Hpm
    by (vm_compute; reflexivity).
  split; [exact Hpm|].
  exact (PrecomputeMessages_current _ _ Hpm).
Defined.

(** The minimum is gone and its message stays. *)
Lemma PrecomputeMessages_keeps_stale_witness :
  PrecomputeMessages stale = Ok staleFinal
  ∧ Minimum stale = None
  ∧ msgMinimum stale = "expected number >= 1"
  ∧ msgMinimum staleFinal = msgMinimum stale.
Proof.
  assert (PrecomputeMessages stale = Ok staleFinal) as Hpm
    by (vm_compute; reflexivity).
  assert (Minimum stale = None) as Hmin by reflexivity.
  split; [exact Hpm|]. split; [exact Hmin|]. split; [vm_compute; reflexivity|].
  exact (proj1 (PrecomputeMessages_keeps_stale _ _ Hpm) Hmin).
Defined.

(** A [uint32] field without a minimum tag: the minimum 0 of the type's
    schema is dropped. *)
Lemma SchemaFromField_bounds_from_tags_witness :
  SchemaFromField registry0 (Some Counter) countField
    = Ok (Some (fieldSchemaOf Counter countField), registry0)
  ∧ Minimum (schemaOf uint32T) = Some 0%float
  ∧ Minimum (fieldSchemaOf Counter countField) = None.
Proof.
  assert (SchemaFromField registry0 (Some Counter) countField
          = Ok (Some (fieldSchemaOf Counter countField), registry0)) as Hf
    by (vm_compute; reflexivity).
  split; [exact Hf|]. split; [vm_compute; reflexivity|].
  exact (proj1 (SchemaFromField_bounds_from_tags _ _ _ _ _ Hf) eq_refl).
Defined.

Lemma SchemaFromField_keeps_structure_witness :
  SchemaFromField registry0 (Some Counter) countField
    = Ok (Some (fieldSchemaOf Counter countField), registry0)
  ∧ ∃ fs,
      Registry_Schema registry0 uint32T true (fieldHint (Some Counter) countField)
        = Ok (Some fs, registry0)
      ∧ Type_ (fieldSchemaOf Counter countField) = Type_ fs
      ∧ messagesCurrent (fieldSchemaOf Counter countField).
Proof.
  assert (SchemaFromField registry0 (Some Counter) countField
          = Ok (Some (fieldSchemaOf Counter countField), registry0)) as Hf
    by (vm_compute; reflexivity).
  split; [exact Hf|].
  destruct (SchemaFromField_keeps_structure _ _ _ _ _ Hf)
    as (fs & Hreg & HType & _ & _ & _ & _ & _ & _ & _ & _ & Hmsg).
  exists fs. split; [exact Hreg|]. split; [exact HType | exact Hmsg].
Defined.

(** The second member keeps its leading space. *)
Lemma SchemaFromField_string_literals_witness :
  SchemaFromField registry0 (Some Kinded) kindField
    = Ok (Some (fieldSchemaOf Kinded kindField), registry0)
  ∧ reflect.Kind_ (reflect.Type_ kindField) = reflect.String
  ∧ Type_ (fieldSchemaOf Kinded kindField) ≠ TypeArray
  ∧ Enum (fieldSchemaOf Kinded kindField) = [VString "one"; VString " two"]
  ∧ Default (fieldSchemaOf Kinded kindField) = VString "one".
Proof.
  assert (SchemaFromField registry0 (Some Kinded) kindField
          = Ok (Some (fieldSchemaOf Kinded kindField), registry0)) as Hf
    by (vm_compute; reflexivity).
  assert (reflect.Kind_ (reflect.Type_ kindField) = reflect.String) as Hk by reflexivity.
  assert (Type_ (fieldSchemaOf Kinded kindField) ≠ TypeArray) as Harr
    by (vm_compute; discriminate).
  split; [exact Hf|]. split; [exact Hk|]. split; [exact Harr|].
  destruct (SchemaFromField_string_literals _ _ _ _ _ Hf Hk Harr) as [Henum Hdefault].
  split.
  - exact (Henum ltac:(discriminate)).
  - exact (Hdefault ltac:(discriminate)).
Defined.

Lemma Person_run :
  run Person = Ok (Some (schemaOf Person), registryAfter Person).
Proof. vm_compute. reflexivity. Qed.

Lemma Person_time : reflect.identical (deref Person) timeType = false.
Proof. reflexivity. Qed.

Lemma Person_url : reflect.identical (deref Person) urlType = false.
Proof. reflexivity. Qed.

Lemma SchemaFromType_struct_names_witness :
  reflect.Kind_ (deref Person) = reflect.Struct
  ∧ run Person = Ok (Some (schemaOf Person), registryAfter Person)
  ∧ map serializedName (getFields (deref Person)) = ["name"; "nick"; "-"; "name"]
  ∧ propertyNames (schemaOf Person) = ["name"; "nick"]
  ∧ Required (schemaOf Person) = Some ["name"]
  ∧ Type_ (schemaOf Person) = TypeObject
  ∧ AdditionalProperties (schemaOf Person) = APBool false
  ∧ propertyNames (schemaOf Person) `sublist_of` map serializedName (getFields (deref Person)).
Proof.
  split; [reflexivity|]. split; [exact Person_run|].
  split; [reflexivity|]. split; [vm_compute; reflexivity|].
  split; [vm_compute; reflexivity|].
  destruct (SchemaFromType_struct_names registry0 Person _ _ eq_refl Person_time
              Person_url Person_run) as (HType & HAP & Hsub & _).
  split; [exact HType|]. split; [exact HAP | exact Hsub].
Defined.

Definition nameProperty : Schema :=
  default emptySchema (Properties (schemaOf Person) !! "name").

(** The property "name" of [Person] is made of the first field named
    "name", a string, not of the later [Name2], an integer. *)
Lemma SchemaFromType_struct_properties_witness :
  reflect.Kind_ (deref Person) = reflect.Struct
  ∧ run Person = Ok (Some (schemaOf Person), registryAfter Person)
  ∧ Properties (schemaOf Person) !! "name" = Some nameProperty
  ∧ Type_ nameProperty = TypeString
  ∧ ∃ pre info post v1 r1 r2 fs,
      getFields (deref Person) = pre ++ info :: post
      ∧ serializedName info = "name"
      ∧ structLoop registry0 pre structVars0 = Ok (v1, r1)
      ∧ props v1 !! "name" = None
      ∧ SchemaFromField r1 (Some (Parent info)) (Field info)
        = Ok (Some nameProperty, r2)
      ∧ Registry_Schema r1 (reflect.Type_ (Field info)) true
          (fieldHint (Some (Parent info)) (Field info)) = Ok (Some fs, r2)
      ∧ fieldSchema (Field info) fs nameProperty.
Proof.
  assert (Properties (schemaOf Person) !! "name" = Some nameProperty) as Hprop
    by (vm_compute; reflexivity).
  split; [reflexivity|]. split; [exact Person_run|]. split; [exact Hprop|].
  split; [vm_compute; reflexivity|].
  exact (proj2 (SchemaFromType_struct_properties registry0 Person _ _ "name" _
                  eq_refl Person_time Person_url Person_run Hprop)).
Defined.

Lemma SchemaFromType_struct_msgRequired_witness :
  reflect.Kind_ (deref Person) = reflect.Struct
  ∧ run Person = Ok (Some (schemaOf Person), registryAfter Person)
  ∧ ∃ required m,
      Required (schemaOf Person) = Some required
      ∧ msgRequired (schemaOf Person) = Some m
      ∧ m !! "name" = (if decide ("name" ∈ required)
                       then Some "expected required property name to be present"
                       else None)
      ∧ m !! "nick" = (if decide ("nick" ∈ required)
                       then Some "expected required property nick to be present"
                       else None).
Proof.
  split; [reflexivity|]. split; [exact Person_run|].
  destruct (SchemaFromType_struct_msgRequired registry0 Person _ _ eq_refl Person_time
              Person_url Person_run) as (required & m & Hreq & Hmsg & Hm).
  exists required, m. split; [exact Hreq|]. split; [exact Hmsg|].
  split; [exact (Hm "name") | exact (Hm "nick")].
Defined.

(** The ignored field of [Person], with its bound that does not parse,
    changes nothing. *)
Lemma structLoop_skips_witness :
  serializedName {| Parent := Person; Field := skipField |} = "-"
  ∧ structLoop registry0
      ([{| Parent := Person; Field := nameField |}]
       ++ {| Parent := Person; Field := skipField |}
          :: [{| Parent := Person; Field := name2Field |}]) structVars0
    = structLoop registry0
        ([{| Parent := Person; Field := nameField |}]
         ++ [{| Parent := Person; Field := name2Field |}]) structVars0.
Proof.
  split; [reflexivity|].
  exact (structLoop_skips registry0 [{| Parent := Person; Field := nameField |}]
           {| Parent := Person; Field := skipField |}
           [{| Parent := Person; Field := name2Field |}] structVars0
           (or_introl eq_refl)).
Defined.

Lemma SchemaFromType_special_witness :
  reflect.identical (deref timePointer) timeType = true
  ∧ run timePointer
    = Ok (Some (set_Format "date-time" (set_Type_ TypeString emptySchema)), registry0).
Proof.
  split; [reflexivity|].
  exact (SchemaFromType_special registry0 timePointer "date-time"
           (or_introl (conj eq_refl eq_refl))).
Defined.

Ltac tag_cases H :=
  unfold boolTags, intTags, floatTags in H; rewrite !elem_of_cons in H;
  repeat (destruct H as [->|H]); [..|by apply elem_of_nil in H].

Ltac well_formed :=
  split;
  [ intros tag Htag; tag_cases Htag; apply (bool_decide_unpack _); reflexivity
  | intros tag Htag; tag_cases Htag;
      first [by left | right; eexists; vm_compute; reflexivity]
  | intros tag Htag; tag_cases Htag;
      first [by left | right; eexists; vm_compute; reflexivity]
  | intros tag Htag; tag_cases Htag; first [by left | by right]
  | first [by left
          | right; eexists; split; [reflexivity|]; split; [reflexivity|];
            intros Harr; vm_compute in Harr; discriminate]
  | first [by left | right; vm_compute; reflexivity] ].

Lemma countFrom1_wellFormed : wellFormed countFrom1 (schemaOf uint32T).
Proof. well_formed. Qed.

(** A [uint32] field with the minimum 1. *)
Lemma SchemaFromField_returns_witness :
  Registry_Schema registry0 uint32T true (fieldHint (Some Counter) countFrom1)
    = Ok (Some (schemaOf uint32T), registry0)
  ∧ wellFormed countFrom1 (schemaOf uint32T)
  ∧ ∃ fs', SchemaFromField registry0 (Some Counter) countFrom1 = Ok (Some fs', registry0)
           ∧ fieldSchema countFrom1 (schemaOf uint32T) fs'.
Proof.
  assert (Registry_Schema registry0 (reflect.Type_ countFrom1) true
            (fieldHint (Some Counter) countFrom1)
          = Ok (Some (schemaOf uint32T), registry0)) as Hreg
    by (vm_compute; reflexivity).
  split; [exact Hreg|]. split; [exact countFrom1_wellFormed|].
  exact (SchemaFromField_returns registry0 (Some Counter) countFrom1 _ _ Hreg
           countFrom1_wellFormed).
Defined.

Lemma Person_first :
  firstByName [] (getFields (deref Person))
  = [{| Parent := Person; Field := nameField |};
     {| Parent := Person; Field := nickField |}].
Proof. vm_compute. reflexivity. Qed.

Lemma Person_accepted : fieldsAccepted (firstByName [] (getFields (deref Person))).
Proof.
  rewrite Person_first. intros r1 info Hin. rewrite !elem_of_cons in Hin.
  destruct Hin as [->|[->|Hin]]; [| |by apply elem_of_nil in Hin].
  - exists (schemaOf stringT), r1. split; [reflexivity|]. well_formed.
  - exists (schemaOf stringT), r1. split; [reflexivity|]. well_formed.
Qed.

(** [Person]: the ignored field [Skip], whose bound does not parse, and
    the overridden field [Name2] need not be well formed. *)
Lemma SchemaFromType_struct_returns_witness :
  reflect.Kind_ (deref Person) = reflect.Struct
  ∧ fieldsAccepted (firstByName [] (getFields (deref Person)))
  ∧ is_Panic (floatTag skipField "minimum") = true
  ∧ ∃ s r',
      run Person = Ok (Some s, r')
      ∧ propertyNames s = ["name"; "nick"]
      ∧ Required s = Some ["name"]
      ∧ (is_Some (Properties s !! "name") ↔ "name" ∈ propertyNames s).
Proof.
  split; [reflexivity|]. split; [exact Person_accepted|]. split; [reflexivity|].
  destruct (SchemaFromType_struct_returns registry0 Person eq_refl Person_time
              Person_url Person_accepted) as (s & r' & Hrun & Hnames & Hreq & Hprops).
  exists s, r'. split; [exact Hrun|].
  rewrite Person_first in Hnames, Hreq.
  split; [exact Hnames|]. split; [exact Hreq | exact (Hprops "name")].
Defined.

End MoreExamples.
